(** * DOD-SBIR-Scraper: topic resolution and batched PDF retrieval

    A shallow embedding of the search / download core of the repository:

    - [app/api/v1/schemas.py]              (module [Schemas])
    - [app/core/clients/dod_sbir_client.py] (module [Client])
    - [app/api/v1/endpoints/topics.py]      (module [Topics])
    - [main.py] and [src/main.py]           (modules [FormMain], [FormSrc])

    Python exceptions are the error half of a state-and-error monad; the
    state is the upstream service together with the log of the HTTP
    requests that were sent to it.  What is written with [print] is not
    kept.  httpx, pydantic, Starlette and zipfile are modelled at the calls
    the repository makes: [raise_for_status] raises outside 2xx, a [Field]
    bound raises [ValidationError], a response header is encoded as
    latin-1, an archive entry is filed under its name up to the first NUL
    and, on some Python versions, refused when that name is empty.

    A Python [str] is kept as its UTF-8 encoding: a character of a [str] is
    a leading byte of the [string] together with the continuation bytes
    that follow it.  So a [str] here holds no lone surrogate; and the name
    of an archive entry is taken to fit the 65535 bytes of the zip format. *)

From Stdlib Require Import ZArith String Ascii List Bool Lia DecimalString.
From Stdlib Require Import Floats.SpecFloat.
From stdpp Require Import base option list strings gmap.

Import ListNotations.
Local Open Scope Z_scope.

(** ** Python values *)

#[local] Set Warnings "-register-all".

(** What [json.loads] / [Response.json()] can produce.  A JSON object is kept
    as its list of items; [dict_get] reads the first item stored under a key. *)
Inductive json : Type :=
| JNull
| JBool (b : bool)
| JInt (n : Z)
| JFloat (f : spec_float)
| JStr (s : string)
| JArr (items : list json)
| JObj (items : list (string * json)).

Fixpoint dict_get (kv : list (string * json)) (k : string) : option json :=
  match kv with
  | [] => None
  | (k', v) :: rest => if String.eqb k' k then Some v else dict_get rest k
  end.

(** [str(n)] for an [int]. *)
Definition str_int (n : Z) : string := NilZero.string_of_int (Z.to_int n).

(** The double quote character, for the [Content-Disposition] header. *)
Definition dq : string := String (ascii_of_nat 34) EmptyString.

(** A byte [10xxxxxx] continues the character begun before it. *)
Definition is_continuation (c : ascii) : bool :=
  (128 <=? nat_of_ascii c)%nat && (nat_of_ascii c <? 192)%nat.

(** [s[:n]] on a [str]: its first [n] characters, each with the
    continuation bytes that belong to it. *)
Fixpoint py_prefix (n : nat) (s : string) : string :=
  match s with
  | EmptyString => EmptyString
  | String c rest =>
      if is_continuation c then String c (py_prefix n rest)
      else match n with
           | O => EmptyString
           | S n' => String c (py_prefix n' rest)
           end
  end.

(** [s.encode("latin-1")] succeeds: every character of [s] is below
    U+0100, that is, every byte of its UTF-8 encoding is below 0xC4. *)
Fixpoint latin1_encodable (s : string) : bool :=
  match s with
  | EmptyString => true
  | String c rest => (nat_of_ascii c <? 196)%nat && latin1_encodable rest
  end.

(** [chr(0) not in s] *)
Fixpoint nul_free (s : string) : bool :=
  match s with
  | EmptyString => true
  | String c rest => negb (Ascii.eqb c zero) && nul_free rest
  end.

(** [sep.join(l)]. *)
Definition py_join (sep : string) (l : list string) : string := String.concat sep l.

(** The exact value of a float against an [int]: Python compares the two
    without rounding the integer. *)
Definition Z_lt_float (n : Z) (f : spec_float) : bool :=
  match f with
  | S754_zero _ => n <? 0
  | S754_infinity s => negb s
  | S754_nan => false
  | S754_finite s m e =>
      let v := if s then Z.neg m else Z.pos m in
      if 0 <=? e then n <? v * 2 ^ e else n * 2 ^ (- e) <? v
  end.

(** Library behaviour that the repository calls and does not define. *)
Class PyLib : Type := {
  (** [repr] of floats, lists and dicts, as [str()] prints them *)
  py_repr : json -> string;
  (** [json.dumps] *)
  json_dumps : json -> string;
  (** [urllib.parse.quote] *)
  urllib_quote : string -> string;
  (** pydantic (lax mode) validation of an [int] field *)
  lax_int : json -> option Z;
  (** [math.ceil(total / page_size)]: [None] when it raises *)
  ceil_truediv : json -> Z -> option Z;
  (** [zipfile.ZipFile.writestr] given an entry whose name is empty: the
      text of the [IndexError] of the Python versions that raise it, [None]
      for those that file the entry *)
  empty_arcname_error : option string
}.

(** [str(v)] *)
Definition py_str `{PyLib} (v : json) : string :=
  match v with
  | JNull => "None"
  | JBool true => "True"
  | JBool false => "False"
  | JInt n => str_int n
  | JStr s => s
  | _ => py_repr v
  end.

(** Truthiness of a value, as in [if not uid]. *)
Definition py_truthy (v : json) : bool :=
  match v with
  | JNull => false
  | JBool b => b
  | JInt n => negb (n =? 0)
  | JFloat f => match f with S754_zero _ => false | _ => true end
  | JStr s => negb (String.eqb s EmptyString)
  | JArr l => match l with [] => false | _ => true end
  | JObj l => match l with [] => false | _ => true end
  end.

(** Truthiness of a [str]. *)
Definition str_truthy (s : string) : bool := negb (String.eqb s EmptyString).

(** ** HTTP layer (httpx) *)

(** What [resp.json()] raises where it raises: [json.JSONDecodeError] for
    a body that is text and not JSON, [UnicodeDecodeError] for a body that
    is not text. *)
Inductive json_exn : Type :=
| JsonDecode (msg : string)
| UnicodeDecode (msg : string).

Record Response : Type := {
  resp_status_code : Z;
  resp_url : string;                   (* [str(resp.request.url)]: the URL as
                                          httpx has it, of the last hop *)
  resp_content : list Byte.byte;           (* [resp.content] *)
  resp_text : string;                  (* [resp.text] *)
  resp_json : option json;             (* [resp.json()], [None]: it raises *)
  resp_json_exn : json_exn             (* what [resp.json()] raises then *)
}.

Record http_request : Type := {
  req_method : string;
  req_url : string;
  req_headers : gmap string string;
  req_follow_redirects : bool;
  req_json : option json
}.

(** ** Schemas that exceptions carry *)

Record ErrorResponse : Type := { detail : string; code : string }.

Definition ErrorResponse_model_dump (e : ErrorResponse) : json :=
  JObj [("detail", JStr (detail e)); ("code", JStr (code e))].

(** ** Exceptions

    [TimeoutException] and [NetworkError] are the two halves of
    [httpx.RequestError]: every timeout is a request error.  Messages of
    exceptions raised by the interpreter or by a library are abbreviated. *)
Inductive exn : Type :=
| TimeoutException (msg : string)
| NetworkError (msg : string)
| HTTPStatusError (msg : string) (request_url : string) (response : Response)
| DoDSBIRAPIError (message : string) (status_code : option Z)
| HTTPException (status_code : Z) (detail : json)
| ValidationError (msg : string)
| RuntimeError (msg : string)
| JSONDecodeError (msg : string)
| OtherException (msg : string).

Definition isinstance_TimeoutException (e : exn) : bool :=
  match e with TimeoutException _ => true | _ => false end.

Definition isinstance_RequestError (e : exn) : bool :=
  match e with TimeoutException _ | NetworkError _ => true | _ => false end.

Definition isinstance_DoDSBIRAPIError (e : exn) : bool :=
  match e with DoDSBIRAPIError _ _ => true | _ => false end.

Definition isinstance_RuntimeError (e : exn) : bool :=
  match e with RuntimeError _ => true | _ => false end.

Definition isinstance_JSONDecodeError (e : exn) : bool :=
  match e with JSONDecodeError _ => true | _ => false end.

Definition exn_of_json (e : json_exn) : exn :=
  match e with
  | JsonDecode m => JSONDecodeError m
  | UnicodeDecode m => OtherException m
  end.

(** [str(e)] *)
Definition str_exn `{PyLib} (e : exn) : string :=
  match e with
  | TimeoutException m | NetworkError m | HTTPStatusError m _ _
  | DoDSBIRAPIError m _ | ValidationError m | RuntimeError m
  | JSONDecodeError m | OtherException m => m
  | HTTPException sc d => str_int sc +:+ ": " +:+ py_str d
  end.

(** ** The monad: upstream state, request log, exceptions *)

(** What [httpx.AsyncClient.request] itself can raise: a timeout, another
    transport-level [RequestError], or something outside that hierarchy. *)
Inductive httpx_error : Type :=
| HxTimeout (msg : string)
| HxTransport (msg : string)
| HxOther (msg : string).

Definition exn_of_httpx (e : httpx_error) : exn :=
  match e with
  | HxTimeout m => TimeoutException m
  | HxTransport m => NetworkError m
  | HxOther m => OtherException m
  end.

(** [client_request] is [httpx.AsyncClient.request]: it answers with a
    response or raises, and the upstream may change. *)
Class Upstream (World : Type) : Type := {
  client_request : http_request -> World -> (httpx_error + Response) * World
}.

Section Monad.
Context {World : Type}.

Record St : Type := { world : World; sent : list http_request }.

Definition M (A : Type) : Type := St -> (exn + A) * St.

Definition ret {A} (a : A) : M A := fun s => (inr a, s).
Definition raise {A} (e : exn) : M A := fun s => (inl e, s).
Definition bind {A B} (m : M A) (k : A -> M B) : M B :=
  fun s => match m s with
           | (inr a, s') => k a s'
           | (inl e, s') => (inl e, s')
           end.
(** [try: m except Exception as e: h e] *)
Definition try_except {A} (m : M A) (h : exn -> M A) : M A :=
  fun s => match m s with
           | (inr a, s') => (inr a, s')
           | (inl e, s') => h e s'
           end.
Definition lift {A} (r : exn + A) : M A := fun s => (r, s).
End Monad.

Arguments St : clear implicits.
Arguments M : clear implicits.

Notation "'let*' x ':=' m 'in' k" := (bind m (fun x => k))
  (at level 10, x pattern, m at level 200, k at level 200).

(** The initial state of a request: nothing sent yet. *)
Definition start {World} (w : World) : St World := {| world := w; sent := [] |}.

(** [for x in l: ...], the loop body threading an accumulator. *)
Fixpoint for_each {World A S : Type} (body : S -> A -> M World S) (acc : S) (l : list A)
  : M World S :=
  match l with
  | [] => ret acc
  | x :: rest => let* acc' := body acc x in for_each body acc' rest
  end.

(** ** [app/core/config.py] *)

Module Settings.
Definition DOD_API_USER_AGENT : string :=
  "Mozilla/5.0 (Windows NT 10.0; Win64; x64) AppleWebKit/537.36 (KHTML, like Gecko) Chrome/91.0.4472.124 Safari/537.36".
Definition DOD_API_REFERER : string := "https://www.dodsbirsttr.mil/".
Definition DOD_SEARCH_API_URL : string := "https://www.dodsbirsttr.mil/api/topics/search".
(** [DOD_PDF_API_TEMPLATE.format(topic_uid=...)] *)
Definition DOD_PDF_API_TEMPLATE (topic_uid : string) : string :=
  "https://www.dodsbirsttr.mil/api/topics/" +:+ topic_uid +:+ "/pdf".
End Settings.

(** ** [app/api/v1/schemas.py] *)

Module Schemas.

Record Topic : Type := {
  topicCode : string;
  topicTitle : string;
  component : string;
  topicStatus : string;
  solicitationTitle : string;
  topicId : string;
  programYear : option Z;
  releaseNumber : option string;
  technologyArea : option string;
  keywords : option (list string)
}.

Record SearchRequest : Type := {
  term : option string;
  page : Z;
  page_size : Z;
  components : option (list string);
  program_years : option (list Z)
}.

Record DownloadRequest : Type := {
  selected_topics : list string;
  search_term : option string;
  dl_page : Z;
  dl_page_size : Z
}.

(** The [Field] constraints of [SearchRequest]:
    [page >= 0], [1 <= page_size <= 100]. *)
Definition SearchRequest_ok (r : SearchRequest) : bool :=
  (0 <=? page r) && (1 <=? page_size r) && (page_size r <=? 100).

(** The [Field] constraints of [DownloadRequest], checked by the framework
    before the endpoint runs: [min_length=1], [page >= 0],
    [1 <= page_size <= 100]. *)
Definition DownloadRequest_ok (r : DownloadRequest) : bool :=
  (1 <=? Z.of_nat (length (selected_topics r))) &&
  (0 <=? dl_page r) && (1 <=? dl_page_size r) && (dl_page_size r <=? 100).

Section Validation.
Context `{PyLib}.

(** [SearchRequest(term=..., page=..., page_size=...)]: the constructor
    validates, and raises pydantic's [ValidationError]. *)
Definition SearchRequest_init (term : option string) (page page_size : Z)
  : exn + SearchRequest :=
  let r := {| term := term; page := page; page_size := page_size;
              components := None; program_years := None |} in
  if negb (0 <=? page) then
    inl (ValidationError "page: Input should be greater than or equal to 0")
  else if negb (1 <=? page_size) then
    inl (ValidationError "page_size: Input should be greater than or equal to 1")
  else if negb (page_size <=? 100) then
    inl (ValidationError "page_size: Input should be less than or equal to 100")
  else inr r.

Definition required_str (kv : list (string * json)) (k : string) : exn + string :=
  match dict_get kv k with
  | Some (JStr s) => inr s
  | Some _ => inl (ValidationError (k +:+ ": Input should be a valid string"))
  | None => inl (ValidationError (k +:+ ": Field required"))
  end.

Definition optional_str (kv : list (string * json)) (k : string)
  : exn + option string :=
  match dict_get kv k with
  | None | Some JNull => inr None
  | Some (JStr s) => inr (Some s)
  | Some _ => inl (ValidationError (k +:+ ": Input should be a valid string"))
  end.

Definition optional_int (kv : list (string * json)) (k : string)
  : exn + option Z :=
  match dict_get kv k with
  | None | Some JNull => inr None
  | Some v => match lax_int v with
              | Some n => inr (Some n)
              | None => inl (ValidationError (k +:+ ": Input should be a valid integer"))
              end
  end.

Fixpoint list_of_str (l : list json) : option (list string) :=
  match l with
  | [] => Some []
  | JStr s :: rest => option_map (cons s) (list_of_str rest)
  | _ :: _ => None
  end.

(** [keywords: Optional[List[str]] = Field(default_factory=list)] *)
Definition optional_keywords (kv : list (string * json)) : exn + option (list string) :=
  match dict_get kv "keywords" with
  | None => inr (Some [])
  | Some JNull => inr None
  | Some (JArr l) => match list_of_str l with
                     | Some ks => inr (Some ks)
                     | None => inl (ValidationError "keywords: Input should be a valid string")
                     end
  | Some _ => inl (ValidationError "keywords: Input should be a valid list")
  end.

(** [convert_release_number_to_string], run before validation *)
Definition convert_release_number_to_string (v : json) : option string :=
  match v with
  | JNull => None
  | _ => Some (py_str v)
  end.

Definition release_number (kv : list (string * json)) : option string :=
  match dict_get kv "releaseNumber" with
  | None => None
  | Some v => convert_release_number_to_string v
  end.

Definition bind_r {A B} (r : exn + A) (k : A -> exn + B) : exn + B :=
  match r with inl e => inl e | inr a => k a end.

(** [Topic.model_validate(topic)] on a parsed JSON value *)
Definition Topic_model_validate (v : json) : exn + Topic :=
  match v with
  | JObj kv =>
      bind_r (required_str kv "topicCode") (fun tc =>
      bind_r (required_str kv "topicTitle") (fun tt =>
      bind_r (required_str kv "component") (fun co =>
      bind_r (required_str kv "topicStatus") (fun ts =>
      bind_r (required_str kv "solicitationTitle") (fun sol =>
      bind_r (required_str kv "topicId") (fun tid =>
      bind_r (optional_int kv "programYear") (fun py =>
      bind_r (optional_str kv "technologyArea") (fun ta =>
      bind_r (optional_keywords kv) (fun kw =>
      inr {| topicCode := tc; topicTitle := tt; component := co;
             topicStatus := ts; solicitationTitle := sol; topicId := tid;
             programYear := py; releaseNumber := release_number kv;
             technologyArea := ta; keywords := kw |})))))))))
  | _ => inl (ValidationError "Input should be a valid dictionary or instance of Topic")
  end.
End Validation.

End Schemas.

(** ** [app/core/clients/dod_sbir_client.py] *)

Module Client.
Import Schemas.

(** [d.get(k, dflt)]: only a dict has [get]. *)
Definition py_dict_get (d : json) (k : string) (dflt : json) : exn + json :=
  match d with
  | JObj kv => inr (default dflt (dict_get kv k))
  | _ => inl (OtherException "AttributeError: object has no attribute 'get'")
  end.

(** [n < v] for an [int] n and a parsed JSON value v. *)
Definition py_int_lt (n : Z) (v : json) : exn + bool :=
  match v with
  | JInt t => inr (n <? t)
  | JBool b => inr (n <? (if b then 1 else 0))
  | JFloat f => inr (Z_lt_float n f)
  | _ => inl (OtherException "TypeError: '<' not supported between instances")
  end.

(** The items a [for] loop sees: list elements, dict keys, characters. *)
Definition py_iter (v : json) : exn + list json :=
  match v with
  | JArr l => inr l
  | JObj kv => inr (map (fun p => JStr (fst p)) kv)
  | JStr s => inr (map (fun c => JStr (String c EmptyString)) (list_ascii_of_string s))
  | _ => inl (OtherException "TypeError: object is not iterable")
  end.

Section WithUpstream.
Context `{PyLib} {World : Type} `{Upstream World}.

(** [self.base_headers] *)
Definition base_headers : gmap string string :=
  <["User-Agent" := Settings.DOD_API_USER_AGENT]>
  (<["Referer" := Settings.DOD_API_REFERER]>
  (<["Accept" := "application/json, text/plain, */*"]> ∅)).

(** [await self.client.request(...)], logged *)
Definition send (r : http_request) : M World Response :=
  fun s => let '(res, w') := client_request r (world s) in
           (match res with inl e => inl (exn_of_httpx e) | inr resp => inr resp end,
            {| world := w'; sent := sent s ++ [r] |}).

(** [resp.raise_for_status()]: anything outside 2xx raises; the request
    of the exception is the request of the response. *)
Definition raise_for_status (resp : Response) : M World Response :=
  if (200 <=? resp_status_code resp) && (resp_status_code resp <=? 299)
  then ret resp
  else raise (HTTPStatusError
                ("HTTP error " +:+ str_int (resp_status_code resp) +:+ " for url "
                 +:+ resp_url resp)
                (resp_url resp) resp).

(** [resp.json()] *)
Definition Response_json (resp : Response) : M World json :=
  match resp_json resp with
  | Some v => ret v
  | None => raise (exn_of_json (resp_json_exn resp))
  end.

Definition _request (method url : string)
    (kw_headers : option (gmap string string))
    (kw_follow_redirects : bool) (kw_json : option json)
  : M World Response :=
  let headers := default ∅ kw_headers ∪ base_headers in
  let headers :=
    if bool_decide (is_Some kw_json) && bool_decide (headers !! "Content-Type" = None)
    then <["Content-Type" := "application/json"]> headers
    else headers in
  try_except
    (let* resp := send {| req_method := method; req_url := url;
                          req_headers := headers;
                          req_follow_redirects := kw_follow_redirects;
                          req_json := kw_json |} in
     raise_for_status resp)
    (fun e =>
       if isinstance_TimeoutException e then
         raise (DoDSBIRAPIError ("Request to " +:+ url +:+ " timed out.") None)
       else if isinstance_RequestError e then
         raise (DoDSBIRAPIError
                  ("Network error requesting " +:+ url +:+ ": " +:+ str_exn e) None)
       else match e with
            | HTTPStatusError _ request_url response =>
                raise (DoDSBIRAPIError
                         ("API request to " +:+ request_url
                          +:+ " failed with status "
                          +:+ str_int (resp_status_code response)
                          +:+ ". Response: "
                          +:+ py_prefix 200 (resp_text response) +:+ "...")
                         (Some (resp_status_code response)))
            | _ => raise e
            end).

Definition search_payload (search_request : SearchRequest) : json :=
  JObj [
    ("searchText", match term search_request with Some t => JStr t | None => JNull end);
    ("components", JArr (map JStr (default [] (components search_request))));
    ("programYear", match program_years search_request with
                    | Some (y :: _) => JInt y
                    | _ => JNull
                    end);
    ("solicitationCycleNames", JArr [JStr "openTopics"]);
    ("releaseNumbers", JArr []);
    ("topicReleaseStatus", JArr [JInt 591; JInt 592]);
    ("modernizationPriorities", JArr []);
    ("sortBy", JStr "finalTopicCode,asc");
    ("technologyAreaIds", JArr []);
    ("component", JNull);
    ("program", JNull) ].

Definition search_url (search_request : SearchRequest) : string :=
  let search_param_json := json_dumps (search_payload search_request) in
  let encoded_search_param := urllib_quote search_param_json in
  Settings.DOD_SEARCH_API_URL +:+ "?searchParam=" +:+ encoded_search_param
    +:+ "&size=" +:+ str_int (page_size search_request)
    +:+ "&page=" +:+ str_int (page search_request).

(** [[Topic.model_validate(topic) for topic in topics_data]] *)
Fixpoint validate_topics (l : list json) : exn + list Topic :=
  match l with
  | [] => inr []
  | t :: rest =>
      bind_r (Topic_model_validate t) (fun t' =>
      bind_r (validate_topics rest) (fun rest' => inr (t' :: rest')))
  end.

Definition search_topics (search_request : SearchRequest)
  : M World (list Topic * json * bool) :=
  let full_url := search_url search_request in
  let* resp := _request "GET" full_url None false None in
  let* result := Response_json resp in
  let* topics_data := lift (py_dict_get result "data" (JArr [])) in
  let* total_elements := lift (py_dict_get result "total" (JInt 0)) in
  let* has_more :=
    lift (py_int_lt ((page search_request + 1) * page_size search_request)
                    total_elements) in
  let* items := lift (py_iter topics_data) in
  let* topics := lift (validate_topics items) in
  ret (topics, total_elements, has_more).

Definition download_pdf_content (topic_id : string) : M World (list Byte.byte) :=
  let pdf_url := Settings.DOD_PDF_API_TEMPLATE topic_id in
  let headers := delete "Content-Type" base_headers in
  let* resp := _request "GET" pdf_url (Some headers) true None in
  ret (resp_content resp).

End WithUpstream.
End Client.

(** ** [app/api/v1/endpoints/topics.py] *)

(** What [zf.writestr(name, data)] is given: [bytes] or [str]. *)
Inductive zip_data : Type :=
| ZBytes (b : list Byte.byte)
| ZText (s : string).

(** A [zipfile.ZipFile] opened for writing: the entries written so far. *)
Definition ZipFile : Type := list (string * zip_data).

Definition namelist (zf : ZipFile) : list string := map fst zf.

(** The name under which an entry is filed: [ZipInfo] cuts the name it is
    given at the first NUL (the path separator is taken to be [/]). *)
Fixpoint zip_filename (name : string) : string :=
  match name with
  | EmptyString => EmptyString
  | String c rest =>
      if Ascii.eqb c zero then EmptyString else String c (zip_filename rest)
  end.

(** [zf.writestr(name, data)]: the entry is filed under [zip_filename name],
    unless that name is empty and this Python refuses it. *)
Definition writestr `{PyLib} (zf : ZipFile) (name : string) (data : zip_data)
  : exn + ZipFile :=
  match zip_filename name, empty_arcname_error with
  | EmptyString, Some msg => inl (OtherException msg)
  | filename, _ => inr (zf ++ [(filename, data)])
  end.

Inductive BytesIO : Type :=
| RawBytes (b : list Byte.byte)
| ZipArchive (zf : ZipFile).

Inductive http_response : Type :=
| StreamingResponse (content : BytesIO) (media_type : string)
                    (content_disposition : string)
| HTMLResponse (content : string).

(** [StreamingResponse(content, media_type=..., headers={"Content-Disposition": ...})]:
    Starlette encodes the values of the headers as latin-1. *)
Definition StreamingResponse_init (content : BytesIO) (media_type : string)
    (content_disposition : string) : exn + http_response :=
  if latin1_encodable content_disposition
  then inr (StreamingResponse content media_type content_disposition)
  else inl (OtherException "UnicodeEncodeError: 'latin-1' codec can't encode character").

Definition newline : string := String (ascii_of_nat 10) EmptyString.

(** [e.status_code if e.status_code else 502] *)
Definition status_or_502 (status_code : option Z) : Z :=
  match status_code with
  | Some c => if c =? 0 then 502 else c
  | None => 502
  end.

Definition error_detail (d c : string) : json :=
  ErrorResponse_model_dump {| detail := d; code := c |}.

Module Topics.
Import Schemas Client.

Record SearchResponse : Type := {
  sr_topics : list Topic;
  sr_total : Z;
  sr_page : Z;
  sr_page_size : Z;
  sr_has_more : bool
}.

Section WithUpstream.
Context `{PyLib} {World : Type} `{Upstream World}.

Definition SearchResponse_init (topics : list Topic) (total : json)
    (page page_size : Z) (has_more : bool) : exn + SearchResponse :=
  match lax_int total with
  | Some n => inr {| sr_topics := topics; sr_total := n; sr_page := page;
                     sr_page_size := page_size; sr_has_more := has_more |}
  | None => inl (ValidationError "total: Input should be a valid integer")
  end.

Definition search_topics_endpoint (request : SearchRequest) : M World SearchResponse :=
  try_except
    (let* (topics, total, has_more) := search_topics request in
     lift (SearchResponse_init topics total (page request) (page_size request) has_more))
    (fun e =>
       match e with
       | DoDSBIRAPIError _ sc =>
           let status_code := status_or_502 sc in
           raise (HTTPException status_code (error_detail (str_exn e) "DOD_API_ERROR"))
       | _ =>
           raise (HTTPException 500
                    (error_detail ("An unexpected error occurred: " +:+ str_exn e)
                                  "INTERNAL_ERROR"))
       end).

(** [{topic.topicCode: topic.topicId for topic in all_found_topics}] *)
Definition build_topic_map (all_found_topics : list Topic) : gmap string string :=
  foldl (fun m topic => <[topicCode topic := topicId topic]> m) ∅ all_found_topics.

(** One turn of the loop over [request.selected_topics]. *)
Definition resolve_step (topic_map : gmap string string)
    (acc : list (string * string) * list string) (code : string)
  : list (string * string) * list string :=
  let '(topics_to_download, not_found_codes) := acc in
  match topic_map !! code with
  | Some topic_id =>
      if str_truthy topic_id
      then (topics_to_download ++ [(code, topic_id)], not_found_codes)
      else (topics_to_download, not_found_codes ++ [code])
  | None => (topics_to_download, not_found_codes ++ [code])
  end.

Definition resolve (topic_map : gmap string string) (selected_topics : list string)
  : list (string * string) * list string :=
  foldl (resolve_step topic_map) ([], []) selected_topics.

(** One turn of the loop that fills the archive. *)
Definition zip_step (zf : ZipFile) (item : string * string) : M World ZipFile :=
  let '(code, topic_id) := item in
  try_except
    (let* pdf_content := download_pdf_content topic_id in
     lift (writestr zf (code +:+ ".pdf") (ZBytes pdf_content)))
    (fun e =>
       if isinstance_DoDSBIRAPIError e then
         lift (writestr zf ("ERROR_" +:+ code +:+ ".txt")
                (ZText ("Failed to download PDF for topic " +:+ code +:+ "."
                        +:+ newline +:+ "Error: " +:+ str_exn e)))
       else
         lift (writestr zf ("ERROR_" +:+ code +:+ ".txt")
                (ZText ("Unexpected error downloading PDF for topic " +:+ code
                        +:+ "." +:+ newline +:+ "Error: " +:+ str_exn e)))).

(** Lines 128-171: one resolved pair is streamed as it is, several are
    packed into an archive. *)
Definition fetch_all (topics_to_download : list (string * string))
  : M World http_response :=
  match topics_to_download with
  | [(code, topic_id)] =>
      let* pdf_content := download_pdf_content topic_id in
      lift (StreamingResponse_init (RawBytes pdf_content) "application/pdf"
              ("attachment; filename=" +:+ dq +:+ code +:+ ".pdf" +:+ dq))
  | _ =>
      let* zf := for_each zip_step [] topics_to_download in
      match namelist zf with
      | [] =>
          raise (HTTPException 500
                   (error_detail
                      "All selected PDF downloads failed. Check individual error logs if available."
                      "ALL_DOWNLOADS_FAILED"))
      | _ :: _ =>
          lift (StreamingResponse_init (ZipArchive zf) "application/zip"
                  ("attachment; filename=" +:+ dq +:+ "selected_pdfs.zip" +:+ dq))
      end
  end.

(** Lines 94-171: everything after the lookup search has returned. *)
Definition download_found (all_found_topics : list Topic)
    (selected_topics : list string) : M World http_response :=
  let topic_map := build_topic_map all_found_topics in
  let '(topics_to_download, not_found_codes) := resolve topic_map selected_topics in
  let* _ :=
    match not_found_codes with
    | _ :: _ =>
        if (Z.of_nat (length topics_to_download) =? 0) then
          raise (HTTPException 404
                   (error_detail
                      ("None of the requested topic codes found with the given search parameters: "
                       +:+ py_join ", " not_found_codes)
                      "TOPIC_NOT_FOUND"))
        else ret tt
    | [] => ret tt
    end in
  let* _ :=
    match topics_to_download with
    | [] => raise (HTTPException 404
                     (error_detail "No valid topics found for download."
                                   "NO_TOPICS_FOR_DOWNLOAD"))
    | _ :: _ => ret tt
    end in
  fetch_all topics_to_download.

(** The three [except] clauses that close the endpoint. *)
Definition download_except (e : exn) : M World http_response :=
  match e with
  | DoDSBIRAPIError _ sc =>
      let status_code := status_or_502 sc in
      raise (HTTPException status_code
               (error_detail (str_exn e) "DOD_API_DOWNLOAD_ERROR"))
  | HTTPException _ _ => raise e
  | _ =>
      raise (HTTPException 500
               (error_detail
                  ("An unexpected error occurred during download: " +:+ str_exn e)
                  "DOWNLOAD_ERROR"))
  end.

Definition download_pdfs_endpoint (request : DownloadRequest) : M World http_response :=
  try_except
    (let* search_req_for_ids :=
       lift (SearchRequest_init (search_term request) (dl_page request)
                                (dl_page_size request)) in
     let* lookup_request := lift (SearchRequest_init (search_term request) 0 1000) in
     let* (all_found_topics, _, _) := search_topics lookup_request in
     download_found all_found_topics (selected_topics request))
    download_except.

(** The endpoint from the point where the lookup search has returned
    [all_found_topics], under the endpoint's own [except] clauses. *)
Definition resolve_and_fetch (all_found_topics : list Topic)
    (selected_topics : list string) : M World http_response :=
  try_except (download_found all_found_topics selected_topics) download_except.

(** The aggregator alone, under the same [except] clauses. *)
Definition fetch_resolved (topics_to_download : list (string * string))
  : M World http_response :=
  try_except (fetch_all topics_to_download) download_except.

End WithUpstream.
End Topics.

(** ** The form-post endpoints: [main.py] and [src/main.py]

    Both keep the upstream topics as raw parsed JSON. *)

(** [{t['topicCode']: t for t in topics}], one item.  A key that is not a
    [str] is never equal to a requested code, so it is left out of the
    table; a list or dict as key cannot be hashed. *)
Definition raw_topic_map_step (m : gmap string json) (t : json) : exn + gmap string json :=
  match t with
  | JObj kv =>
      match dict_get kv "topicCode" with
      | Some (JStr c) => inr (<[c := t]> m)
      | Some (JArr _) | Some (JObj _) => inl (OtherException "TypeError: unhashable type")
      | Some _ => inr m
      | None => inl (OtherException "KeyError: 'topicCode'")
      end
  | _ => inl (OtherException "TypeError: not subscriptable by a str")
  end.

Fixpoint raw_topic_map_from (m : gmap string json) (items : list json)
  : exn + gmap string json :=
  match items with
  | [] => inr m
  | t :: rest => Schemas.bind_r (raw_topic_map_step m t) (fun m' => raw_topic_map_from m' rest)
  end.

Definition raw_topic_map (topics : json) : exn + gmap string json :=
  Schemas.bind_r (Client.py_iter topics) (raw_topic_map_from ∅).

Definition form_search_payload (term : option string) : json :=
  JObj [
    ("searchText", match term with
                   | Some t => if str_truthy t then JStr t else JNull
                   | None => JNull
                   end);
    ("components", JNull);
    ("programYear", JNull);
    ("solicitationCycleNames", JArr [JStr "openTopics"]);
    ("releaseNumbers", JArr []);
    ("topicReleaseStatus", JArr [JInt 591; JInt 592]);
    ("modernizationPriorities", JArr []);
    ("sortBy", JStr "finalTopicCode,asc");
    ("technologyAreaIds", JArr []);
    ("component", JNull);
    ("program", JNull) ].

Definition SEARCH_API : string :=
  "https://www.dodsbirsttr.mil/topics/api/public/topics/search".

(** [PDF_API_TEMPLATE.format(topic_uid=...)] *)
Definition PDF_API_TEMPLATE (topic_uid : string) : string :=
  "https://www.dodsbirsttr.mil/topics/api/public/topics/" +:+ topic_uid +:+ "/download/PDF".

Definition zip_response (zf : ZipFile) : http_response :=
  StreamingResponse (ZipArchive zf) "application/zip"
    ("attachment; filename=" +:+ dq +:+ "selected_pdfs.zip" +:+ dq).

Definition pdf_response (code : string) (content : list Byte.byte) : http_response :=
  StreamingResponse (RawBytes content) "application/pdf"
    ("attachment; filename=" +:+ dq +:+ code +:+ ".pdf" +:+ dq).

(** The two [StreamingResponse(...)] calls of the form endpoints. *)
Definition zip_response_init (zf : ZipFile) : exn + http_response :=
  StreamingResponse_init (ZipArchive zf) "application/zip"
    ("attachment; filename=" +:+ dq +:+ "selected_pdfs.zip" +:+ dq).

Definition pdf_response_init (code : string) (content : list Byte.byte)
  : exn + http_response :=
  StreamingResponse_init (RawBytes content) "application/pdf"
    ("attachment; filename=" +:+ dq +:+ code +:+ ".pdf" +:+ dq).

(** [main.py] *)
Module FormMain.
Import Client.

Section WithUpstream.
Context `{PyLib} {World : Type} `{Upstream World}.

(** [client.get(url, headers=headers)] followed by [raise_for_status()] *)
Definition get (url : string) (headers : gmap string string) : M World Response :=
  let* r := send {| req_method := "GET"; req_url := url; req_headers := headers;
                    req_follow_redirects := false; req_json := None |} in
  raise_for_status r.

Definition query_api (term : option string) (page page_size : Z)
  : M World (json * json * bool * Z) :=
  let headers : gmap string string :=
    <["User-Agent" := "Mozilla/5.0"]>
    (<["Referer" := "https://www.dodsbirsttr.mil/topics-app/"]>
    (<["Accept" := "application/json, text/plain, */*"]>
    (<["Content-Type" := "application/json"]> ∅))) in
  let payload := form_search_payload term in
  let encoded := urllib_quote (json_dumps payload) in
  let url := SEARCH_API +:+ "?searchParam=" +:+ encoded
             +:+ "&size=" +:+ str_int page_size +:+ "&page=" +:+ str_int page in
  let* resp := get url headers in
  let* data := Response_json resp in
  let* total := lift (py_dict_get data "total" (JInt 0)) in
  let* topics := lift (py_dict_get data "data" (JArr [])) in
  let* has_more := lift (py_int_lt ((page + 1) * page_size) total) in
  let* total_pages :=
    if page_size =? 0 then ret 1
    else match ceil_truediv total page_size with
         | Some n => ret n
         | None => raise (OtherException "ceil(total / page_size) raised")
         end in
  ret (topics, total, has_more, total_pages).

Definition headers : gmap string string := <["User-Agent" := "Mozilla/5.0"]> ∅.

(** One turn of [for code in selected]. *)
Definition zip_step (topic_map : gmap string json) (zf : ZipFile) (code : string)
  : M World ZipFile :=
  match topic_map !! code with
  | Some topic =>
      if negb (py_truthy topic) then ret zf
      else
        let* uid := lift (py_dict_get topic "topicId" JNull) in
        let pdf_url := PDF_API_TEMPLATE (py_str uid) in
        try_except
          (let* r := get pdf_url headers in
           lift (writestr zf (code +:+ ".pdf") (ZBytes (resp_content r))))
          (fun _ => ret zf)
  | None => ret zf
  end.

(** Lines 150-189: the table is built, the documents are fetched. *)
Definition fetch_selected (topic_map : gmap string json) (selected : list string)
  : M World http_response :=
  match selected with
  | [code] =>
      match topic_map !! code with
      | Some topic =>
          if negb (py_truthy topic)
          then ret (HTMLResponse ("<h2>Topic code " +:+ code +:+ " not found.</h2>"))
          else
            let* uid := lift (py_dict_get topic "topicId" JNull) in
            let pdf_url := PDF_API_TEMPLATE (py_str uid) in
            let* r := get pdf_url headers in
            lift (pdf_response_init code (resp_content r))
      | None => ret (HTMLResponse ("<h2>Topic code " +:+ code +:+ " not found.</h2>"))
      end
  | _ =>
      let* zf := for_each (zip_step topic_map) [] selected in
      lift (zip_response_init zf)
  end.

Definition download_selected_pdfs (term : string) (page : Z) (selected : list string)
  : M World http_response :=
  let* looked_up :=
    try_except
      (let* (topics, _, _, _) := query_api (Some term) page 10 in
       let* topic_map := lift (raw_topic_map topics) in
       ret (inr topic_map))
      (fun e =>
         ret (inl (HTMLResponse
                     ("<h2>Error fetching topic list for download: " +:+ str_exn e
                      +:+ "</h2><a href='/?term=" +:+ term +:+ "&page=" +:+ str_int page
                      +:+ "'>Back</a>")))) in
  match looked_up with
  | inl response => ret response
  | inr topic_map => fetch_selected topic_map selected
  end.

End WithUpstream.
End FormMain.

(** [src/main.py] *)
Module FormSrc.
Import Client.

Definition USER_AGENT : string :=
  "Mozilla/5.0 (Windows NT 10.0; Win64; x64) AppleWebKit/537.36 (KHTML, like Gecko) Chrome/91.0.4472.124 Safari/537.36".

Section WithUpstream.
Context `{PyLib} {World : Type} `{Upstream World}.

(** [client.get(url, headers=headers, follow_redirects=...)] followed by
    [raise_for_status()] *)
Definition get (url : string) (headers : gmap string string) (follow_redirects : bool)
  : M World Response :=
  let* r := send {| req_method := "GET"; req_url := url; req_headers := headers;
                    req_follow_redirects := follow_redirects; req_json := None |} in
  raise_for_status r.

Definition query_api (term : option string) (page : Z) : M World (json * bool) :=
  try_except
    (let headers : gmap string string :=
       <["User-Agent" := USER_AGENT]>
       (<["Referer" := "https://www.dodsbirsttr.mil/topics-app/"]>
       (<["Accept" := "application/json, text/plain, */*"]>
       (<["Content-Type" := "application/json"]> ∅))) in
     let search_payload := form_search_payload term in
     let search_param_json := json_dumps search_payload in
     let encoded_search_param := urllib_quote search_param_json in
     let full_url := SEARCH_API +:+ "?searchParam=" +:+ encoded_search_param
                     +:+ "&size=10&page=" +:+ str_int page in
     let* resp := get full_url headers false in
     let* result := Response_json resp in
     let* topics_data := lift (py_dict_get result "data" (JArr [])) in
     let* total_elements := lift (py_dict_get result "total" (JInt 0)) in
     let page_size := 10 in
     let* has_more := lift (py_int_lt ((page + 1) * page_size) total_elements) in
     ret (topics_data, has_more))
    (fun e =>
       match e with
       | HTTPStatusError _ _ response =>
           let error_detail :=
             "API request failed with status "
             +:+ str_int (resp_status_code response) +:+ "." in
           let* error_detail :=
             try_except
               (let* error_content := Response_json response in
                ret (error_detail +:+ " Response: " +:+ py_str error_content))
               (fun e' =>
                  if isinstance_JSONDecodeError e'
                  then ret (error_detail +:+ " Response (text): " +:+ resp_text response)
                  else raise e') in
           raise (RuntimeError error_detail)
       | _ => raise (RuntimeError ("API query failed: " +:+ str_exn e))
       end).

Definition headers : gmap string string :=
  <["User-Agent" := USER_AGENT]>
  (<["Referer" := "https://www.dodsbirsttr.mil/topics-app/"]> ∅).

Definition back_link (term : string) (page : Z) : string :=
  "<a href='/?term=" +:+ term +:+ "&page=" +:+ str_int page +:+ "'>Back</a>".

(** One turn of [for code in selected]. *)
Definition zip_step (topic_map : gmap string json) (zf : ZipFile) (code : string)
  : M World ZipFile :=
  match topic_map !! code with
  | Some topic_detail =>
      if negb (py_truthy topic_detail) then ret zf
      else
        let* uid := lift (py_dict_get topic_detail "topicId" JNull) in
        if negb (py_truthy uid) then ret zf
        else
          let pdf_url := PDF_API_TEMPLATE (py_str uid) in
          try_except
            (let* response := get pdf_url headers true in
             lift (writestr zf (code +:+ ".pdf") (ZBytes (resp_content response))))
            (fun _ => ret zf)
  | None => ret zf
  end.

(** Lines 114-170: the table is built, the documents are fetched. *)
Definition fetch_selected (topic_map : gmap string json) (term : string) (page : Z)
    (selected : list string) : M World http_response :=
  match selected with
  | [code] =>
      let not_found :=
        HTMLResponse ("<h2>Topic code " +:+ code
                      +:+ " not found in current page results.</h2>"
                      +:+ back_link term page) in
      match topic_map !! code with
      | Some topic_detail =>
          if negb (py_truthy topic_detail) then ret not_found
          else
            let* uid := lift (py_dict_get topic_detail "topicId" JNull) in
            if negb (py_truthy uid) then
              ret (HTMLResponse ("<h2>UID not found for topic code " +:+ code
                                 +:+ ".</h2>" +:+ back_link term page))
            else
              let pdf_url := PDF_API_TEMPLATE (py_str uid) in
              let* response := get pdf_url headers true in
              lift (pdf_response_init code (resp_content response))
      | None => ret not_found
      end
  | _ =>
      let* zf := for_each (zip_step topic_map) [] selected in
      lift (zip_response_init zf)
  end.

Definition download_selected_pdfs (term : string) (page : Z) (selected : list string)
  : M World http_response :=
  let* looked_up :=
    try_except
      (let* (current_page_topics, _) := query_api (Some term) page in
       let* topic_map := lift (raw_topic_map current_page_topics) in
       ret (inr topic_map))
      (fun e =>
         if isinstance_RuntimeError e then
           ret (inl (HTMLResponse
                       ("<h2>Error fetching topic list for download: " +:+ str_exn e
                        +:+ "</h2>" +:+ back_link term page)))
         else raise e) in
  match looked_up with
  | inl response => ret response
  | inr topic_map => fetch_selected topic_map term page selected
  end.

End WithUpstream.
End FormSrc.

(** ** The pages of [main.py] and [src/main.py] *)

(** [templates.TemplateResponse(name, context)]: the template and the
    context it is rendered with, the [request] entry left out. *)
Inductive template_response : Type :=
| TemplateResponse (name : string) (context : json).

Definition opt_str (o : option string) : json :=
  match o with Some s => JStr s | None => JNull end.

Definition str_list (l : list string) : json := JArr (map JStr l).

(** [main.py] *)
Module MainPages.
Import Client.

Definition PROGRAMS : list string := ["SBIR"; "STTR"].
Definition COMPONENTS : list string :=
  ["ARMY"; "CBD"; "DARPA"; "DHA"; "MDA"; "DTRA"; "DMEA"; "DLA"; "NAVY"; "OSD"; "SOCOM"; "USAF"].
Definition TECH_AREAS : list string :=
  ["TA1"; "TA2"; "TA3"; "TA4"; "TA5"; "TA6"; "TA7"; "TA8"; "TA9"; "TA10"; "TA11"; "TA12"; "TA13"].
Definition MOD_PRIORITIES : list string :=
  ["AI"; "Cyber"; "Quantum"; "Hypersonics"; "5G"; "Biotech"].
Definition SOLICITATIONS : list string := ["AF 24.1"; "Navy FY24"; "Army Open 2024"].
Definition TOPIC_STATUSES : list string := ["Pre-Release"; "Open"; "Closed"].

(** [QUESTIONS_API_TEMPLATE.format(topic_uid=...)] *)
Definition QUESTIONS_API_TEMPLATE (topic_uid : string) : string :=
  "https://www.dodsbirsttr.mil/topics/api/public/topics/" +:+ topic_uid +:+ "/questions".

Section WithUpstream.
Context `{PyLib} {World : Type} `{Upstream World}.

Definition index (term : option string) (page page_size : Z)
    (program component technology_area modernization_priority solicitation
     topic_status : option string) : M World template_response :=
  let* queried :=
    try_except
      (let* (topics, total, has_more_pages, total_pages) :=
         FormMain.query_api term page page_size in
       ret (topics, total_pages, has_more_pages, JNull))
      (fun e => ret (JArr [], 1, false, JStr ("Error querying API: " +:+ str_exn e))) in
  let '(topics, total_pages, has_more_pages, error_message) := queried in
  ret (TemplateResponse "index.html" (JObj [
    ("topics", topics);
    ("term", opt_str term);
    ("page", JInt page);
    ("page_size", JInt page_size);
    ("has_more", JBool has_more_pages);
    ("total_pages", JInt total_pages);
    ("error", error_message);
    ("programs", str_list PROGRAMS);
    ("components", str_list COMPONENTS);
    ("technology_areas", str_list TECH_AREAS);
    ("modernization_priorities", str_list MOD_PRIORITIES);
    ("solicitations", str_list SOLICITATIONS);
    ("topic_statuses", str_list TOPIC_STATUSES);
    ("selected_program", opt_str program);
    ("selected_component", opt_str component);
    ("selected_technology_area", opt_str technology_area);
    ("selected_modernization_priority", opt_str modernization_priority);
    ("selected_solicitation", opt_str solicitation);
    ("selected_topic_status", opt_str topic_status) ])).

(** The request of [view_questions]: [client.get(questions_url)]. *)
Definition questions_request (topic_id : string) : http_request :=
  {| req_method := "GET"; req_url := QUESTIONS_API_TEMPLATE topic_id;
     req_headers := ∅; req_follow_redirects := false; req_json := None |}.

Definition view_questions (topic_id : string) : M World template_response :=
  let questions_url := QUESTIONS_API_TEMPLATE topic_id in
  let* fetched :=
    try_except
      (let* response := send (questions_request topic_id) in
       let* _ := raise_for_status response in
       let* questions := Response_json response in
       ret (inr questions))
      (fun e =>
         ret (inl (TemplateResponse "questions.html" (JObj [
                     ("topic_id", JStr topic_id);
                     ("error", JStr (str_exn e));
                     ("questions", JArr []) ])))) in
  match fetched with
  | inl page => ret page
  | inr questions =>
      ret (TemplateResponse "questions.html" (JObj [
             ("topic_id", JStr topic_id);
             ("questions", questions);
             ("error", JNull) ]))
  end.

End WithUpstream.
End MainPages.

(** [str.strip()], which the repository calls and does not define. *)
Class StrLib : Type := { py_strip : string -> string }.

(** [src/main.py] *)
Module SrcPages.

Section WithUpstream.
Context `{PyLib} `{StrLib} {World : Type} `{Upstream World}.

Definition index (term : option string) (page : Z) : M World template_response :=
  let* queried :=
    match term with
    | Some t =>
        if str_truthy t && str_truthy (py_strip t) then
          try_except
            (let* (topics, has_more_pages) := FormSrc.query_api (Some (py_strip t)) page in
             ret (topics, JNull, has_more_pages))
            (fun e =>
               if isinstance_RuntimeError e
               then ret (JArr [], JStr (str_exn e), false)
               else raise e)
        else ret (JNull, JNull, false)
    | None => ret (JNull, JNull, false)
    end in
  let '(topics, error_message, has_more_pages) := queried in
  ret (TemplateResponse "index.html" (JObj [
    ("topics", topics);
    ("term", opt_str term);
    ("error", error_message);
    ("page", JInt page);
    ("has_more", JBool has_more_pages) ])).

End WithUpstream.
End SrcPages.

(** ** [app/main.py] and the client dependency *)

Module App.

Section Lifespan.
(** [Handle] stands for [httpx.AsyncClient]. *)
Context {Handle : Type}.

Record DoDSBIRClient : Type := {
  client : Handle;
  base_headers : gmap string string
}.

(** [lifespan], up to the [yield]: [http_client_store["client"] = client] *)
Definition lifespan_startup (c : Handle) (http_client_store : gmap string Handle)
  : gmap string Handle :=
  <["client" := c]> http_client_store.

(** [lifespan], after the [yield]: [http_client_store.clear()] *)
Definition lifespan_shutdown (http_client_store : gmap string Handle)
  : gmap string Handle := ∅.

Definition get_dod_sbir_client (http_client_store : gmap string Handle)
  : exn + DoDSBIRClient :=
  match http_client_store !! "client" with
  | None =>
      inl (RuntimeError "HTTP client not initialized. Ensure lifespan manager is set up.")
  | Some c => inr {| client := c; base_headers := Client.base_headers |}
  end.
End Lifespan.

(** [dod_sbir_api_exception_handler]: the status and the body of the
    [JSONResponse] for a [DoDSBIRAPIError] with this message and status. *)
Definition dod_sbir_api_exception_handler (message : string) (status_code : option Z)
  : Z * json :=
  let status_code := status_or_502 status_code in
  (status_code, error_detail message "DOD_API_ERROR").

End App.

(** ** [app/utils/openapi.py] *)

(** [d[k] = v] on the items of a dict: an existing key keeps its place. *)
Fixpoint dict_set (kv : list (string * json)) (k : string) (v : json)
  : list (string * json) :=
  match kv with
  | [] => [(k, v)]
  | (k', v') :: rest =>
      if String.eqb k' k then (k, v) :: rest else (k', v') :: dict_set rest k v
  end.

(** [d.update(other)] *)
Definition dict_update (kv other : list (string * json)) : list (string * json) :=
  foldl (fun acc item => dict_set acc (fst item) (snd item)) kv other.

Module OpenApi.

(** What FastAPI and pydantic compute: the generated schema of an
    application and the JSON schema of a model, by the name of the model. *)
Class FastApiLib (Routes : Type) : Type := {
  get_openapi : string -> string -> string -> Routes -> list (string * json);
  model_json_schema : string -> json
}.

Section Generate.
Context {Routes : Type} `{FastApiLib Routes}.

Record FastAPI : Type := {
  title : string;
  version : string;
  description : string;
  routes : Routes;
  openapi_schema : option (list (string * json))
}.

Definition all_schemas : list (string * json) :=
  [ ("Topic", model_json_schema "Topic");
    ("SearchResponse", model_json_schema "SearchResponse");
    ("SearchRequest", model_json_schema "SearchRequest");
    ("DownloadRequest", model_json_schema "DownloadRequest");
    ("ErrorResponse", model_json_schema "ErrorResponse") ].

Definition generate_custom_openapi_schema (app : FastAPI)
  : exn + (list (string * json) * FastAPI) :=
  match openapi_schema app with
  | Some (item :: items) => inr (item :: items, app)
  | _ =>
      let generated :=
        get_openapi (title app) (version app) (description app) (routes app) in
      let generated :=
        match dict_get generated "components" with
        | None => dict_set generated "components" (JObj [])
        | Some _ => generated
        end in
      match dict_get generated "components" with
      | Some (JObj components) =>
          let components :=
            match dict_get components "schemas" with
            | None => dict_set components "schemas" (JObj [])
            | Some _ => components
            end in
          match dict_get components "schemas" with
          | Some (JObj schemas) =>
              let schemas := dict_update schemas all_schemas in
              let components := dict_set components "schemas" (JObj schemas) in
              let generated := dict_set generated "components" (JObj components) in
              inr (generated,
                   {| title := title app; version := version app;
                      description := description app; routes := routes app;
                      openapi_schema := Some generated |})
          | _ => inl (OtherException "AttributeError: object has no attribute 'update'")
          end
      | _ => inl (OtherException "TypeError: components is not a dict")
      end
  end.

End Generate.
End OpenApi.

(** ** Vocabulary of the statements *)

Section Vocabulary.
Context `{PyLib} {World : Type} `{Upstream World}.

(** The request that [_request method url **kwargs] hands to httpx. *)
Definition request_sent (method url : string) (kw_headers : option (gmap string string))
    (kw_follow_redirects : bool) (kw_json : option json) : http_request :=
  let headers := default ∅ kw_headers ∪ Client.base_headers in
  {| req_method := method; req_url := url;
     req_headers :=
       if bool_decide (is_Some kw_json) && bool_decide (headers !! "Content-Type" = None)
       then <["Content-Type" := "application/json"]> headers else headers;
     req_follow_redirects := kw_follow_redirects; req_json := kw_json |}.

(** The request that [download_pdf_content topic_id] hands to httpx. *)
Definition pdf_request (topic_id : string) : http_request :=
  request_sent "GET" (Settings.DOD_PDF_API_TEMPLATE topic_id)
    (Some (delete "Content-Type" Client.base_headers)) true None.

(** The request that [search_topics search_request] hands to httpx. *)
Definition search_request_sent (search_request : Schemas.SearchRequest) : http_request :=
  request_sent "GET" (Client.search_url search_request) None false None.

Definition is_success (resp : Response) : bool :=
  (200 <=? resp_status_code resp) && (resp_status_code resp <=? 299).

(** What [_request] makes of the answer of httpx to a request for [url]. *)
Definition classify (url : string) (answer : httpx_error + Response) : exn + Response :=
  match answer with
  | inl (HxTimeout _) =>
      inl (DoDSBIRAPIError ("Request to " +:+ url +:+ " timed out.") None)
  | inl (HxTransport m) =>
      inl (DoDSBIRAPIError ("Network error requesting " +:+ url +:+ ": " +:+ m) None)
  | inl (HxOther m) => inl (OtherException m)
  | inr resp =>
      if is_success resp then inr resp
      else inl (DoDSBIRAPIError
                  ("API request to " +:+ resp_url resp +:+ " failed with status "
                   +:+ str_int (resp_status_code resp) +:+ ". Response: "
                   +:+ py_prefix 200 (resp_text resp) +:+ "...")
                  (Some (resp_status_code resp)))
  end.

(** Lines 76-92 of the download endpoint: the lookup search. *)
Definition lookup_topics (request : Schemas.DownloadRequest) : M World (list Schemas.Topic) :=
  let* search_req_for_ids :=
    lift (Schemas.SearchRequest_init (Schemas.search_term request)
            (Schemas.dl_page request) (Schemas.dl_page_size request)) in
  let* lookup_request :=
    lift (Schemas.SearchRequest_init (Schemas.search_term request) 0 1000) in
  let* (all_found_topics, _, _) := Client.search_topics lookup_request in
  ret all_found_topics.

(** The state once [r] has been sent. *)
Definition after_send (r : http_request) (s : St World) : St World :=
{| world := snd (client_request r (world s)); sent := sent s ++ [r] |}.

(** The document fetches of a batch, attempted one after the other. *)
Fixpoint run_fetches (topic_ids : list string) (s : St World)
  : list (exn + list Byte.byte) * St World :=
  match topic_ids with
  | [] => ([], s)
  | topic_id :: rest =>
      let '(r, s1) := Client.download_pdf_content topic_id s in
      let '(rs, s2) := run_fetches rest s1 in
      (r :: rs, s2)
  end.

Definition failed {A} (r : exn + A) : bool :=
  match r with inl _ => true | inr _ => false end.

(** The placeholder the loop writes for a code whose turn raised [e]. *)
Definition placeholder_of (code : string) (e : exn) : string * zip_data :=
  (zip_filename ("ERROR_" +:+ code +:+ ".txt"),
   ZText ((if isinstance_DoDSBIRAPIError e
           then "Failed to download PDF for topic "
           else "Unexpected error downloading PDF for topic ")
          +:+ code +:+ "." +:+ newline +:+ "Error: " +:+ str_exn e)).

(** The archive entry the loop writes for one item and its fetch outcome:
    the document, or a placeholder when the fetch raised or the archive
    refused the document's name. *)
Definition entry_of `{PyLib} (item : string * string) (r : exn + list Byte.byte)
  : string * zip_data :=
  match r with
  | inr pdf_content =>
      match zip_filename (fst item +:+ ".pdf"), empty_arcname_error with
      | EmptyString, Some msg => placeholder_of (fst item) (OtherException msg)
      | filename, _ => (filename, ZBytes pdf_content)
      end
  | inl e => placeholder_of (fst item) e
  end.

Definition is_document (e : string * zip_data) : bool :=
  match snd e with ZBytes _ => true | ZText _ => false end.

Definition is_placeholder (e : string * zip_data) : bool :=
  match snd e with ZBytes _ => false | ZText _ => true end.

(** The id a requested code resolves to: the table has it, and it is not
    the empty string. *)
Definition resolves_to (topic_map : gmap string string) (code : string) : option string :=
  match topic_map !! code with
  | Some topic_id => if str_truthy topic_id then Some topic_id else None
  | None => None
  end.

Definition found_pairs (topic_map : gmap string string) (codes : list string)
  : list (string * string) :=
  omap (fun c => option_map (pair c) (resolves_to topic_map c)) codes.

Definition missing_codes (topic_map : gmap string string) (codes : list string)
  : list string :=
  filter (fun c => resolves_to topic_map c = None) codes.

(** The topics of a result list that carry a given code, in result order. *)
Definition with_code (c : string) (topics : list Schemas.Topic) : list Schemas.Topic :=
  filter (fun t => Schemas.topicCode t = c) topics.

End Vocabulary.

(** ** Vocabulary of the claims on the contract *)

(** The spec's [DownloadOutcome]: a single payload under a file name, an
    archive of named entries, or a fatal failure.  Every error, whether an
    exception or an HTML error page, counts as the same fatal failure. *)
Inductive DownloadOutcome : Type :=
| SinglePayload (content_disposition : string) (content : list Byte.byte)
| Archive (entries : ZipFile)
| Fatal.

Definition outcome_of (r : exn + http_response) : DownloadOutcome :=
  match r with
  | inr (StreamingResponse (RawBytes b) _ cd) => SinglePayload cd b
  | inr (StreamingResponse (ZipArchive zf) _ _) => Archive zf
  | inr (HTMLResponse _) => Fatal
  | inl _ => Fatal
  end.

Section ContractVocabulary.
Context `{PyLib} {World : Type} `{Upstream World}.

(** The spec's claim on search results, at one query and one state. *)
Definition search_result_invariant (request : Schemas.SearchRequest) (s : St World) : Prop :=
  forall topics total has_more s',
    Client.search_topics request s = (inr (topics, JInt total, has_more), s') ->
    has_more = ((Schemas.page request + 1) * Schemas.page_size request <? total)
    /\ Z.of_nat (length topics) <= total.

(** The claim that a missing key never makes search fail, at one query and
    one state, for a 2xx answer whose body is an object. *)
Definition missing_keys_never_fail (request : Schemas.SearchRequest) (s : St World) : Prop :=
  forall resp body,
    fst (client_request (search_request_sent request) (world s)) = inr resp ->
    is_success resp = true ->
    resp_json resp = Some (JObj body) ->
    dict_get body "data" = None \/ dict_get body "total" = None ->
    exists topics total has_more s',
      Client.search_topics request s = (inr (topics, total, has_more), s')
      /\ (dict_get body "data" = None -> topics = [])
      /\ (dict_get body "total" = None -> total = JInt 0 /\ has_more = false).

(** The claim on the single-item path, at one lookup result, one selection
    and one state: when exactly one pair resolves and its fetch succeeds,
    the fetched bytes come back under the file name [code.pdf]. *)
Definition single_item_returns_document (topics : list Schemas.Topic)
    (selected : list string) (s : St World) : Prop :=
  forall code topic_id unresolved resp,
    Topics.resolve (Topics.build_topic_map topics) selected
      = ([(code, topic_id)], unresolved) ->
    fst (client_request (pdf_request topic_id) (world s)) = inr resp ->
    is_success resp = true ->
    outcome_of (fst (Topics.resolve_and_fetch topics selected s))
    = SinglePayload ("attachment; filename=" +:+ dq +:+ code +:+ ".pdf" +:+ dq)
        (resp_content resp).

(** The claim on a batch of three with one failure, at one lookup result,
    one selection and one state: an archive whose two documents are named
    [code.pdf] and whose placeholder is named [ERROR_code.txt]. *)
Definition partial_failure_entries_named (topics : list Schemas.Topic)
    (selected : list string) (s : St World) : Prop :=
  forall p1 p2 p3 unresolved,
    Topics.resolve (Topics.build_topic_map topics) selected = ([p1; p2; p3], unresolved) ->
    let outcomes := fst (run_fetches (map snd [p1; p2; p3]) s) in
    length (List.filter failed outcomes) = 1%nat ->
    exists zf,
      outcome_of (fst (Topics.resolve_and_fetch topics selected s)) = Archive zf
      /\ length (List.filter is_document zf) = 2%nat
      /\ length (List.filter is_placeholder zf) = 1%nat
      /\ (forall i p pdf_content,
            [p1; p2; p3] !! i = Some p -> outcomes !! i = Some (inr pdf_content) ->
            zf !! i = Some (fst p +:+ ".pdf", ZBytes pdf_content))
      /\ (forall i p e,
            [p1; p2; p3] !! i = Some p -> outcomes !! i = Some (inl e) ->
            exists text, zf !! i = Some ("ERROR_" +:+ fst p +:+ ".txt", ZText text)).

(** The requests for a document that the two form endpoints hand to httpx. *)
Definition form_main_pdf_request (topic_uid : string) : http_request :=
  {| req_method := "GET"; req_url := PDF_API_TEMPLATE topic_uid;
     req_headers := FormMain.headers; req_follow_redirects := false;
     req_json := None |}.

Definition form_src_pdf_request (topic_uid : string) : http_request :=
  {| req_method := "GET"; req_url := PDF_API_TEMPLATE topic_uid;
     req_headers := FormSrc.headers; req_follow_redirects := true;
     req_json := None |}.

(** In state [s] the upstream answers the request [r] with a 2xx response
    that holds the document [doc]. *)
Definition answers_with (r : http_request) (doc : list Byte.byte) (s : St World) : Prop :=
  exists resp, fst (client_request r (world s)) = inr resp
               /\ is_success resp = true
               /\ resp_content resp = doc.

(** Every document fetch of one run succeeds: from state [s] on, the
    requests [r topic_id] for the ids of the run, sent one after the other,
    are answered with the documents [docs], one for one. *)
Fixpoint fetched (r : string -> http_request) (topic_ids : list string)
    (docs : list (list Byte.byte)) (s : St World) : Prop :=
  match topic_ids, docs with
  | [], [] => True
  | topic_id :: ids, doc :: rest =>
      answers_with (r topic_id) doc s /\ fetched r ids rest (after_send (r topic_id) s)
  | _, _ => False
  end.

(** The archive entries of fetched documents. *)
Definition documents (pairs : list (string * string)) (docs : list (list Byte.byte))
  : ZipFile :=
  zip_with (fun p doc => (fst p +:+ ".pdf", ZBytes doc)) pairs docs.

(** What a download returns when every pair is fetched. *)
Definition all_fetched (pairs : list (string * string)) (docs : list (list Byte.byte))
  : http_response :=
  match pairs, docs with
  | [(code, _)], [doc] => pdf_response code doc
  | _, _ => zip_response (documents pairs docs)
  end.

(** The raw table holds, for every code of the validated table, a topic
    with that id. *)
Definition tables_agree (raw : gmap string json) (topic_map : gmap string string) : Prop :=
  forall c topic_id,
    topic_map !! c = Some topic_id ->
    exists kv, raw !! c = Some (JObj kv) /\ kv <> []
               /\ dict_get kv "topicId" = Some (JStr topic_id).

(** The claim that the JSON endpoint and a form endpoint return equivalent
    outcomes for the same codes and search context, from the same upstream. *)
Definition same_outcome
    (form_endpoint : string -> Z -> list string -> M World http_response)
    (selected : list string) (term : string) (page page_size : Z) (w : World) : Prop :=
  outcome_of (fst (Topics.download_pdfs_endpoint
                     {| Schemas.selected_topics := selected;
                        Schemas.search_term := Some term;
                        Schemas.dl_page := page;
                        Schemas.dl_page_size := page_size |} (start w)))
  = outcome_of (fst (form_endpoint term page selected (start w))).

End ContractVocabulary.

(** ** A stand-in runtime and a scripted upstream, for concrete runs *)

(** Enough of the library functions to run examples: the encoded search
    parameter is a fixed text, integers validate as themselves, an archive
    refuses an entry without a name. *)
#[global] Instance stub_lib : PyLib := {|
  py_repr := fun _ => "<repr>";
  json_dumps := fun _ => "payload";
  urllib_quote := fun s => s;
  lax_int := fun v => match v with JInt n => Some n | _ => None end;
  ceil_truediv := fun v d => match v with JInt t => Some (- ((- t) / d)) | _ => None end;
  empty_arcname_error := Some "string index out of range"
|}.

(** An upstream that answers by URL from a fixed table and is unreachable
    for every other URL. *)
Record Scripted : Type := { answers : list (string * (httpx_error + Response)) }.

Fixpoint answer_for (url : string) (table : list (string * (httpx_error + Response)))
  : httpx_error + Response :=
  match table with
  | [] => inl (HxTransport "All connection attempts failed")
  | (u, a) :: rest => if String.eqb u url then a else answer_for url rest
  end.

(** The response [resp], as the answer to a request for [url]. *)
Definition at_url (url : string) (resp : Response) : Response :=
  {| resp_status_code := resp_status_code resp; resp_url := url;
     resp_content := resp_content resp; resp_text := resp_text resp;
     resp_json := resp_json resp; resp_json_exn := resp_json_exn resp |}.

(** The scripted upstream redirects nowhere, and its URLs are written as
    httpx writes them. *)
#[global] Instance scripted_upstream : Upstream Scripted := {|
  client_request := fun r w =>
    (match answer_for (req_url r) (answers w) with
     | inl e => inl e
     | inr resp => inr (at_url (req_url r) resp)
     end, w)
|}.

Definition ok_pdf (content : list Byte.byte) : Response :=
  {| resp_status_code := 200; resp_url := EmptyString; resp_content := content;
     resp_text := EmptyString; resp_json := None;
     resp_json_exn := UnicodeDecode "'utf-8' codec can't decode byte" |}.

Definition ok_json (v : json) : Response :=
  {| resp_status_code := 200; resp_url := EmptyString; resp_content := [];
     resp_text := EmptyString; resp_json := Some v;
     resp_json_exn := JsonDecode "Expecting value" |}.

Definition status_only (status : Z) (text : string) : Response :=
  {| resp_status_code := status; resp_url := EmptyString; resp_content := [];
     resp_text := text; resp_json := None;
     resp_json_exn := JsonDecode "Expecting value" |}.

Definition mk_topic (code id : string) : Schemas.Topic :=
  {| Schemas.topicCode := code; Schemas.topicTitle := "title";
     Schemas.component := "ARMY"; Schemas.topicStatus := "Open";
     Schemas.solicitationTitle := "solicitation"; Schemas.topicId := id;
     Schemas.programYear := None; Schemas.releaseNumber := None;
     Schemas.technologyArea := None; Schemas.keywords := Some [] |}.

Definition raw_topic (code id : string) : json :=
  JObj [("topicCode", JStr code); ("topicTitle", JStr "title");
        ("component", JStr "ARMY"); ("topicStatus", JStr "Open");
        ("solicitationTitle", JStr "solicitation"); ("topicId", JStr id)].

Definition pdf_A : list Byte.byte := [Byte.x25; Byte.x50; Byte.x44; Byte.x46; Byte.x41].
Definition pdf_C : list Byte.byte := [Byte.x25; Byte.x50; Byte.x44; Byte.x46; Byte.x43].

(** Documents 1 and 3 are served, document 2 answers 503. *)
Definition one_down : Scripted :=
  {| answers := [
       (Settings.DOD_PDF_API_TEMPLATE "1", inr (ok_pdf pdf_A));
       (Settings.DOD_PDF_API_TEMPLATE "2", inr (status_only 503 "Service Unavailable"));
       (Settings.DOD_PDF_API_TEMPLATE "3", inr (ok_pdf pdf_C)) ] |}.

(** No document is served: one times out, the other answers 500. *)
Definition all_down : Scripted :=
  {| answers := [
       (Settings.DOD_PDF_API_TEMPLATE "1", inl (HxTimeout "ReadTimeout"));
       (Settings.DOD_PDF_API_TEMPLATE "2", inr (status_only 500 "Internal Server Error")) ] |}.

Definition three_topics : list Schemas.Topic :=
  [mk_topic "A" "1"; mk_topic "B" "2"; mk_topic "C" "3"].

Definition first_page : Schemas.SearchRequest :=
  {| Schemas.term := Some "radar"; Schemas.page := 0; Schemas.page_size := 10;
     Schemas.components := None; Schemas.program_years := None |}.

(** The search answers one topic and a total of 0. *)
Definition short_total : Scripted :=
  {| answers := [
       (Client.search_url first_page,
        inr (ok_json (JObj [("data", JArr [raw_topic "A" "1"]); ("total", JInt 0)]))) ] |}.

(** The search answers no [data] and a null [total]. *)
Definition null_total : Scripted :=
  {| answers := [
       (Client.search_url first_page, inr (ok_json (JObj [("total", JNull)]))) ] |}.

Definition form_search_url (page : Z) : string :=
  SEARCH_API +:+ "?searchParam=payload&size=10&page=" +:+ str_int page.

Definition two_raw_topics : json :=
  JObj [("data", JArr [raw_topic "A" "1"; raw_topic "B" "2"]); ("total", JInt 2)].

(** Every search and every document is served, to every client. *)
Definition healthy : Scripted :=
  {| answers := [
       (form_search_url 0, inr (ok_json two_raw_topics));
       (Client.search_url
          {| Schemas.term := Some "radar"; Schemas.page := 0; Schemas.page_size := 1000;
             Schemas.components := None; Schemas.program_years := None |},
        inr (ok_json two_raw_topics));
       (Client.search_url first_page, inr (ok_json two_raw_topics));
       (Settings.DOD_PDF_API_TEMPLATE "1", inr (ok_pdf pdf_A));
       (Settings.DOD_PDF_API_TEMPLATE "2", inr (ok_pdf pdf_C));
       (PDF_API_TEMPLATE "1", inr (ok_pdf pdf_A));
       (PDF_API_TEMPLATE "2", inr (ok_pdf pdf_C)) ] |}.

(** Document 1 is served to every client, document 2 to none. *)
Definition second_down : Scripted :=
  {| answers := [
       (Settings.DOD_PDF_API_TEMPLATE "1", inr (ok_pdf pdf_A));
       (Settings.DOD_PDF_API_TEMPLATE "2", inr (status_only 503 "Service Unavailable"));
       (PDF_API_TEMPLATE "1", inr (ok_pdf pdf_A));
       (PDF_API_TEMPLATE "2", inr (status_only 503 "Service Unavailable")) ] |}.

Definition two_topics : list Schemas.Topic := [mk_topic "A" "1"; mk_topic "B" "2"].

Definition two_raw_map : gmap string json :=
  <["B" := raw_topic "B" "2"]> (<["A" := raw_topic "A" "1"]> ∅).

(** A code with a character outside latin-1: U+0416 and the digit 1. *)
Definition cyrillic_code : string :=
  String (ascii_of_nat 208) (String (ascii_of_nat 150) "1").

(** A code with a NUL character between A and B. *)
Definition nul_code : string := String "A"%char (String zero "B").

(** Topic A comes twice in the result list, under two ids. *)
Definition dup_topics : list Schemas.Topic :=
  [mk_topic "A" "1"; mk_topic "B" "2"; mk_topic "A" "3"].

(** The search answers an object with neither [data] nor [total]. *)
Definition no_keys : Scripted :=
  {| answers := [
       (Client.search_url first_page, inr (ok_json (JObj [("message", JStr "ok")]))) ] |}.

(** ** Vocabulary of the further properties *)

(** The entry of a rendered page's context under a key. *)
Definition context_get (r : exn + template_response) (k : string) : option json :=
  match r with
  | inr (TemplateResponse _ (JObj context)) => dict_get context k
  | _ => None
  end.

(** A [Topic] with another release number. *)
Definition with_release_number (t : Schemas.Topic) (release : option string)
  : Schemas.Topic :=
  {| Schemas.topicCode := Schemas.topicCode t;
     Schemas.topicTitle := Schemas.topicTitle t;
     Schemas.component := Schemas.component t;
     Schemas.topicStatus := Schemas.topicStatus t;
     Schemas.solicitationTitle := Schemas.solicitationTitle t;
     Schemas.topicId := Schemas.topicId t;
     Schemas.programYear := Schemas.programYear t;
     Schemas.releaseNumber := release;
     Schemas.technologyArea := Schemas.technologyArea t;
     Schemas.keywords := Schemas.keywords t |}.

(** Every value of a raw table is a topic object filed under its own code. *)
Definition raw_table_ok (raw : gmap string json) : Prop :=
  forall c t, raw !! c = Some t ->
              exists kv, t = JObj kv /\ dict_get kv "topicCode" = Some (JStr c).

Section FurtherVocabulary.
Context `{PyLib} {World : Type} `{Upstream World}.

(** The search request of [query_api] in [main.py]. *)
Definition form_main_search_request (term : option string) (page page_size : Z)
  : http_request :=
  {| req_method := "GET";
     req_url := SEARCH_API +:+ "?searchParam="
                +:+ urllib_quote (json_dumps (form_search_payload term))
                +:+ "&size=" +:+ str_int page_size +:+ "&page=" +:+ str_int page;
     req_headers :=
       <["User-Agent" := "Mozilla/5.0"]>
       (<["Referer" := "https://www.dodsbirsttr.mil/topics-app/"]>
       (<["Accept" := "application/json, text/plain, */*"]>
       (<["Content-Type" := "application/json"]> ∅)));
     req_follow_redirects := false; req_json := None |}.

(** The page of [main.py] for a lookup that failed with [e]. *)
Definition form_main_error_page (term : string) (page : Z) (e : exn) : http_response :=
  HTMLResponse ("<h2>Error fetching topic list for download: " +:+ str_exn e
                +:+ "</h2><a href='/?term=" +:+ term +:+ "&page=" +:+ str_int page
                +:+ "'>Back</a>").

(** The search request of [query_api] in [src/main.py]. *)
Definition form_src_search_request (term : option string) (page : Z) : http_request :=
  {| req_method := "GET";
     req_url := SEARCH_API +:+ "?searchParam="
                +:+ urllib_quote (json_dumps (form_search_payload term))
                +:+ "&size=10&page=" +:+ str_int page;
     req_headers :=
       <["User-Agent" := FormSrc.USER_AGENT]>
       (<["Referer" := "https://www.dodsbirsttr.mil/topics-app/"]>
       (<["Accept" := "application/json, text/plain, */*"]>
       (<["Content-Type" := "application/json"]> ∅)));
     req_follow_redirects := false; req_json := None |}.

End FurtherVocabulary.

(** A computation that sends nothing and leaves the upstream alone. *)
Definition keeps_state {World A : Type} (m : M World A) : Prop :=
  forall s, snd (m s) = s.

(** [term] is absent, empty, or empty once stripped: the test of [index]
    in [src/main.py]. *)
Definition blank_term `{StrLib} (term : option string) : bool :=
  match term with
  | Some t => negb (str_truthy t && str_truthy (py_strip t))
  | None => true
  end.

(** [term.strip()] where there is a term. *)
Definition stripped `{StrLib} (term : option string) : option string :=
  match term with Some t => Some (py_strip t) | None => None end.

(** [v[k1][k2]...] on nested dicts, [None] where a key is missing or the
    value is not a dict. *)
Fixpoint json_path (v : json) (path : list string) : option json :=
  match path with
  | [] => Some v
  | k :: rest =>
      match v with
      | JObj kv => match dict_get kv k with
                   | Some v' => json_path v' rest
                   | None => None
                   end
      | _ => None
      end
  end.

(** The names under which [generate_custom_openapi_schema] files the models. *)
Definition model_names : list string :=
  ["Topic"; "SearchResponse"; "SearchRequest"; "DownloadRequest"; "ErrorResponse"].

(** A dict, or nothing at all: what [generate_custom_openapi_schema] can
    work with under [components] and under [schemas]. *)
Definition dict_or_absent (v : option json) : Prop :=
  match v with
  | None | Some (JObj _) => True
  | Some _ => False
  end.

(** [if app.openapi_schema]: a schema is held and it is not empty. *)
Definition cached {Routes : Type} (app : @OpenApi.FastAPI Routes) : bool :=
  match OpenApi.openapi_schema app with
  | Some (_ :: _) => true
  | _ => false
  end.

(** A stand-in for [str.strip()]: blanks are removed at both ends. *)
Fixpoint strip_left (s : string) : string :=
  match s with
  | String c rest => if Ascii.eqb c " "%char then strip_left rest else s
  | EmptyString => EmptyString
  end.

Fixpoint string_rev (acc s : string) : string :=
  match s with
  | String c rest => string_rev (String c acc) rest
  | EmptyString => acc
  end.

#[global] Instance stub_str : StrLib := {|
  py_strip := fun s =>
    string_rev EmptyString (strip_left (string_rev EmptyString (strip_left s)))
|}.

(** A stand-in for FastAPI's schema generation: one path, one schema that
    FastAPI derived by itself and one that clashes with a model. *)
#[global] Instance stub_fastapi : OpenApi.FastApiLib unit := {|
  OpenApi.get_openapi := fun title version _ _ =>
    [ ("openapi", JStr "3.1.0");
      ("info", JObj [("title", JStr title); ("version", JStr version)]);
      ("paths", JObj [("/api/v1/topics/search", JObj [])]);
      ("components",
       JObj [("schemas",
              JObj [("HTTPValidationError", JObj [("type", JStr "object")]);
                    ("Topic", JObj [("title", JStr "generated")])])]) ];
  OpenApi.model_json_schema := fun name => JObj [("title", JStr name)]
|}.

Definition fresh_app : OpenApi.FastAPI :=
  {| OpenApi.title := "DOD SBIR/STTR Scraper"; OpenApi.version := "1.0.0";
     OpenApi.description := "API for searching and downloading DOD SBIR/STTR topics";
     OpenApi.routes := tt; OpenApi.openapi_schema := None |}.

(** The search of the form endpoints answers two topics out of 25. *)
Definition paged : Scripted :=
  {| answers := [
       (form_search_url 0,
        inr (ok_json (JObj [("data", JArr [raw_topic "A" "1"; raw_topic "B" "2"]);
                            ("total", JInt 25)])));
       (PDF_API_TEMPLATE "1", inr (ok_pdf pdf_A));
       (PDF_API_TEMPLATE "2", inr (status_only 503 "Service Unavailable"));
       (MainPages.QUESTIONS_API_TEMPLATE "1",
        inr (ok_json (JArr [JObj [("question", JStr "When is the deadline?")]]))) ] |}.

(** The search of the form endpoints answers 502 with a body that is not
    text. *)
Definition garbled_error : Scripted :=
  {| answers := [
       (form_search_url 0,
        inr {| resp_status_code := 502; resp_url := EmptyString;
               resp_content := [Byte.xff]; resp_text := "?";
               resp_json := None;
               resp_json_exn := UnicodeDecode "'utf-8' codec can't decode byte 0xff" |}) ] |}.

(** The search answers one valid topic and one without its required
    fields. *)
Definition malformed_page : Scripted :=
  {| answers := [
       (Client.search_url first_page,
        inr (ok_json (JObj [("data", JArr [raw_topic "A" "1";
                                           JObj [("topicCode", JStr "B")]]);
                            ("total", JInt 2)]))) ] |}.

(** ** Running the monad *)

Section MonadFacts.
Context {World : Type}.
Implicit Types s : St World.

Lemma bind_run {A B} (m : M World A) (k : A -> M World B) s :
  bind m k s = match m s with
               | (inr a, s') => k a s'
               | (inl e, s') => (inl e, s')
               end.
Proof. reflexivity. Qed.

Lemma bind_ok {A B} (m : M World A) (k : A -> M World B) s a s' :
  m s = (inr a, s') -> bind m k s = k a s'.
Proof. intros Hm. unfold bind. now rewrite Hm. Qed.

Lemma bind_raise {A B} (m : M World A) (k : A -> M World B) s e s' :
  m s = (inl e, s') -> bind m k s = (inl e, s').
Proof. intros Hm. unfold bind. now rewrite Hm. Qed.

Lemma try_ok {A} (m : M World A) h s a s' :
  m s = (inr a, s') -> try_except m h s = (inr a, s').
Proof. intros Hm. unfold try_except. now rewrite Hm. Qed.

Lemma try_raise {A} (m : M World A) h s e s' :
  m s = (inl e, s') -> try_except m h s = h e s'.
Proof. intros Hm. unfold try_except. now rewrite Hm. Qed.
End MonadFacts.

(** ** Names and headers *)

Section EncodingFacts.

Lemma latin1_encodable_app a b :
  latin1_encodable (a +:+ b) = latin1_encodable a && latin1_encodable b.
Proof.
  induction a as [| c a IH]; [reflexivity |].
  simpl. now rewrite IH, andb_assoc.
Qed.

Lemma nul_free_app a b : nul_free (a +:+ b) = nul_free a && nul_free b.
Proof.
  induction a as [| c a IH]; [reflexivity |].
  simpl. now rewrite IH, andb_assoc.
Qed.

Lemma zip_filename_nul_free name : nul_free name = true -> zip_filename name = name.
Proof.
  induction name as [| c name IH]; [reflexivity |].
  cbn [nul_free zip_filename]. intros Hfree. apply andb_prop in Hfree as [Hc Hrest].
  apply negb_true_iff in Hc. now rewrite Hc, IH.
Qed.

(** An entry named after a code without NUL is filed under the name given. *)
Lemma zip_filename_code prefix code suffix :
  nul_free prefix = true -> nul_free suffix = true -> nul_free code = true ->
  zip_filename (prefix +:+ code +:+ suffix) = prefix +:+ code +:+ suffix.
Proof.
  intros Hp Hs Hc. apply zip_filename_nul_free.
  now rewrite !nul_free_app, Hp, Hs, Hc.
Qed.

Lemma pdf_filename_nul_free code :
  nul_free code = true -> zip_filename (code +:+ ".pdf") = code +:+ ".pdf".
Proof. intros Hc. apply (zip_filename_code "" code ".pdf"); auto. Qed.

Lemma error_filename_nul_free code :
  nul_free code = true ->
  zip_filename ("ERROR_" +:+ code +:+ ".txt") = "ERROR_" +:+ code +:+ ".txt".
Proof. intros Hc. apply (zip_filename_code "ERROR_" code ".txt"); auto. Qed.

(** The header of a single document can be encoded exactly when the code can. *)
Lemma pdf_header_encodable code :
  latin1_encodable ("attachment; filename=" +:+ dq +:+ code +:+ ".pdf" +:+ dq)
  = latin1_encodable code.
Proof.
  rewrite !latin1_encodable_app.
  change (latin1_encodable "attachment; filename=") with true.
  change (latin1_encodable dq) with true.
  change (latin1_encodable ".pdf") with true.
  now rewrite !andb_true_r.
Qed.

Lemma pdf_response_init_ok code content :
  latin1_encodable code = true ->
  pdf_response_init code content = inr (pdf_response code content).
Proof.
  intros Hc. unfold pdf_response_init, StreamingResponse_init.
  now rewrite pdf_header_encodable, Hc.
Qed.

Lemma pdf_response_init_raises code content :
  latin1_encodable code = false ->
  exists m, pdf_response_init code content = inl (OtherException m).
Proof.
  intros Hc. unfold pdf_response_init, StreamingResponse_init.
  rewrite pdf_header_encodable, Hc. eauto.
Qed.

Lemma zip_response_init_ok zf : zip_response_init zf = inr (zip_response zf).
Proof. reflexivity. Qed.

Lemma zip_filename_append a b :
  nul_free a = true -> zip_filename (a +:+ b) = a +:+ zip_filename b.
Proof.
  induction a as [| c a IH]; [reflexivity |].
  simpl. intros Hfree. apply andb_prop in Hfree as [Hc Hrest].
  apply negb_true_iff in Hc. now rewrite Hc, IH.
Qed.

Context `{PyLib}.

(** An entry with a name is filed under it. *)
Lemma writestr_named zf name data :
  zip_filename name <> EmptyString ->
  writestr zf name data = inr (zf ++ [(zip_filename name, data)]).
Proof.
  intros Hname. unfold writestr.
  destruct (zip_filename name); [congruence |]. now destruct empty_arcname_error.
Qed.

(** The name of a placeholder is never empty. *)
Lemma writestr_placeholder zf code data :
  writestr zf ("ERROR_" +:+ code +:+ ".txt") data
  = inr (zf ++ [(zip_filename ("ERROR_" +:+ code +:+ ".txt"), data)]).
Proof.
  apply writestr_named.
  rewrite (zip_filename_append "ERROR_") by reflexivity. discriminate.
Qed.

Lemma writestr_pdf zf code data :
  nul_free code = true ->
  writestr zf (code +:+ ".pdf") data = inr (zf ++ [(code +:+ ".pdf", data)]).
Proof.
  intros Hfree. rewrite writestr_named; rewrite pdf_filename_nul_free by done.
  - reflexivity.
  - destruct code; discriminate.
Qed.

(** What [writestr] does in general: it files the entry under the name cut
    at the first NUL, or raises. *)
Lemma writestr_run zf name data :
  writestr zf name data = inr (zf ++ [(zip_filename name, data)])
  \/ exists m, writestr zf name data = inl (OtherException m).
Proof.
  unfold writestr. destruct (zip_filename name); [| now left].
  destruct empty_arcname_error; eauto.
Qed.

Lemma entry_of_document code topic_id pdf_content :
  nul_free code = true ->
  entry_of (code, topic_id) (inr pdf_content) = (code +:+ ".pdf", ZBytes pdf_content).
Proof.
  intros Hfree. unfold entry_of. cbn [fst].
  rewrite pdf_filename_nul_free by done.
  destruct code; reflexivity.
Qed.

End EncodingFacts.

(** ** The gateway *)

Section GatewayFacts.
Context `{PyLib} {World : Type} `{Upstream World}.
Implicit Types s : St World.

Lemma request_run method url kh fr kj s :
  let r := request_sent method url kh fr kj in
  Client._request method url kh fr kj s =
    (classify url (fst (client_request r (world s))), after_send r s).
Proof.
  intros r.
  unfold Client._request, try_except, bind, Client.send, after_send.
  fold (request_sent method url kh fr kj). fold r.
  destruct (client_request r (world s)) as [[e | resp] w']; simpl.
  - destruct e; reflexivity.
  - unfold Client.raise_for_status, is_success.
    destruct ((200 <=? resp_status_code resp) && (resp_status_code resp <=? 299));
      reflexivity.
Qed.

Lemma download_pdf_content_run topic_id s :
  Client.download_pdf_content topic_id s =
    (match classify (Settings.DOD_PDF_API_TEMPLATE topic_id)
             (fst (client_request (pdf_request topic_id) (world s))) with
     | inl e => inl e
     | inr resp => inr (resp_content resp)
     end, after_send (pdf_request topic_id) s).
Proof.
  unfold Client.download_pdf_content. rewrite bind_run, request_run.
  simpl. fold (pdf_request topic_id).
  destruct (classify _ _); reflexivity.
Qed.

End GatewayFacts.


Section GatewayClaims.
Context `{PyLib} {World : Type} `{Upstream World}.
Implicit Types s : St World.

Lemma status_or_502_forwards c : c <> 0 -> status_or_502 (Some c) = c.
Proof.
  intros Hc. unfold status_or_502.
  destruct (Z.eqb_spec c 0); [contradiction | reflexivity].
Qed.

(** C5. A failed gateway call is classified in the order of the [except]
    clauses of [_request]: a timeout (although it is a request error too)
    becomes the timeout error, any other transport failure the network
    error, both without a status code and both naming the URL that was
    asked for; a response outside 2xx becomes the status error, carrying
    the upstream status code and naming the URL of the response's own
    request (as httpx writes it, the last hop of a followed redirect) and
    the first 200 characters of the body.  All three are
    [DoDSBIRAPIError].  The callers
    ([search_topics_endpoint] and the download endpoint's [except] clause)
    answer with the carried status code when there is one, and with 502
    otherwise. *)
Theorem gateway_failures_classified method url kh fr kj s :
  let r := request_sent method url kh fr kj in
  (forall m, fst (client_request r (world s)) = inl (HxTimeout m) ->
     isinstance_RequestError (exn_of_httpx (HxTimeout m)) = true /\
     Client._request method url kh fr kj s =
       (inl (DoDSBIRAPIError ("Request to " +:+ url +:+ " timed out.") None),
        after_send r s))
  /\ (forall m, fst (client_request r (world s)) = inl (HxTransport m) ->
     Client._request method url kh fr kj s =
       (inl (DoDSBIRAPIError ("Network error requesting " +:+ url +:+ ": " +:+ m) None),
        after_send r s))
  /\ (forall resp, fst (client_request r (world s)) = inr resp ->
     is_success resp = false ->
     Client._request method url kh fr kj s =
       (inl (DoDSBIRAPIError
               ("API request to " +:+ resp_url resp +:+ " failed with status "
                +:+ str_int (resp_status_code resp) +:+ ". Response: "
                +:+ py_prefix 200 (resp_text resp) +:+ "...")
               (Some (resp_status_code resp))),
        after_send r s))
  /\ (forall request s0 msg sc s1,
        Client.search_topics request s0 = (inl (DoDSBIRAPIError msg sc), s1) ->
        Topics.search_topics_endpoint request s0 =
          (inl (HTTPException (status_or_502 sc) (error_detail msg "DOD_API_ERROR")), s1))
  /\ (forall msg sc s0,
        Topics.download_except (DoDSBIRAPIError msg sc) s0 =
          (inl (HTTPException (status_or_502 sc)
                  (error_detail msg "DOD_API_DOWNLOAD_ERROR")), s0))
  /\ status_or_502 None = 502
  /\ (forall c, c <> 0 -> status_or_502 (Some c) = c).
Proof.
  intros r. split_and!.
  - intros m Hm. split; [reflexivity |].
    rewrite request_run. fold r. now rewrite Hm.
  - intros m Hm. rewrite request_run. fold r. now rewrite Hm.
  - intros resp Hresp Hbad. rewrite request_run. fold r. rewrite Hresp. simpl.
    now rewrite Hbad.
  - intros request s0 msg sc s1 Hs. unfold Topics.search_topics_endpoint.
    now rewrite (try_raise _ _ _ _ _ (bind_raise _ _ _ _ _ Hs)).
  - reflexivity.
  - reflexivity.
  - apply status_or_502_forwards.
Qed.

End GatewayClaims.

(** ** Resolution and aggregation *)

Section ResolverFacts.
Context `{PyLib} {World : Type} `{Upstream World}.
Implicit Types s : St World.

Lemma resolve_step_spec topic_map found missing c :
  Topics.resolve_step topic_map (found, missing) c =
    match resolves_to topic_map c with
    | Some topic_id => (found ++ [(c, topic_id)], missing)
    | None => (found, missing ++ [c])
    end.
Proof.
  unfold Topics.resolve_step, resolves_to.
  destruct (topic_map !! c) as [topic_id |]; [| reflexivity].
  now destruct (str_truthy topic_id).
Qed.

Lemma found_pairs_cons topic_map c codes :
  found_pairs topic_map (c :: codes) =
    match resolves_to topic_map c with
    | Some topic_id => (c, topic_id) :: found_pairs topic_map codes
    | None => found_pairs topic_map codes
    end.
Proof.
  unfold found_pairs. cbn [omap list_omap].
  destruct (resolves_to topic_map c); reflexivity.
Qed.

Lemma missing_codes_cons topic_map c codes :
  missing_codes topic_map (c :: codes) =
    match resolves_to topic_map c with
    | Some _ => missing_codes topic_map codes
    | None => c :: missing_codes topic_map codes
    end.
Proof.
  unfold missing_codes. rewrite filter_cons.
  destruct (resolves_to topic_map c); case_decide; done.
Qed.

Lemma resolve_from topic_map codes found missing :
  foldl (Topics.resolve_step topic_map) (found, missing) codes =
    (found ++ found_pairs topic_map codes, missing ++ missing_codes topic_map codes).
Proof.
  revert found missing. induction codes as [| c codes IH]; intros found missing.
  - simpl. now rewrite !app_nil_r.
  - cbn [foldl]. rewrite resolve_step_spec, found_pairs_cons, missing_codes_cons.
    destruct (resolves_to topic_map c) as [topic_id |]; rewrite IH;
      now rewrite <- app_assoc.
Qed.

Lemma resolve_spec topic_map codes :
  Topics.resolve topic_map codes =
    (found_pairs topic_map codes, missing_codes topic_map codes).
Proof. unfold Topics.resolve. now rewrite resolve_from. Qed.

Lemma found_pairs_elem topic_map codes c topic_id :
  (c, topic_id) ∈ found_pairs topic_map codes ->
  c ∈ codes /\ topic_map !! c = Some topic_id /\ str_truthy topic_id = true.
Proof.
  unfold found_pairs. rewrite list_elem_of_omap. intros (c' & Hin & Hsome).
  unfold resolves_to in Hsome.
  destruct (topic_map !! c') as [i |] eqn:Hc; [| discriminate].
  destruct (str_truthy i) eqn:Ht; [| discriminate].
  simpl in Hsome. injection Hsome as <- <-. auto.
Qed.

Lemma found_pairs_none topic_map codes :
  (forall c, c ∈ codes -> topic_map !! c = None) ->
  found_pairs topic_map codes = [] /\ missing_codes topic_map codes = codes.
Proof.
  intros Hnone. induction codes as [| c codes IH]; [done |].
  destruct IH as [IHf IHm].
  { intros c' Hc'. apply Hnone. now right. }
  assert (Hc : resolves_to topic_map c = None).
  { unfold resolves_to. now rewrite (Hnone c) by now left. }
  now rewrite found_pairs_cons, missing_codes_cons, Hc, IHf, IHm.
Qed.

Lemma build_topic_map_snoc topics t :
  Topics.build_topic_map (topics ++ [t]) =
    <[Schemas.topicCode t := Schemas.topicId t]> (Topics.build_topic_map topics).
Proof. unfold Topics.build_topic_map. now rewrite foldl_snoc. Qed.

Lemma build_topic_map_lookup topics c :
  Topics.build_topic_map topics !! c = Schemas.topicId <$> last (with_code c topics).
Proof.
  induction topics as [| t topics IH] using rev_ind.
  - reflexivity.
  - rewrite build_topic_map_snoc. unfold with_code in *. rewrite filter_app.
    rewrite filter_cons, filter_nil.
    destruct (decide (Schemas.topicCode t = c)) as [-> | Hne].
    + rewrite lookup_insert_eq. now rewrite last_snoc.
    + rewrite lookup_insert_ne by done. now rewrite app_nil_r.
Qed.

End ResolverFacts.

Section AggregatorFacts.
Context `{PyLib} {World : Type} `{Upstream World}.
Implicit Types s : St World.

Lemma zip_step_run zf code topic_id s :
  Topics.zip_step zf (code, topic_id) s =
    (inr (zf ++ [entry_of (code, topic_id) (fst (Client.download_pdf_content topic_id s))]),
     snd (Client.download_pdf_content topic_id s)).
Proof.
  unfold Topics.zip_step, try_except, bind.
  destruct (Client.download_pdf_content topic_id s) as [[e | pdf] s1];
    cbn [fst snd entry_of placeholder_of].
  - destruct (isinstance_DoDSBIRAPIError e) eqn:He; rewrite writestr_placeholder;
      unfold lift, placeholder_of; now rewrite He.
  - unfold writestr at 1.
    destruct (zip_filename (code +:+ ".pdf")); [| reflexivity].
    destruct empty_arcname_error; [| reflexivity].
    unfold lift. cbn [isinstance_DoDSBIRAPIError].
    now rewrite writestr_placeholder.
Qed.

Lemma zip_loop_run pairs zf s :
  for_each Topics.zip_step zf pairs s =
    (inr (zf ++ zip_with entry_of pairs (fst (run_fetches (map snd pairs) s))),
     snd (run_fetches (map snd pairs) s)).
Proof.
  revert zf s. induction pairs as [| [code topic_id] pairs IH]; intros zf s.
  - cbn. unfold ret. now rewrite app_nil_r.
  - cbn [for_each]. rewrite bind_run, zip_step_run, IH.
    cbn [map snd run_fetches].
    destruct (Client.download_pdf_content topic_id s) as [r s1]. cbn [fst snd].
    destruct (run_fetches (map snd pairs) s1) as [rs s2].
    simpl. now rewrite <- app_assoc.
Qed.

Lemma run_fetches_length ids s : length (fst (run_fetches ids s)) = length ids.
Proof.
  revert s. induction ids as [| i ids IH]; intros s; [reflexivity |].
  cbn [run_fetches]. destruct (Client.download_pdf_content i s) as [r s1].
  specialize (IH s1). destruct (run_fetches ids s1) as [rs s2]. simpl in *. lia.
Qed.

(** A batch of two or more resolved pairs always comes back as an archive
    with one entry per pair. *)
Lemma fetch_all_batch p1 p2 pairs s :
  Topics.fetch_all (p1 :: p2 :: pairs) s =
    (inr (zip_response
            (zip_with entry_of (p1 :: p2 :: pairs)
               (fst (run_fetches (map snd (p1 :: p2 :: pairs)) s)))),
     snd (run_fetches (map snd (p1 :: p2 :: pairs)) s)).
Proof.
  unfold Topics.fetch_all.
  destruct p1 as [c1 i1]. rewrite bind_run, zip_loop_run.
  pose proof (run_fetches_length (map snd ((c1, i1) :: p2 :: pairs)) s) as Hlen.
  destruct (run_fetches (map snd ((c1, i1) :: p2 :: pairs)) s) as [rs s'].
  destruct rs as [| r rs]; [discriminate |].
  reflexivity.
Qed.

Lemma fetch_all_single code topic_id s :
  Topics.fetch_all [(code, topic_id)] s =
    (match fst (Client.download_pdf_content topic_id s) with
     | inr pdf_content => pdf_response_init code pdf_content
     | inl e => inl e
     end, snd (Client.download_pdf_content topic_id s)).
Proof.
  unfold Topics.fetch_all. rewrite bind_run.
  now destruct (Client.download_pdf_content topic_id s) as [[e | pdf] s1].
Qed.

(** Past the resolution, the endpoint is the aggregator on the resolved pairs. *)
Lemma download_found_resolved topics selected resolved unresolved s :
  Topics.resolve (Topics.build_topic_map topics) selected = (resolved, unresolved) ->
  resolved <> [] ->
  Topics.download_found topics selected s = Topics.fetch_all resolved s.
Proof.
  intros Hres Hne. unfold Topics.download_found. rewrite Hres.
  destruct resolved as [| p resolved]; [contradiction |].
  destruct unresolved; reflexivity.
Qed.

Lemma resolve_and_fetch_resolved topics selected resolved unresolved s :
  Topics.resolve (Topics.build_topic_map topics) selected = (resolved, unresolved) ->
  resolved <> [] ->
  Topics.resolve_and_fetch topics selected s = Topics.fetch_resolved resolved s.
Proof.
  intros Hres Hne. unfold Topics.resolve_and_fetch, Topics.fetch_resolved, try_except.
  now rewrite (download_found_resolved _ _ _ _ _ Hres Hne).
Qed.

End AggregatorFacts.

Section DownloadClaims.
Context `{PyLib} {World : Type} `{Upstream World}.
Implicit Types s : St World.

(** The endpoint is its lookup search followed by [resolve_and_fetch]. *)
Lemma download_pdfs_endpoint_stages request s :
  Topics.download_pdfs_endpoint request s =
    match lookup_topics request s with
    | (inr all_found_topics, s') =>
        Topics.resolve_and_fetch all_found_topics (Schemas.selected_topics request) s'
    | (inl e, s') => Topics.download_except e s'
    end.
Proof.
  unfold Topics.download_pdfs_endpoint, lookup_topics, Topics.resolve_and_fetch.
  unfold try_except, bind, lift, ret.
  destruct (Schemas.SearchRequest_init _ (Schemas.dl_page request) _);
    [reflexivity |].
  destruct (Schemas.SearchRequest_init _ 0 1000) as [e | lookup_request];
    [reflexivity |].
  destruct (Client.search_topics lookup_request s) as [[e | [[topics total] more]] s'];
    reflexivity.
Qed.

Lemma classify_raises url answer e :
  classify url answer = inl e ->
  (exists m sc, e = DoDSBIRAPIError m sc) \/ (exists m, e = OtherException m).
Proof.
  destruct answer as [[m | m | m] | resp]; simpl.
  - intros [= <-]. left. eauto.
  - intros [= <-]. left. eauto.
  - intros [= <-]. right. eauto.
  - destruct (is_success resp); [discriminate |]. intros [= <-]. left. eauto.
Qed.

Lemma download_pdf_content_raises topic_id s e s' :
  Client.download_pdf_content topic_id s = (inl e, s') ->
  (exists m sc, e = DoDSBIRAPIError m sc) \/ (exists m, e = OtherException m).
Proof.
  rewrite download_pdf_content_run.
  destruct (classify _ _) as [e0 | resp] eqn:Hc; [| discriminate].
  intros [= <- _]. eapply classify_raises, Hc.
Qed.

(** Whatever the aggregator raises is a fetch error, never a resolution error. *)
Lemma fetch_resolved_raises pairs s e s' :
  pairs <> [] ->
  Topics.fetch_resolved pairs s = (inl e, s') ->
  exists st d, e = HTTPException st (error_detail d "DOD_API_DOWNLOAD_ERROR")
            \/ e = HTTPException st (error_detail d "DOWNLOAD_ERROR").
Proof.
  intros Hne. unfold Topics.fetch_resolved, try_except.
  destruct pairs as [| [c1 i1] [| p2 pairs]]; [contradiction | |].
  - rewrite fetch_all_single.
    destruct (Client.download_pdf_content i1 s) as [[e0 | pdf] s1] eqn:Hd; cbn [fst snd].
    + destruct (download_pdf_content_raises _ _ _ _ Hd) as [(m & sc & ->) | (m & ->)];
        simpl; intros [= <- _]; eauto.
    + unfold pdf_response_init, StreamingResponse_init.
      destruct (latin1_encodable _); [discriminate |].
      simpl. intros [= <- _]. eauto.
  - rewrite fetch_all_batch. discriminate.
Qed.

(** C3. With a non-empty list of requested codes: when none of them is in
    the lookup table the operation fails with 404 / TOPIC_NOT_FOUND and the
    upstream is left untouched (nothing is sent, no document is fetched);
    when at least one resolves, the operation is exactly the aggregator run
    on the resolved pairs, whatever the unresolved codes are, and it never
    ends in TOPIC_NOT_FOUND. *)
Theorem resolution_policy topics selected s :
  selected <> [] ->
  let topic_map := Topics.build_topic_map topics in
  ((forall c, c ∈ selected -> topic_map !! c = None) ->
     Topics.resolve_and_fetch topics selected s =
       (inl (HTTPException 404
               (error_detail
                  ("None of the requested topic codes found with the given search parameters: "
                   +:+ py_join ", " selected)
                  "TOPIC_NOT_FOUND")), s))
  /\ (forall resolved unresolved,
        Topics.resolve topic_map selected = (resolved, unresolved) ->
        resolved <> [] ->
        Topics.resolve_and_fetch topics selected s = Topics.fetch_resolved resolved s
        /\ forall st d s',
             Topics.resolve_and_fetch topics selected s <>
               (inl (HTTPException st (error_detail d "TOPIC_NOT_FOUND")), s')).
Proof.
  intros Hsel topic_map. split.
  - intros Hnone.
    destruct (found_pairs_none topic_map selected Hnone) as [Hf Hm].
    unfold Topics.resolve_and_fetch, Topics.download_found, try_except.
    fold topic_map. rewrite resolve_spec, Hf, Hm.
    destruct selected as [| c selected]; [contradiction |]. reflexivity.
  - intros resolved unresolved Hres Hne.
    rewrite (resolve_and_fetch_resolved _ _ _ _ _ Hres Hne). split; [reflexivity |].
    intros st d s' Heq.
    destruct (fetch_resolved_raises _ _ _ _ Hne Heq) as (st' & d' & [Hx | Hx]);
      discriminate Hx.
Qed.

(** C6, as the code has it. When exactly one pair resolves and the
    upstream answers its fetch with a 2xx response: for a code that can be
    encoded as latin-1 the answer's bytes come back unchanged as a PDF
    response whose content disposition names [code.pdf]; for a code that
    cannot, the response header cannot be built and the operation fails
    with 500 / DOWNLOAD_ERROR although the document was fetched.  A gateway
    error of that one fetch is the error of the whole operation, with the
    gateway's status code (or 502) and its message. *)
Theorem single_item_download topics selected code topic_id unresolved s :
  Topics.resolve (Topics.build_topic_map topics) selected = ([(code, topic_id)], unresolved) ->
  let r := pdf_request topic_id in
  (forall resp,
     fst (client_request r (world s)) = inr resp -> is_success resp = true ->
     latin1_encodable code = true ->
     Topics.resolve_and_fetch topics selected s =
       (inr (StreamingResponse (RawBytes (resp_content resp)) "application/pdf"
               ("attachment; filename=" +:+ dq +:+ code +:+ ".pdf" +:+ dq)),
        after_send r s))
  /\ (forall resp,
        fst (client_request r (world s)) = inr resp -> is_success resp = true ->
        latin1_encodable code = false ->
        exists d,
          Topics.resolve_and_fetch topics selected s =
            (inl (HTTPException 500 (error_detail d "DOWNLOAD_ERROR")), after_send r s))
  /\ (forall msg sc s',
        Client.download_pdf_content topic_id s = (inl (DoDSBIRAPIError msg sc), s') ->
        Topics.resolve_and_fetch topics selected s =
          (inl (HTTPException (status_or_502 sc)
                  (error_detail msg "DOD_API_DOWNLOAD_ERROR")), s')).
Proof.
  intros Hres r.
  assert (Hne : [(code, topic_id)] <> []) by discriminate.
  rewrite (resolve_and_fetch_resolved _ _ _ _ _ Hres Hne).
  unfold Topics.fetch_resolved, try_except. rewrite fetch_all_single. split_and!.
  - intros resp Hresp Hok Hcode. rewrite download_pdf_content_run. fold r.
    rewrite Hresp. simpl. rewrite Hok. cbn [fst snd].
    now rewrite (pdf_response_init_ok _ _ Hcode).
  - intros resp Hresp Hok Hcode. rewrite download_pdf_content_run. fold r.
    rewrite Hresp. simpl. rewrite Hok. cbn [fst snd].
    destruct (pdf_response_init_raises code (resp_content resp) Hcode) as [m ->].
    simpl. eauto.
  - intros msg sc s' Hd. now rewrite Hd.
Qed.


(** The aggregate check of lines 157-165 never fires: a batch of two or
    more resolved pairs in which every fetch fails still comes back as an
    archive, holding one placeholder per pair. *)
Lemma all_failed_batch_is_archive p1 p2 pairs s :
  let outcomes := fst (run_fetches (map snd (p1 :: p2 :: pairs)) s) in
  Forall (fun r => failed r = true) outcomes ->
  exists zf,
    fst (Topics.fetch_resolved (p1 :: p2 :: pairs) s) = inr (zip_response zf)
    /\ length zf = length (p1 :: p2 :: pairs)
    /\ Forall (fun e => is_placeholder e = true) zf.
Proof.
  intros outcomes Hall.
  exists (zip_with entry_of (p1 :: p2 :: pairs) outcomes).
  unfold Topics.fetch_resolved, try_except. rewrite fetch_all_batch. fold outcomes.
  split; [reflexivity |].
  pose proof (run_fetches_length (map snd (p1 :: p2 :: pairs)) s) as Hlen.
  fold outcomes in Hlen. rewrite length_map in Hlen.
  split.
  - rewrite length_zip_with. lia.
  - clearbody outcomes. clear Hlen. revert outcomes Hall.
    generalize (p1 :: p2 :: pairs) as l.
    induction l as [| p l IH]; intros [| r rs] Hall; simpl; try constructor.
    + inversion Hall as [| ? ? Hr _]; subst. destruct r; [reflexivity | discriminate].
    + inversion Hall; subst. now apply IH.
Qed.

(** C10. The lookup table maps a code to the id of the last topic of the
    result list that carries it; so any pair the resolver hands to the
    aggregator for that code carries the last occurrence's id, and a
    request for that code alone fetches the last occurrence's document. *)
Theorem duplicate_codes_last_wins topics c :
  Topics.build_topic_map topics !! c = Schemas.topicId <$> last (with_code c topics)
  /\ (forall selected resolved unresolved topic_id,
        Topics.resolve (Topics.build_topic_map topics) selected = (resolved, unresolved) ->
        (c, topic_id) ∈ resolved ->
        Schemas.topicId <$> last (with_code c topics) = Some topic_id)
  /\ (forall t s,
        last (with_code c topics) = Some t ->
        str_truthy (Schemas.topicId t) = true ->
        Topics.resolve_and_fetch topics [c] s =
          Topics.fetch_resolved [(c, Schemas.topicId t)] s).
Proof.
  split_and!.
  - apply build_topic_map_lookup.
  - intros selected resolved unresolved topic_id Hres Hin.
    rewrite resolve_spec in Hres. injection Hres as <- _.
    apply found_pairs_elem in Hin as (_ & Hlook & _).
    now rewrite <- build_topic_map_lookup.
  - intros t s Hlast Htruthy.
    apply (resolve_and_fetch_resolved _ _ _ []); [| discriminate].
    rewrite resolve_spec, found_pairs_cons, missing_codes_cons.
    unfold resolves_to. rewrite build_topic_map_lookup, Hlast. simpl.
    now rewrite Htruthy.
Qed.

Lemma SearchRequest_init_raises term page page_size e :
  Schemas.SearchRequest_init term page page_size = inl e ->
  exists m, e = ValidationError m.
Proof.
  unfold Schemas.SearchRequest_init.
  repeat match goal with |- context [if ?b then _ else _] => destruct b end;
    intros [= <-]; eauto.
Qed.

(** C2, as the code has it. The lookup request asks for a page of 1000,
    which [SearchRequest] rejects: for every request the endpoint answers
    500 / DOWNLOAD_ERROR and sends nothing upstream. *)
Theorem lookup_request_rejected (request : Schemas.DownloadRequest) s :
  Schemas.SearchRequest_init (Schemas.search_term request) 0 1000 =
    inl (ValidationError "page_size: Input should be less than or equal to 100")
  /\ exists d,
       Topics.download_pdfs_endpoint request s =
         (inl (HTTPException 500 (error_detail d "DOWNLOAD_ERROR")), s).
Proof.
  split; [reflexivity |].
  unfold Topics.download_pdfs_endpoint, try_except, bind, lift.
  destruct (Schemas.SearchRequest_init _ (Schemas.dl_page request) _) as [e | r] eqn:He.
  - destruct (SearchRequest_init_raises _ _ _ _ He) as [m ->]. simpl. eauto.
  - simpl. eauto.
Qed.

End DownloadClaims.

(** ** Search *)

Section SearchClaims.
Context `{PyLib} {World : Type} `{Upstream World}.
Implicit Types s : St World.

Lemma validate_topics_length items topics :
  Client.validate_topics items = inr topics -> length topics = length items.
Proof.
  revert topics. induction items as [| t items IH]; intros topics; simpl.
  - now intros [= <-].
  - destruct (Schemas.Topic_model_validate t) as [e | t']; simpl; [discriminate |].
    destruct (Client.validate_topics items) as [e | rest]; simpl; [discriminate |].
    intros [= <-]. simpl. now rewrite (IH rest).
Qed.

(** What [search_topics] returns for a 2xx answer whose body is an object. *)
Lemma search_topics_on_object request s resp body :
  fst (client_request (search_request_sent request) (world s)) = inr resp ->
  is_success resp = true ->
  resp_json resp = Some (JObj body) ->
  Client.search_topics request s =
    (let total := default (JInt 0) (dict_get body "total") in
     match Client.py_int_lt
             ((Schemas.page request + 1) * Schemas.page_size request) total with
     | inl e => inl e
     | inr has_more =>
         match Client.py_iter (default (JArr []) (dict_get body "data")) with
         | inl e => inl e
         | inr items =>
             match Client.validate_topics items with
             | inl e => inl e
             | inr topics => inr (topics, total, has_more)
             end
         end
     end, after_send (search_request_sent request) s).
Proof.
  intros Hresp Hok Hjson. unfold Client.search_topics.
  rewrite bind_run, request_run. fold (search_request_sent request).
  rewrite Hresp. cbn [classify]. rewrite Hok.
  unfold Client.Response_json. rewrite Hjson.
  unfold bind, lift, ret. cbn [Client.py_dict_get].
  destruct (Client.py_int_lt _ _) as [e | has_more]; [reflexivity |].
  destruct (Client.py_iter _) as [e | items]; [reflexivity |].
  now destruct (Client.validate_topics items).
Qed.

(** A result of [search_topics] comes from a 2xx answer whose body is an object. *)
Lemma search_topics_returns request s result s' :
  Client.search_topics request s = (inr result, s') ->
  exists resp body,
    fst (client_request (search_request_sent request) (world s)) = inr resp
    /\ is_success resp = true
    /\ resp_json resp = Some (JObj body).
Proof.
  unfold Client.search_topics. rewrite bind_run, request_run.
  fold (search_request_sent request).
  destruct (fst (client_request (search_request_sent request) (world s)))
    as [e | resp] eqn:Hresp.
  - destruct e; discriminate.
  - cbn [classify]. destruct (is_success resp) eqn:Hok; [| discriminate].
    unfold Client.Response_json, bind, lift, ret, raise.
    destruct (resp_json resp) as [[] |] eqn:Hjson; try discriminate.
    intros _. eauto.
Qed.

(** C7, as the code has it. Whenever [search_topics] returns, [has_more] is the
    comparison [(page + 1) * page_size < total], where [total] is the
    upstream's [total] field as it came (0 when absent) and the topics are
    the items of the upstream's [data], one for one. *)
Theorem search_result_shape request s topics total has_more s' :
  Client.search_topics request s = (inr (topics, total, has_more), s') ->
  Client.py_int_lt ((Schemas.page request + 1) * Schemas.page_size request) total
    = inr has_more
  /\ (forall t, total = JInt t ->
        has_more = ((Schemas.page request + 1) * Schemas.page_size request <? t))
  /\ exists resp body items,
       fst (client_request (search_request_sent request) (world s)) = inr resp
       /\ resp_json resp = Some (JObj body)
       /\ total = default (JInt 0) (dict_get body "total")
       /\ Client.py_iter (default (JArr []) (dict_get body "data")) = inr items
       /\ Client.validate_topics items = inr topics
       /\ length topics = length items.
Proof.
  intros Hrun.
  destruct (search_topics_returns _ _ _ _ Hrun) as (resp & body & Hresp & Hok & Hjson).
  rewrite (search_topics_on_object _ _ _ _ Hresp Hok Hjson) in Hrun.
  cbv zeta in Hrun.
  destruct (Client.py_int_lt _ _) as [e | hm] eqn:Hlt; [discriminate |].
  destruct (Client.py_iter _) as [e | items] eqn:Hiter; [discriminate |].
  destruct (Client.validate_topics items) as [e | ts] eqn:Hval; [discriminate |].
  injection Hrun as <- <- <- _.
  split_and!.
  - exact Hlt.
  - intros t Ht. rewrite Ht in Hlt. simpl in Hlt. now injection Hlt as <-.
  - exists resp, body, items. split_and!; try done.
    now apply validate_topics_length.
Qed.

(** C9, as the code has it. For a 2xx answer whose body is a JSON object and a valid
    query: without [data], search returns no topic as soon as [total], when
    there is one, is a number; without [total], search returns total 0 and
    [has_more = false] as soon as the items of [data], when there are
    some, validate; without both it returns [([], 0, false)].  A [total]
    that is there and is null, a string, a list or an object makes search
    fail, whatever [data] is. *)
Theorem missing_keys_default request s resp body :
  Schemas.SearchRequest_ok request = true ->
  fst (client_request (search_request_sent request) (world s)) = inr resp ->
  is_success resp = true ->
  resp_json resp = Some (JObj body) ->
  let s' := after_send (search_request_sent request) s in
  (dict_get body "data" = None ->
     forall has_more,
       Client.py_int_lt ((Schemas.page request + 1) * Schemas.page_size request)
         (default (JInt 0) (dict_get body "total")) = inr has_more ->
       Client.search_topics request s =
         (inr ([], default (JInt 0) (dict_get body "total"), has_more), s'))
  /\ (dict_get body "total" = None ->
        forall items topics,
          Client.py_iter (default (JArr []) (dict_get body "data")) = inr items ->
          Client.validate_topics items = inr topics ->
          Client.search_topics request s = (inr (topics, JInt 0, false), s'))
  /\ (dict_get body "data" = None -> dict_get body "total" = None ->
        Client.search_topics request s = (inr ([], JInt 0, false), s'))
  /\ (forall total,
        dict_get body "total" = Some total ->
        total = JNull \/ (exists t, total = JStr t) \/ (exists l, total = JArr l)
        \/ (exists o, total = JObj o) ->
        exists e, Client.search_topics request s = (inl e, s')).
Proof.
  intros Hvalid Hresp Hok Hjson s'.
  rewrite (search_topics_on_object _ _ _ _ Hresp Hok Hjson). fold s'.
  assert (Hlt : ((Schemas.page request + 1) * Schemas.page_size request <? 0) = false).
  { unfold Schemas.SearchRequest_ok in Hvalid.
    apply andb_prop in Hvalid as [Hvalid _]. apply andb_prop in Hvalid as [Hp Hs].
    apply Z.leb_le in Hp, Hs. apply Z.ltb_ge. nia. }
  split_and!.
  - intros Hdata has_more Hcmp. cbv zeta. rewrite Hcmp, Hdata. reflexivity.
  - intros Htotal items topics Hiter Hval. cbv zeta. rewrite Htotal.
    cbn [default Client.py_int_lt]. rewrite Hlt, Hiter, Hval. reflexivity.
  - intros Hdata Htotal. cbv zeta. rewrite Hdata, Htotal.
    cbn [default Client.py_int_lt]. rewrite Hlt. reflexivity.
  - intros total Htotal Hbad. cbv zeta. rewrite Htotal.
    destruct Hbad as [-> | [[t ->] | [[l ->] | [o ->]]]]; simpl; eauto.
Qed.

End SearchClaims.

(** ** The JSON endpoint against the form endpoints *)

Section ContractFacts.
Context `{PyLib} {World : Type} `{Upstream World}.
Implicit Types s : St World.

Lemma required_str_inv kv k v :
  Schemas.required_str kv k = inr v -> dict_get kv k = Some (JStr v).
Proof.
  unfold Schemas.required_str.
  destruct (dict_get kv k) as [[] |]; try discriminate. now intros [= ->].
Qed.

Lemma Topic_model_validate_inv v t :
  Schemas.Topic_model_validate v = inr t ->
  exists kv, v = JObj kv
             /\ dict_get kv "topicCode" = Some (JStr (Schemas.topicCode t))
             /\ dict_get kv "topicId" = Some (JStr (Schemas.topicId t)).
Proof.
  destruct v as [| | | | | | kv]; try discriminate.
  unfold Schemas.Topic_model_validate, Schemas.bind_r.
  destruct (Schemas.required_str kv "topicCode") as [| tc] eqn:Htc; [discriminate |].
  destruct (Schemas.required_str kv "topicTitle"); [discriminate |].
  destruct (Schemas.required_str kv "component"); [discriminate |].
  destruct (Schemas.required_str kv "topicStatus"); [discriminate |].
  destruct (Schemas.required_str kv "solicitationTitle"); [discriminate |].
  destruct (Schemas.required_str kv "topicId") as [| tid] eqn:Htid; [discriminate |].
  destruct (Schemas.optional_int kv "programYear"); [discriminate |].
  destruct (Schemas.optional_str kv "technologyArea"); [discriminate |].
  destruct (Schemas.optional_keywords kv); [discriminate |].
  intros [= <-]. simpl. exists kv. eauto using required_str_inv.
Qed.

Lemma tables_agree_insert raw topic_map kv c topic_id :
  tables_agree raw topic_map ->
  dict_get kv "topicCode" = Some (JStr c) ->
  dict_get kv "topicId" = Some (JStr topic_id) ->
  tables_agree (<[c := JObj kv]> raw) (<[c := topic_id]> topic_map).
Proof.
  intros Hagree Hcode Hid c' id'. destruct (decide (c = c')) as [<- | Hne].
  - rewrite !lookup_insert_eq. intros [= <-]. exists kv. split_and!; try done.
    intros ->. discriminate.
  - rewrite !lookup_insert_ne by done. apply Hagree.
Qed.

Lemma raw_topic_map_from_agrees items :
  forall topics raw topic_map,
    Client.validate_topics items = inr topics ->
    tables_agree raw topic_map ->
    exists raw',
      raw_topic_map_from raw items = inr raw'
      /\ tables_agree raw'
           (foldl (fun m t => <[Schemas.topicCode t := Schemas.topicId t]> m)
                  topic_map topics).
Proof.
  induction items as [| t items IH]; intros topics raw topic_map Hval Hagree.
  - injection Hval as <-. exists raw. split; [reflexivity | exact Hagree].
  - cbn [Client.validate_topics] in Hval. unfold Schemas.bind_r in Hval.
    destruct (Schemas.Topic_model_validate t) as [| t'] eqn:Ht; [discriminate |].
    destruct (Client.validate_topics items) as [| rest] eqn:Hrest; [discriminate |].
    injection Hval as <-.
    destruct (Topic_model_validate_inv _ _ Ht) as (kv & -> & Hcode & Hid).
    cbn [raw_topic_map_from raw_topic_map_step]. rewrite Hcode.
    cbn [Schemas.bind_r foldl].
    apply (IH rest); [reflexivity |].
    now apply tables_agree_insert.
Qed.

Lemma raw_topic_map_agrees items topics :
  Client.validate_topics items = inr topics ->
  exists raw,
    raw_topic_map (JArr items) = inr raw
    /\ tables_agree raw (Topics.build_topic_map topics).
Proof.
  intros Hval. apply (raw_topic_map_from_agrees items topics ∅ ∅ Hval).
  intros c topic_id. now rewrite lookup_empty.
Qed.

Lemma found_pairs_resolved topic_map c codes topic_id :
  resolves_to topic_map c = Some topic_id ->
  found_pairs topic_map (c :: codes) = (c, topic_id) :: found_pairs topic_map codes.
Proof. intros Hc. now rewrite found_pairs_cons, Hc. Qed.

Lemma fetched_length (r : string -> http_request) ids docs s :
  fetched r ids docs s -> length docs = length ids.
Proof.
  revert docs s. induction ids as [| i ids IH]; intros [| doc docs] s; try done.
  intros [_ Hrest]. simpl. f_equal. eapply IH, Hrest.
Qed.

(** A loop whose every turn stores the fetched document stores them all. *)
Lemma loop_fetched (step : ZipFile -> string -> M World ZipFile)
    (r : string -> http_request) topic_map :
  (forall zf c topic_id doc s,
     resolves_to topic_map c = Some topic_id -> nul_free c = true ->
     answers_with (r topic_id) doc s ->
     step zf c s = (inr (zf ++ [(c +:+ ".pdf", ZBytes doc)]), after_send (r topic_id) s)) ->
  forall selected docs zf s,
    (forall c, c ∈ selected -> is_Some (resolves_to topic_map c)) ->
    Forall (fun c => nul_free c = true) selected ->
    fetched r (map snd (found_pairs topic_map selected)) docs s ->
    exists s',
      for_each step zf selected s =
        (inr (zf ++ documents (found_pairs topic_map selected) docs), s').
Proof.
  intros Hstep. induction selected as [| c selected IH]; intros docs zf s Hall Hfree Hrun.
  - exists s. destruct docs; [| contradiction]. cbn. unfold ret. now rewrite app_nil_r.
  - destruct (Hall c) as [topic_id Hc]; [now left |].
    apply Forall_cons in Hfree as [Hfc Hfree].
    rewrite (found_pairs_resolved _ _ _ _ Hc) in *.
    destruct docs as [| doc docs]; [contradiction |]. destruct Hrun as [Hdoc Hrun].
    cbn [map snd] in Hdoc, Hrun.
    destruct (IH docs (zf ++ [(c +:+ ".pdf", ZBytes doc)]) (after_send (r topic_id) s))
      as [s2 Hs2]; [intros c' Hc'; apply Hall; now right | exact Hfree | exact Hrun |].
    exists s2. cbn [for_each].
    rewrite (bind_ok _ _ _ _ _ (Hstep zf c topic_id doc s Hc Hfc Hdoc)), Hs2.
    unfold documents. cbn [zip_with fst]. now rewrite <- app_assoc.
Qed.

Lemma send_answered (r : http_request) doc s :
  answers_with r doc s ->
  exists resp,
    Client.send r s = (inr resp, after_send r s)
    /\ is_success resp = true /\ resp_content resp = doc.
Proof.
  intros (resp & Hr & Hok & Hc).
  exists resp. split_and!; try done.
  unfold Client.send, after_send.
  destruct (client_request r (world s)) as [a w']. simpl in *. now subst a.
Qed.

Lemma raise_for_status_ok resp s :
  is_success resp = true -> Client.raise_for_status resp s = (inr resp, s).
Proof. intros Hok. unfold Client.raise_for_status. unfold is_success in Hok. now rewrite Hok. Qed.

Lemma form_main_get_answered topic_id doc s :
  answers_with (form_main_pdf_request topic_id) doc s ->
  exists resp,
    FormMain.get (PDF_API_TEMPLATE topic_id) FormMain.headers s =
      (inr resp, after_send (form_main_pdf_request topic_id) s)
    /\ resp_content resp = doc.
Proof.
  intros Hdoc.
  destruct (send_answered _ _ _ Hdoc) as (resp & Hsend & Hok & Hc).
  exists resp. split; [| exact Hc]. unfold FormMain.get.
  fold (form_main_pdf_request topic_id).
  rewrite (bind_ok _ _ _ _ _ Hsend). now apply raise_for_status_ok.
Qed.

Lemma form_src_get_answered topic_id doc s :
  answers_with (form_src_pdf_request topic_id) doc s ->
  exists resp,
    FormSrc.get (PDF_API_TEMPLATE topic_id) FormSrc.headers true s =
      (inr resp, after_send (form_src_pdf_request topic_id) s)
    /\ resp_content resp = doc.
Proof.
  intros Hdoc.
  destruct (send_answered _ _ _ Hdoc) as (resp & Hsend & Hok & Hc).
  exists resp. split; [| exact Hc]. unfold FormSrc.get.
  fold (form_src_pdf_request topic_id).
  rewrite (bind_ok _ _ _ _ _ Hsend). now apply raise_for_status_ok.
Qed.

(** What a resolved code looks like in the raw table. *)
Lemma resolved_in_raw raw topic_map c topic_id :
  tables_agree raw topic_map ->
  resolves_to topic_map c = Some topic_id ->
  exists kv, raw !! c = Some (JObj kv)
             /\ py_truthy (JObj kv) = true
             /\ Client.py_dict_get (JObj kv) "topicId" JNull = inr (JStr topic_id)
             /\ py_truthy (JStr topic_id) = true.
Proof.
  intros Hagree Hc. unfold resolves_to in Hc.
  destruct (topic_map !! c) as [i |] eqn:Hlook; [| discriminate].
  destruct (str_truthy i) eqn:Ht; [| discriminate]. injection Hc as ->.
  destruct (Hagree _ _ Hlook) as (kv & Hraw & Hne & Hid).
  exists kv. split_and!; try done.
  - now destruct kv.
  - simpl. now rewrite Hid.
Qed.

Lemma form_main_zip_step_answered raw topic_map doc zf c topic_id s :
  tables_agree raw topic_map ->
  resolves_to topic_map c = Some topic_id ->
  nul_free c = true ->
  answers_with (form_main_pdf_request topic_id) doc s ->
  FormMain.zip_step raw zf c s =
    (inr (zf ++ [(c +:+ ".pdf", ZBytes doc)]), after_send (form_main_pdf_request topic_id) s).
Proof.
  intros Hagree Hc Hfree Hdoc.
  destruct (resolved_in_raw _ _ _ _ Hagree Hc) as (kv & Hraw & Htruthy & Hid & _).
  destruct (form_main_get_answered _ _ _ Hdoc) as (resp & Hget & Hcontent).
  unfold FormMain.zip_step. rewrite Hraw, Htruthy. cbn [negb].
  rewrite Hid. unfold lift at 1. rewrite bind_run. cbn [py_str].
  erewrite try_ok; [reflexivity |].
  rewrite (bind_ok _ _ _ _ _ Hget). unfold lift.
  now rewrite Hcontent, (writestr_pdf _ _ _ Hfree).
Qed.

Lemma form_src_zip_step_answered raw topic_map doc zf c topic_id s :
  tables_agree raw topic_map ->
  resolves_to topic_map c = Some topic_id ->
  nul_free c = true ->
  answers_with (form_src_pdf_request topic_id) doc s ->
  FormSrc.zip_step raw zf c s =
    (inr (zf ++ [(c +:+ ".pdf", ZBytes doc)]), after_send (form_src_pdf_request topic_id) s).
Proof.
  intros Hagree Hc Hfree Hdoc.
  destruct (resolved_in_raw _ _ _ _ Hagree Hc) as (kv & Hraw & Htruthy & Hid & Huid).
  destruct (form_src_get_answered _ _ _ Hdoc) as (resp & Hget & Hcontent).
  unfold FormSrc.zip_step. rewrite Hraw, Htruthy. cbn [negb].
  rewrite Hid. unfold lift at 1. rewrite bind_run. rewrite Huid. cbn [negb py_str].
  erewrite try_ok; [reflexivity |].
  rewrite (bind_ok _ _ _ _ _ Hget). unfold lift.
  now rewrite Hcontent, (writestr_pdf _ _ _ Hfree).
Qed.

Lemma download_pdf_content_answered topic_id doc s :
  answers_with (pdf_request topic_id) doc s ->
  Client.download_pdf_content topic_id s =
    (inr doc, after_send (pdf_request topic_id) s).
Proof.
  intros (resp & Hr & Hok & Hc).
  rewrite download_pdf_content_run, Hr. cbn [classify]. now rewrite Hok, Hc.
Qed.

Lemma run_fetches_fetched ids docs s :
  fetched pdf_request ids docs s ->
  fst (run_fetches ids s) = map inr docs.
Proof.
  revert docs s. induction ids as [| i ids IH]; intros [| doc docs] s; try done.
  intros [Hdoc Hrest]. cbn [run_fetches].
  rewrite (download_pdf_content_answered _ _ _ Hdoc).
  specialize (IH docs _ Hrest).
  destruct (run_fetches ids _) as [rs s2]. simpl in *. now rewrite IH.
Qed.

Lemma entries_fetched (pairs : list (string * string)) docs :
  Forall (fun p => nul_free (fst p) = true) pairs ->
  zip_with entry_of pairs (map inr docs) = documents pairs docs.
Proof.
  intros Hfree. revert docs. induction Hfree as [| p pairs Hp _ IH]; intros [| doc docs];
    try reflexivity.
  unfold documents in *. cbn [map zip_with]. destruct p as [c i].
  now rewrite IH, (entry_of_document _ _ _ Hp).
Qed.

Lemma found_pairs_nul_free topic_map selected :
  Forall (fun c => nul_free c = true) selected ->
  Forall (fun p => nul_free (fst p) = true) (found_pairs topic_map selected).
Proof.
  induction 1 as [| c selected Hc _ IH]; [constructor |].
  rewrite found_pairs_cons. destruct (resolves_to topic_map c); [| exact IH].
  now constructor.
Qed.

End ContractFacts.

Section ContractClaims.
Context `{PyLib} {World : Type} `{Upstream World}.
Implicit Types s : St World.


End ContractClaims.

(** ** Concrete runs *)

(** C1, as the code has it. Two resolved pairs, both fetches failing (one
    times out, one answers 500): the operation returns an archive that holds
    the two placeholders, not the ALL_DOWNLOADS_FAILED error. *)
Theorem all_failed_batch_returns_placeholders :
  fst (Topics.resolve_and_fetch three_topics ["A"; "B"] (start all_down)) =
    inr (StreamingResponse
           (ZipArchive [
              ("ERROR_A.txt",
               ZText ("Failed to download PDF for topic A." +:+ newline
                      +:+ "Error: Request to https://www.dodsbirsttr.mil/api/topics/1/pdf timed out."));
              ("ERROR_B.txt",
               ZText ("Failed to download PDF for topic B." +:+ newline
                      +:+ "Error: API request to https://www.dodsbirsttr.mil/api/topics/2/pdf failed with status 500. Response: Internal Server Error...")) ])
           "application/zip"
           ("attachment; filename=" +:+ dq +:+ "selected_pdfs.zip" +:+ dq)).
Proof. vm_compute. reflexivity. Qed.

(** C5 at work: a read timeout and a 500 answer, classified. *)
Lemma gateway_failures_classified_witness :
  fst (Client._request "GET" (Settings.DOD_PDF_API_TEMPLATE "1") None true None
         (start all_down)) =
    inl (DoDSBIRAPIError
           "Request to https://www.dodsbirsttr.mil/api/topics/1/pdf timed out." None)
  /\ fst (Client._request "GET" (Settings.DOD_PDF_API_TEMPLATE "2") None true None
            (start all_down)) =
       inl (DoDSBIRAPIError
              "API request to https://www.dodsbirsttr.mil/api/topics/2/pdf failed with status 500. Response: Internal Server Error..."
              (Some 500))
  /\ status_or_502 (Some 500) = 500.
Proof.
  split_and!.
  - pose proof (gateway_failures_classified "GET" (Settings.DOD_PDF_API_TEMPLATE "1")
                  None true None (start all_down)) as (Htimeout & _).
    destruct (Htimeout "ReadTimeout") as [_ Hrun]; [reflexivity |].
    rewrite Hrun. reflexivity.
  - pose proof (gateway_failures_classified "GET" (Settings.DOD_PDF_API_TEMPLATE "2")
                  None true None (start all_down)) as (_ & _ & Hstatus & _).
    rewrite (Hstatus (at_url (Settings.DOD_PDF_API_TEMPLATE "2")
                        (status_only 500 "Internal Server Error"))); reflexivity.
  - pose proof (gateway_failures_classified "GET" (Settings.DOD_PDF_API_TEMPLATE "2")
                  None true None (start all_down)) as (_ & _ & _ & _ & _ & _ & Hforward).
    apply Hforward. discriminate.
Defined.

(** C3 at work: two unknown codes, then one known and one unknown code. *)
Lemma resolution_policy_witness :
  (exists d,
     Topics.resolve_and_fetch three_topics ["X"; "Y"] (start one_down) =
       (inl (HTTPException 404 (error_detail d "TOPIC_NOT_FOUND")), start one_down))
  /\ Topics.resolve_and_fetch three_topics ["A"; "Z"] (start one_down) =
       Topics.fetch_resolved [("A", "1")] (start one_down).
Proof.
  split.
  - eexists.
    apply (resolution_policy three_topics ["X"; "Y"] (start one_down)); [discriminate |].
    intros c Hc.
    repeat (apply elem_of_cons in Hc as [-> | Hc]; [vm_compute; reflexivity |]).
    now apply elem_of_nil in Hc.
  - apply (resolution_policy three_topics ["A"; "Z"] (start one_down)) with
      (unresolved := ["Z"]); [discriminate | vm_compute; reflexivity | discriminate].
Defined.

(** C6: the only resolved code cannot be encoded as latin-1; its document
    is fetched and the operation still fails with 500 / DOWNLOAD_ERROR. *)
Lemma single_item_fails_outside_latin1 :
  Topics.resolve (Topics.build_topic_map [mk_topic cyrillic_code "1"]) [cyrillic_code]
    = ([(cyrillic_code, "1")], [])
  /\ fst (Client.download_pdf_content "1" (start one_down)) = inr pdf_A
  /\ (exists d,
        fst (Topics.resolve_and_fetch [mk_topic cyrillic_code "1"] [cyrillic_code]
               (start one_down))
        = inl (HTTPException 500 (error_detail d "DOWNLOAD_ERROR")))
  /\ ~ single_item_returns_document [mk_topic cyrillic_code "1"] [cyrillic_code]
        (start one_down).
Proof.
  split_and!; try (vm_compute; reflexivity); [eexists; vm_compute; reflexivity |].
  intros Hclaim.
  specialize (Hclaim cyrillic_code "1" []
                (at_url (Settings.DOD_PDF_API_TEMPLATE "1") (ok_pdf pdf_A))).
  assert (Hbad : outcome_of (fst (Topics.resolve_and_fetch [mk_topic cyrillic_code "1"]
                                    [cyrillic_code] (start one_down))) = Fatal)
    by (vm_compute; reflexivity).
  rewrite Hbad in Hclaim.
  discriminate Hclaim; vm_compute; reflexivity.
Qed.

(** C6 at work: document 1 is served, document 2 answers 503. *)
Lemma single_item_download_witness :
  fst (Topics.resolve_and_fetch three_topics ["A"; "Z"] (start one_down)) =
    inr (pdf_response "A" pdf_A)
  /\ (exists d,
        fst (Topics.resolve_and_fetch [mk_topic cyrillic_code "1"] [cyrillic_code]
               (start one_down)) =
          inl (HTTPException 500 (error_detail d "DOWNLOAD_ERROR")))
  /\ exists d,
       fst (Topics.resolve_and_fetch three_topics ["B"] (start one_down)) =
         inl (HTTPException 503 (error_detail d "DOD_API_DOWNLOAD_ERROR")).
Proof.
  split_and!.
  - destruct (single_item_download three_topics ["A"; "Z"] "A" "1" ["Z"] (start one_down))
      as [Hok _]; [vm_compute; reflexivity |].
    rewrite (Hok (at_url (Settings.DOD_PDF_API_TEMPLATE "1") (ok_pdf pdf_A)));
      reflexivity.
  - destruct (single_item_download [mk_topic cyrillic_code "1"] [cyrillic_code]
                cyrillic_code "1" [] (start one_down))
      as (_ & Hhead & _); [vm_compute; reflexivity |].
    destruct (Hhead (at_url (Settings.DOD_PDF_API_TEMPLATE "1") (ok_pdf pdf_A)))
      as [d Hrun]; try reflexivity.
    exists d. now rewrite Hrun.
  - destruct (single_item_download three_topics ["B"] "B" "2" [] (start one_down))
      as (_ & _ & Hfail); [vm_compute; reflexivity |].
    eexists.
    rewrite (Hfail
               "API request to https://www.dodsbirsttr.mil/api/topics/2/pdf failed with status 503. Response: Service Unavailable..."
               (Some 503) (snd (Client.download_pdf_content "2" (start one_down))));
      [reflexivity | vm_compute; reflexivity].
Defined.



(** C10 at work: topic A is listed under id 1 and later under id 3. *)
Lemma duplicate_codes_last_wins_witness :
  Topics.build_topic_map dup_topics !! "A" = Some "3"
  /\ Topics.resolve_and_fetch dup_topics ["A"] (start one_down) =
       Topics.fetch_resolved [("A", "3")] (start one_down).
Proof.
  destruct (@duplicate_codes_last_wins stub_lib Scripted scripted_upstream dup_topics "A")
    as (Hlookup & _ & Hfetch).
  split.
  - rewrite Hlookup. vm_compute. reflexivity.
  - apply (Hfetch (mk_topic "A" "3")); vm_compute; reflexivity.
Defined.

(** C7: the first page of ten with one topic returned and an upstream total
    of 0 breaks [total >= number of topics]. *)
Lemma search_total_below_topic_count :
  Schemas.SearchRequest_ok first_page = true
  /\ fst (Client.search_topics first_page (start short_total)) =
       inr ([mk_topic "A" "1"], JInt 0, false)
  /\ ~ search_result_invariant first_page (start short_total).
Proof.
  split_and!; try (vm_compute; reflexivity).
  intros Hclaim.
  destruct (Hclaim [mk_topic "A" "1"] 0 false
              (snd (Client.search_topics first_page (start short_total))))
    as [_ Hle].
  - vm_compute. reflexivity.
  - simpl in Hle. lia.
Qed.

(** C7 at work: two topics and a total of 2 on the first page of ten. *)
Lemma search_result_shape_witness :
  Client.py_int_lt ((Schemas.page first_page + 1) * Schemas.page_size first_page) (JInt 2)
    = inr false
  /\ false = ((Schemas.page first_page + 1) * Schemas.page_size first_page <? 2).
Proof.
  destruct (search_result_shape first_page (start healthy) two_topics (JInt 2) false
              (snd (Client.search_topics first_page (start healthy))))
    as (Hcmp & Hint & _).
  - vm_compute. reflexivity.
  - split; [exact Hcmp | now apply Hint].
Defined.

(** C9: a 2xx answer whose body is the object with a null [total] and no
    [data] makes search fail. *)
Lemma search_fails_on_null_total :
  (exists e, fst (Client.search_topics first_page (start null_total)) = inl e)
  /\ ~ missing_keys_never_fail first_page (start null_total).
Proof.
  split.
  - eexists. vm_compute. reflexivity.
  - intros Hclaim.
    destruct (Hclaim (at_url (Client.search_url first_page)
                        (ok_json (JObj [("total", JNull)]))) [("total", JNull)])
      as (topics & total & has_more & s' & Hrun & _);
      [reflexivity | reflexivity | reflexivity | left; reflexivity |].
    vm_compute in Hrun. discriminate Hrun.
Qed.

(** C9 at work: an answer with neither [data] nor [total]. *)
Lemma missing_keys_default_witness :
  fst (Client.search_topics first_page (start no_keys)) = inr ([], JInt 0, false).
Proof.
  destruct (missing_keys_default first_page (start no_keys)
              (at_url (Client.search_url first_page)
                 (ok_json (JObj [("message", JStr "ok")]))) [("message", JStr "ok")])
    as (_ & _ & Hboth & _); [reflexivity | reflexivity | reflexivity | reflexivity |].
  rewrite Hboth; reflexivity.
Defined.



(** ** Further properties of the gateway and of the download stages *)

Section GatewayExtras.
Context `{PyLib} {World : Type} `{Upstream World}.
Implicit Types s : St World.

Lemma search_topics_state request s :
  snd (Client.search_topics request s) = after_send (search_request_sent request) s.
Proof.
  unfold Client.search_topics. rewrite bind_run, request_run.
  fold (search_request_sent request).
  destruct (classify _ _) as [e | resp]; [reflexivity |].
  unfold Client.Response_json, bind, lift, ret, raise.
  destruct (resp_json resp) as [result |]; [| reflexivity].
  destruct (Client.py_dict_get result "data" _); [reflexivity |].
  destruct (Client.py_dict_get result "total" _); [reflexivity |].
  destruct (Client.py_int_lt _ _); [reflexivity |].
  destruct (Client.py_iter _); [reflexivity |].
  destruct (Client.validate_topics _); reflexivity.
Qed.

Lemma run_fetches_sent ids s :
  sent (snd (run_fetches ids s)) = sent s ++ map pdf_request ids.
Proof.
  revert s. induction ids as [| i ids IH]; intros s.
  - simpl. now rewrite app_nil_r.
  - cbn [run_fetches]. rewrite download_pdf_content_run.
    specialize (IH (after_send (pdf_request i) s)).
    destruct (run_fetches ids _) as [rs s2]. cbn [snd] in *.
    rewrite IH. cbn [after_send sent map]. now rewrite <- app_assoc.
Qed.

(** X1. A gateway call sends exactly one request, whatever comes back:
    there is no retry.  Search and document fetch are both a GET carrying
    the three base headers, no [Content-Type] and no body; only the
    document fetch follows redirects. *)
Theorem gateway_call_sends_one_request request topic_id s :
  sent (snd (Client.search_topics request s)) = sent s ++ [search_request_sent request]
  /\ sent (snd (Client.download_pdf_content topic_id s)) = sent s ++ [pdf_request topic_id]
  /\ search_request_sent request =
       {| req_method := "GET"; req_url := Client.search_url request;
          req_headers := Client.base_headers; req_follow_redirects := false;
          req_json := None |}
  /\ pdf_request topic_id =
       {| req_method := "GET"; req_url := Settings.DOD_PDF_API_TEMPLATE topic_id;
          req_headers := Client.base_headers; req_follow_redirects := true;
          req_json := None |}
  /\ dom Client.base_headers = {["User-Agent"; "Referer"; "Accept"]}.
Proof.
  split_and!.
  - now rewrite search_topics_state.
  - now rewrite download_pdf_content_run.
  - unfold search_request_sent, request_sent. cbn. reflexivity.
  - unfold pdf_request, request_sent. cbn. reflexivity.
  - unfold Client.base_headers. rewrite !dom_insert_L, dom_empty_L. set_solver.
Qed.

End GatewayExtras.

Section DownloadExtras.
Context `{PyLib} {World : Type} `{Upstream World}.
Implicit Types s : St World.

Lemma resolve_lengths topic_map selected :
  (length (found_pairs topic_map selected) + length (missing_codes topic_map selected))%nat
    = length selected.
Proof.
  induction selected as [| c selected IH]; [reflexivity |].
  rewrite found_pairs_cons, missing_codes_cons.
  destruct (resolves_to topic_map c); simpl; lia.
Qed.

Lemma found_pairs_none_all topic_map selected :
  found_pairs topic_map selected = [] -> missing_codes topic_map selected = selected.
Proof.
  induction selected as [| c selected IH]; [reflexivity |].
  rewrite found_pairs_cons, missing_codes_cons.
  destruct (resolves_to topic_map c); [discriminate |].
  intros Hf. now rewrite IH.
Qed.

(** The endpoint past the lookup, by what the resolution gives. *)
Lemma resolve_and_fetch_cases topics selected resolved unresolved s :
  Topics.resolve (Topics.build_topic_map topics) selected = (resolved, unresolved) ->
  Topics.resolve_and_fetch topics selected s =
    match resolved, unresolved with
    | [], _ :: _ =>
        (inl (HTTPException 404
                (error_detail
                   ("None of the requested topic codes found with the given search parameters: "
                    +:+ py_join ", " unresolved)
                   "TOPIC_NOT_FOUND")), s)
    | [], [] =>
        (inl (HTTPException 404
                (error_detail "No valid topics found for download."
                              "NO_TOPICS_FOR_DOWNLOAD")), s)
    | _ :: _, _ => Topics.fetch_resolved resolved s
    end.
Proof.
  intros Hres. destruct resolved as [| p resolved].
  - unfold Topics.resolve_and_fetch, Topics.download_found, try_except.
    rewrite Hres. now destruct unresolved.
  - now apply (resolve_and_fetch_resolved _ _ _ unresolved).
Qed.

Lemma fetch_resolved_single code topic_id s :
  Topics.fetch_resolved [(code, topic_id)] s =
    match Client.download_pdf_content topic_id s with
    | (inr pdf_content, s1) =>
        match pdf_response_init code pdf_content with
        | inr response => (inr response, s1)
        | inl e => Topics.download_except e s1
        end
    | (inl e, s1) => Topics.download_except e s1
    end.
Proof.
  unfold Topics.fetch_resolved, try_except. rewrite fetch_all_single.
  destruct (Client.download_pdf_content topic_id s) as [[e | pdf] s1]; [reflexivity |].
  cbn [fst snd]. now destruct (pdf_response_init code pdf).
Qed.

Lemma fetch_resolved_batch p1 p2 pairs s :
  Topics.fetch_resolved (p1 :: p2 :: pairs) s =
    (inr (zip_response
            (zip_with entry_of (p1 :: p2 :: pairs)
               (fst (run_fetches (map snd (p1 :: p2 :: pairs)) s)))),
     snd (run_fetches (map snd (p1 :: p2 :: pairs)) s)).
Proof. unfold Topics.fetch_resolved, try_except. now rewrite fetch_all_batch. Qed.

Lemma download_except_state e s : snd (Topics.download_except e s) = s.
Proof. now destruct e. Qed.



End DownloadExtras.

Section ResolverExtras.
Context `{PyLib} {World : Type} `{Upstream World}.
Implicit Types s : St World.

Lemma resolves_to_spec (topic_map : gmap string string) c topic_id :
  resolves_to topic_map c = Some topic_id <->
  topic_map !! c = Some topic_id /\ topic_id <> "".
Proof.
  unfold resolves_to, str_truthy.
  destruct (topic_map !! c) as [i |]; [| split; [discriminate | intros [[=] _]]].
  destruct (String.eqb_spec i "") as [-> | Hne]; simpl.
  - split; [discriminate | intros [[= <-] Hne]; contradiction].
  - split; [intros [= <-]; auto | intros [[= <-] _]; reflexivity].
Qed.

Lemma resolves_to_none (topic_map : gmap string string) c :
  resolves_to topic_map c = None <->
  topic_map !! c = None \/ topic_map !! c = Some "".
Proof.
  unfold resolves_to, str_truthy.
  destruct (topic_map !! c) as [i |]; [| split; auto].
  destruct (String.eqb_spec i "") as [-> | Hne]; simpl.
  - split; auto.
  - split; [discriminate | intros [[=] | [= ->]]; contradiction].
Qed.

(** X4. The resolver splits the requested codes in two, keeping their
    order and their repetitions: a code goes to the resolved pairs, with
    the id of the table, exactly when the table has it under a non-empty
    id, and to the unresolved codes otherwise.  When every requested code
    is in the table under a non-empty id, nothing is left unresolved. *)
Theorem resolve_partitions_selection (topic_map : gmap string string) selected :
  let resolved := fst (Topics.resolve topic_map selected) in
  let unresolved := snd (Topics.resolve topic_map selected) in
  map fst resolved ++ unresolved ≡ₚ selected
  /\ map fst resolved `sublist_of` selected
  /\ unresolved `sublist_of` selected
  /\ (forall c topic_id,
        (c, topic_id) ∈ resolved <->
        c ∈ selected /\ topic_map !! c = Some topic_id /\ topic_id <> "")
  /\ (forall c,
        c ∈ unresolved <->
        c ∈ selected /\ (topic_map !! c = None \/ topic_map !! c = Some ""))
  /\ ((forall c, c ∈ selected ->
         exists topic_id, topic_map !! c = Some topic_id /\ topic_id <> "") ->
      unresolved = []).
Proof.
  cbv zeta. rewrite resolve_spec. cbn [fst snd].
  induction selected as [| c selected (IHp & IHs1 & IHs2 & IHr & IHu & IHall)].
  - split_and!; try done.
    + intros c i. split; [intros Hin; inversion Hin | intros [Hin _]; inversion Hin].
    + intros c. split; [intros Hin; inversion Hin | intros [Hin _]; inversion Hin].
  - rewrite found_pairs_cons, missing_codes_cons.
    destruct (resolves_to topic_map c) as [i |] eqn:Hc.
    + apply resolves_to_spec in Hc as Hc'. split_and!.
      * simpl. now f_equiv.
      * simpl. now apply sublist_skip.
      * now apply sublist_cons.
      * intros c' i'. rewrite elem_of_cons, IHr, elem_of_cons. split.
        -- intros [[= -> ->] | (Hin & Hlook & Hne)]; auto.
        -- intros ([-> | Hin] & Hlook & Hne); [left | right; auto].
           destruct Hc' as [Hlook' _]. congruence.
      * intros c'. rewrite IHu, elem_of_cons. split.
        -- intros (Hin & Hnone); auto.
        -- intros ([-> | Hin] & Hnone); [| auto].
           apply resolves_to_none in Hnone. congruence.
      * intros Hall. apply IHall. intros c' Hin. apply Hall. now right.
    + apply resolves_to_none in Hc as Hc'. split_and!.
      * rewrite <- Permutation_middle. now f_equiv.
      * now apply sublist_cons.
      * now apply sublist_skip.
      * intros c' i'. rewrite IHr, elem_of_cons. split.
        -- intros (Hin & Hlook & Hne); auto.
        -- intros ([-> | Hin] & Hlook & Hne); [| auto].
           assert (Hsome : resolves_to topic_map c = Some i')
             by now apply resolves_to_spec.
           congruence.
      * intros c'. rewrite elem_of_cons, IHu, elem_of_cons. split.
        -- intros [-> | (Hin & Hnone)]; auto.
        -- intros ([-> | Hin] & Hnone); auto.
      * intros Hall. destruct (Hall c) as (i & Hlook & Hne); [now left |].
        assert (Hsome : resolves_to topic_map c = Some i) by now apply resolves_to_spec.
        congruence.
Qed.

Lemma entries_lookup_document (pairs : list (string * string))
    (outcomes : list (exn + list Byte.byte)) i p pdf :
  nul_free (fst p) = true ->
  pairs !! i = Some p -> outcomes !! i = Some (inr pdf) ->
  zip_with entry_of pairs outcomes !! i = Some (fst p +:+ ".pdf", ZBytes pdf).
Proof.
  intros Hfree Hp Ho. rewrite lookup_zip_with, Hp. cbn [mbind option_bind].
  rewrite Ho. cbn [mbind option_bind]. destruct p as [c topic_id].
  now rewrite (entry_of_document _ _ _ Hfree).
Qed.

Lemma entries_lookup_placeholder (pairs : list (string * string))
    (outcomes : list (exn + list Byte.byte)) i p e :
  nul_free (fst p) = true ->
  pairs !! i = Some p -> outcomes !! i = Some (inl e) ->
  exists text,
    zip_with entry_of pairs outcomes !! i = Some ("ERROR_" +:+ fst p +:+ ".txt", ZText text).
Proof.
  intros Hfree Hp Ho. rewrite lookup_zip_with, Hp. cbn [mbind option_bind].
  rewrite Ho. cbn [mbind option_bind entry_of]. unfold placeholder_of.
  rewrite (error_filename_nul_free _ Hfree). eauto.
Qed.

Lemma entries_counts (pairs : list (string * string))
    (outcomes : list (exn + list Byte.byte)) :
  Forall (fun p => nul_free (fst p) = true) pairs ->
  length pairs = length outcomes ->
  length (List.filter is_document (zip_with entry_of pairs outcomes))
    = length (List.filter (fun r => negb (failed r)) outcomes)
  /\ length (List.filter is_placeholder (zip_with entry_of pairs outcomes))
     = length (List.filter failed outcomes).
Proof.
  intros Hfree. revert outcomes.
  induction Hfree as [| [c topic_id] pairs Hc _ IH]; intros [| r outcomes] Hlen;
    try discriminate; [split; reflexivity |].
  injection Hlen as Hlen. destruct (IH outcomes Hlen) as [IHd IHp].
  cbn [zip_with]. destruct r as [e | pdf].
  - cbn [entry_of]. unfold placeholder_of. simpl. rewrite ?IHd, ?IHp. now split.
  - rewrite (entry_of_document _ _ _ Hc). simpl. rewrite ?IHd, ?IHp. now split.
Qed.


End ResolverExtras.

(** ** Further properties of search *)

Section SearchExtras.
Context `{PyLib} {World : Type} `{Upstream World}.
Implicit Types s : St World.

Lemma Topic_model_validate_raises v e :
  Schemas.Topic_model_validate v = inl e -> exists m, e = ValidationError m.
Proof.
  destruct v as [| | | | | | kv]; try (intros [= <-]; eauto).
  unfold Schemas.Topic_model_validate, Schemas.bind_r.
  unfold Schemas.required_str, Schemas.optional_int, Schemas.optional_str,
    Schemas.optional_keywords.
  repeat match goal with
         | |- context [match dict_get kv ?k with _ => _ end] =>
             destruct (dict_get kv k) as [[] |]
         | |- context [match lax_int ?v with _ => _ end] => destruct (lax_int v)
         | |- context [match Schemas.list_of_str ?l with _ => _ end] =>
             destruct (Schemas.list_of_str l)
         end;
    try discriminate; intros [= <-]; eauto.
Qed.

Lemma validate_topics_raises items e :
  Client.validate_topics items = inl e -> exists m, e = ValidationError m.
Proof.
  induction items as [| t items IH]; [discriminate |].
  cbn [Client.validate_topics]. unfold Schemas.bind_r.
  destruct (Schemas.Topic_model_validate t) as [e0 | t'] eqn:Ht.
  - intros [= <-]. eapply Topic_model_validate_raises, Ht.
  - destruct (Client.validate_topics items) as [e0 | rest]; [| discriminate].
    intros [= <-]. now apply IH.
Qed.

Lemma validate_topics_invalid items item e :
  item ∈ items -> Schemas.Topic_model_validate item = inl e ->
  exists e', Client.validate_topics items = inl e'.
Proof.
  intros Hin Hbad. induction items as [| t items IH]; [inversion Hin |].
  cbn [Client.validate_topics]. unfold Schemas.bind_r.
  destruct (Schemas.Topic_model_validate t) as [e0 | t'] eqn:Ht; [eauto |].
  apply elem_of_cons in Hin as [-> | Hin]; [congruence |].
  destruct (IH Hin) as [e' ->]. eauto.
Qed.

Lemma py_int_lt_raises n v e :
  Client.py_int_lt n v = inl e -> exists m, e = OtherException m.
Proof. destruct v; try discriminate; intros [= <-]; eauto. Qed.

(** X6. The search endpoint raises nothing but [HTTPException]: a gateway
    error becomes DOD_API_ERROR under the gateway's status code, or 502,
    never 0, exactly as the application-wide handler of [DoDSBIRAPIError]
    would answer; everything else becomes 500 / INTERNAL_ERROR. *)
Theorem search_endpoint_failures request s e s' :
  Topics.search_topics_endpoint request s = (inl e, s') ->
  (exists msg sc,
     Client.search_topics request s = (inl (DoDSBIRAPIError msg sc), s')
     /\ e = HTTPException (status_or_502 sc) (error_detail msg "DOD_API_ERROR")
     /\ status_or_502 sc <> 0
     /\ App.dod_sbir_api_exception_handler msg sc
        = (status_or_502 sc, error_detail msg "DOD_API_ERROR"))
  \/ (exists msg,
        e = HTTPException 500
              (error_detail ("An unexpected error occurred: " +:+ msg) "INTERNAL_ERROR")).
Proof.
  unfold Topics.search_topics_endpoint, try_except, bind, lift.
  destruct (Client.search_topics request s) as [[e0 | [[topics total] more]] s1].
  - destruct e0; simpl; intros [= <- <-]; try (right; eauto; fail).
    left. exists message, status_code. split_and!; try done.
    unfold status_or_502. destruct status_code as [c |]; [| discriminate].
    destruct (Z.eqb_spec c 0); [discriminate | assumption].
  - destruct (Topics.SearchResponse_init _ _ _ _ _) as [e0 | r] eqn:Hinit;
      [| discriminate].
    unfold Topics.SearchResponse_init in Hinit.
    destruct (lax_int total); [discriminate |]. injection Hinit as <-.
    simpl. intros [= <- <-]. right. eauto.
Qed.

(** X7. A 2xx answer whose body is an object with a list of valid topics
    under [data] and an integer under [total] is returned as the validated
    topics, that total, the page and page size of the request, and
    [has_more = (page + 1) * page_size < total]. *)
Theorem search_endpoint_success request s resp body items topics n :
  fst (client_request (search_request_sent request) (world s)) = inr resp ->
  is_success resp = true ->
  resp_json resp = Some (JObj body) ->
  dict_get body "data" = Some (JArr items) ->
  Client.validate_topics items = inr topics ->
  dict_get body "total" = Some (JInt n) ->
  lax_int (JInt n) = Some n ->
  Topics.search_topics_endpoint request s =
    (inr {| Topics.sr_topics := topics; Topics.sr_total := n;
            Topics.sr_page := Schemas.page request;
            Topics.sr_page_size := Schemas.page_size request;
            Topics.sr_has_more :=
              (Schemas.page request + 1) * Schemas.page_size request <? n |},
     after_send (search_request_sent request) s).
Proof.
  intros Hresp Hok Hjson Hdata Hval Htotal Hlax.
  unfold Topics.search_topics_endpoint, try_except, bind.
  rewrite (search_topics_on_object _ _ _ _ Hresp Hok Hjson).
  cbv zeta. rewrite Htotal, Hdata. cbn.
  rewrite Hval. unfold lift, Topics.SearchResponse_init. now rewrite Hlax.
Qed.

(** X8. One item of [data] that does not validate as a topic fails the
    whole search with 500 / INTERNAL_ERROR: the valid items are not
    returned. *)
Theorem malformed_topic_fails_search request s resp body items item e :
  fst (client_request (search_request_sent request) (world s)) = inr resp ->
  is_success resp = true ->
  resp_json resp = Some (JObj body) ->
  dict_get body "data" = Some (JArr items) ->
  item ∈ items ->
  Schemas.Topic_model_validate item = inl e ->
  exists d,
    Topics.search_topics_endpoint request s =
      (inl (HTTPException 500 (error_detail d "INTERNAL_ERROR")),
       after_send (search_request_sent request) s).
Proof.
  intros Hresp Hok Hjson Hdata Hin Hbad.
  destruct (validate_topics_invalid _ _ _ Hin Hbad) as [e' Hval].
  destruct (validate_topics_raises _ _ Hval) as [m ->].
  unfold Topics.search_topics_endpoint, try_except, bind.
  rewrite (search_topics_on_object _ _ _ _ Hresp Hok Hjson).
  cbv zeta. rewrite Hdata.
  destruct (Client.py_int_lt _ _) as [e0 | more] eqn:Hlt.
  - destruct (py_int_lt_raises _ _ _ Hlt) as [m0 ->]. simpl. eauto.
  - cbn. rewrite Hval. simpl. eauto.
Qed.

End SearchExtras.

(** ** Further properties of the schemas *)

Section SchemaExtras.
Context `{PyLib}.

(** X9. The release number never rejects a topic: a topic that validates
    still validates with any JSON value put under [releaseNumber], and then
    carries that value as a string ([None] for null): an integer as its
    decimal digits, a string as it is. *)
Theorem release_number_is_stringified kv t v :
  Schemas.Topic_model_validate (JObj kv) = inr t ->
  Schemas.Topic_model_validate (JObj (("releaseNumber", v) :: kv)) =
    inr (with_release_number t (Schemas.convert_release_number_to_string v))
  /\ (forall n, Schemas.convert_release_number_to_string (JInt n) = Some (str_int n))
  /\ (forall r, Schemas.convert_release_number_to_string (JStr r) = Some r)
  /\ Schemas.convert_release_number_to_string JNull = None.
Proof.
  intros Hval. split; [| split_and!; reflexivity].
  unfold Schemas.Topic_model_validate, Schemas.bind_r in *.
  unfold Schemas.required_str, Schemas.optional_int, Schemas.optional_str,
    Schemas.optional_keywords, Schemas.release_number in *.
  cbn [dict_get String.eqb Ascii.eqb Bool.eqb andb].
  repeat match goal with
         | _ : context [match dict_get kv ?k with _ => _ end] |- _ =>
             destruct (dict_get kv k) as [[] |]
         | _ : context [match lax_int ?v with _ => _ end] |- _ => destruct (lax_int v)
         | _ : context [match Schemas.list_of_str ?l with _ => _ end] |- _ =>
             destruct (Schemas.list_of_str l)
         end;
    try discriminate; injection Hval as <-; reflexivity.
Qed.

(** X10. [SearchRequest] accepts exactly a page from 0 and a page size
    from 1 to 100, and keeps the arguments unchanged, with no filter.  A
    [DownloadRequest] that passes its own validation therefore always
    gives a valid search request for its term, page and page size. *)
Theorem search_request_bounds term page page_size :
  ((exists r, Schemas.SearchRequest_init term page page_size = inr r)
   <-> 0 <= page /\ 1 <= page_size <= 100)
  /\ (forall r,
        Schemas.SearchRequest_init term page page_size = inr r ->
        r = {| Schemas.term := term; Schemas.page := page;
               Schemas.page_size := page_size;
               Schemas.components := None; Schemas.program_years := None |}
        /\ Schemas.SearchRequest_ok r = true)
  /\ (forall request,
        Schemas.DownloadRequest_ok request = true ->
        exists r,
          Schemas.SearchRequest_init (Schemas.search_term request)
            (Schemas.dl_page request) (Schemas.dl_page_size request) = inr r
          /\ Schemas.SearchRequest_ok r = true).
Proof.
  assert (Hinit : forall t p z,
             0 <= p -> 1 <= z <= 100 ->
             Schemas.SearchRequest_init t p z =
               inr {| Schemas.term := t; Schemas.page := p; Schemas.page_size := z;
                      Schemas.components := None; Schemas.program_years := None |}).
  { intros t p z Hp [Hz1 Hz2]. unfold Schemas.SearchRequest_init.
    apply Z.leb_le in Hp, Hz1, Hz2. now rewrite Hp, Hz1, Hz2. }
  assert (Hinv : forall t p z r,
             Schemas.SearchRequest_init t p z = inr r ->
             0 <= p /\ 1 <= z <= 100).
  { intros t p z r. unfold Schemas.SearchRequest_init.
    destruct (Z.leb_spec 0 p); simpl; [| discriminate].
    destruct (Z.leb_spec 1 z); simpl; [| discriminate].
    destruct (Z.leb_spec z 100); simpl; [| discriminate]. lia. }
  split_and!.
  - split; [intros [r Hr]; eapply Hinv, Hr | intros [Hp Hz]; eauto].
  - intros r Hr. destruct (Hinv _ _ _ _ Hr) as [Hp Hz].
    rewrite (Hinit term page page_size Hp Hz) in Hr. injection Hr as <-.
    split; [reflexivity |]. unfold Schemas.SearchRequest_ok. simpl.
    destruct Hz as [Hz1 Hz2]. apply Z.leb_le in Hp, Hz1, Hz2. now rewrite Hp, Hz1, Hz2.
  - intros request Hok. unfold Schemas.DownloadRequest_ok in Hok.
    apply andb_prop in Hok as [Hok Hz2]. apply andb_prop in Hok as [Hok Hz1].
    apply andb_prop in Hok as [_ Hp].
    eexists. split.
    + apply Hinit; [now apply Z.leb_le | split; now apply Z.leb_le].
    + unfold Schemas.SearchRequest_ok. simpl. now rewrite Hp, Hz1, Hz2.
Qed.

End SchemaExtras.

(** ** Further properties of the form endpoints and pages *)

Section FormExtras.
Context `{PyLib} {World : Type} `{Upstream World}.
Implicit Types s : St World.

Lemma raw_topic_map_from_ok items :
  forall raw raw',
    raw_table_ok raw -> raw_topic_map_from raw items = inr raw' -> raw_table_ok raw'.
Proof.
  induction items as [| t items IH]; intros raw raw' Hok.
  - now intros [= <-].
  - cbn [raw_topic_map_from]. unfold Schemas.bind_r.
    destruct (raw_topic_map_step raw t) as [e | raw1] eqn:Hstep; [discriminate |].
    apply IH. unfold raw_topic_map_step in Hstep.
    destruct t as [| | | | | | kv]; try discriminate.
    destruct (dict_get kv "topicCode") as [[| | | | c | |] |] eqn:Hcode;
      try discriminate; injection Hstep as <-; try exact Hok.
    intros c' t'. destruct (decide (c = c')) as [<- | Hne].
    + rewrite lookup_insert_eq. intros [= <-]. eauto.
    + rewrite lookup_insert_ne by done. apply Hok.
Qed.

Lemma raw_topic_map_ok topics raw :
  raw_topic_map topics = inr raw -> raw_table_ok raw.
Proof.
  unfold raw_topic_map, Schemas.bind_r.
  destruct (Client.py_iter topics) as [e | items]; [discriminate |].
  apply raw_topic_map_from_ok. intros c t. now rewrite lookup_empty.
Qed.

Lemma raw_value_shape raw c t :
  raw_table_ok raw -> raw !! c = Some t ->
  py_truthy t = true /\ exists uid, Client.py_dict_get t "topicId" JNull = inr uid.
Proof.
  intros Hok Hlook. destruct (Hok _ _ Hlook) as (kv & -> & Hcode). split.
  - destruct kv; [discriminate | reflexivity].
  - simpl. eauto.
Qed.

(** A loop whose every turn leaves the archive alone or adds the document
    of its code adds documents only, in the order of the codes. *)
Lemma loop_adds_documents (step : ZipFile -> string -> M World ZipFile) :
  (forall zf c s,
     exists s', step zf c s = (inr zf, s')
                \/ exists b, step zf c s
                             = (inr (zf ++ [(zip_filename (c +:+ ".pdf"), ZBytes b)]), s')) ->
  forall selected zf s,
    exists added s',
      for_each step zf selected s = (inr (zf ++ added), s')
      /\ Forall (fun e => is_document e = true) added
      /\ map fst added `sublist_of` map (fun c => zip_filename (c +:+ ".pdf")) selected.
Proof.
  intros Hstep. induction selected as [| c selected IH]; intros zf s.
  - exists [], s. cbn. unfold ret. rewrite app_nil_r. split_and!; try done.
  - destruct (Hstep zf c s) as [s1 [Hs1 | [b Hs1]]].
    + destruct (IH zf s1) as (added & s2 & Hloop & Hdocs & Hsub).
      exists added, s2. cbn [for_each]. rewrite (bind_ok _ _ _ _ _ Hs1).
      split_and!; try done. cbn [map]. now apply sublist_cons.
    + destruct (IH (zf ++ [(zip_filename (c +:+ ".pdf"), ZBytes b)]) s1)
        as (added & s2 & Hloop & Hdocs & Hsub).
      exists ((zip_filename (c +:+ ".pdf"), ZBytes b) :: added), s2.
      cbn [for_each]. rewrite (bind_ok _ _ _ _ _ Hs1), Hloop.
      split_and!.
      * now rewrite <- app_assoc.
      * now constructor.
      * cbn [map fst]. now apply sublist_skip.
Qed.

Lemma pdf_names_nul_free selected :
  Forall (fun c => nul_free c = true) selected ->
  map (fun c => zip_filename (c +:+ ".pdf")) selected = map (fun c => c +:+ ".pdf") selected.
Proof.
  induction 1 as [| c selected Hc _ IH]; [reflexivity |].
  cbn [map]. now rewrite IH, (pdf_filename_nul_free _ Hc).
Qed.

Lemma form_main_zip_step_total raw zf c s :
  raw_table_ok raw ->
  exists s', FormMain.zip_step raw zf c s = (inr zf, s')
             \/ exists b, FormMain.zip_step raw zf c s
                          = (inr (zf ++ [(zip_filename (c +:+ ".pdf"), ZBytes b)]), s').
Proof.
  intros Hok. unfold FormMain.zip_step.
  destruct (raw !! c) as [t |] eqn:Hlook; [| exists s; now left].
  destruct (raw_value_shape _ _ _ Hok Hlook) as (Htruthy & uid & Huid).
  rewrite Htruthy, Huid. cbn [negb]. unfold lift, try_except, bind, ret.
  destruct (FormMain.get _ _ s) as [[e | r] s1]; exists s1; [now left |].
  destruct (writestr_run zf (c +:+ ".pdf") (ZBytes (resp_content r))) as [-> | [m ->]];
    [right; now exists (resp_content r) | now left].
Qed.

Lemma form_src_zip_step_total raw zf c s :
  raw_table_ok raw ->
  exists s', FormSrc.zip_step raw zf c s = (inr zf, s')
             \/ exists b, FormSrc.zip_step raw zf c s
                          = (inr (zf ++ [(zip_filename (c +:+ ".pdf"), ZBytes b)]), s').
Proof.
  intros Hok. unfold FormSrc.zip_step.
  destruct (raw !! c) as [t |] eqn:Hlook; [| exists s; now left].
  destruct (raw_value_shape _ _ _ Hok Hlook) as (Htruthy & uid & Huid).
  rewrite Htruthy, Huid. cbn [negb]. unfold lift, try_except, bind, ret.
  destruct (py_truthy uid); cbn [negb]; [| exists s; now left].
  destruct (FormSrc.get _ _ _ s) as [[e | r] s1]; exists s1; [now left |].
  destruct (writestr_run zf (c +:+ ".pdf") (ZBytes (resp_content r))) as [-> | [m ->]];
    [right; now exists (resp_content r) | now left].
Qed.

Lemma form_main_download_run term page selected s :
  FormMain.download_selected_pdfs term page selected s =
    match FormMain.query_api (Some term) page 10 s with
    | (inl e, s1) => (inr (form_main_error_page term page e), s1)
    | (inr (topics, _, _, _), s1) =>
        match raw_topic_map topics with
        | inl e => (inr (form_main_error_page term page e), s1)
        | inr raw => FormMain.fetch_selected raw selected s1
        end
    end.
Proof.
  unfold FormMain.download_selected_pdfs, try_except, bind, lift, ret.
  destruct (FormMain.query_api (Some term) page 10 s)
    as [[e | [[[topics total] more] pages]] s1]; [reflexivity |].
  now destruct (raw_topic_map topics).
Qed.

Lemma raw_topic_map_raises topics e :
  raw_topic_map topics = inl e -> exists m, e = OtherException m.
Proof.
  unfold raw_topic_map, Schemas.bind_r.
  destruct (Client.py_iter topics) as [e0 | items] eqn:Hiter.
  - intros [= <-]. destruct topics; try discriminate; injection Hiter as <-; eauto.
  - clear Hiter. generalize (∅ : gmap string json).
    induction items as [| t items IH]; intros raw; [discriminate |].
    cbn [raw_topic_map_from]. unfold Schemas.bind_r.
    destruct (raw_topic_map_step raw t) as [e0 | raw1] eqn:Hstep; [| apply IH].
    intros [= <-]. unfold raw_topic_map_step in Hstep.
    destruct t as [| | | | | | kv]; try (injection Hstep as <-; eauto; fail).
    destruct (dict_get kv "topicCode") as [[] |];
      try discriminate; injection Hstep as <-; eauto.
Qed.

Lemma form_src_download_run term page selected s :
  FormSrc.download_selected_pdfs term page selected s =
    match FormSrc.query_api (Some term) page s with
    | (inl e, s1) =>
        if isinstance_RuntimeError e
        then (inr (HTMLResponse
                     ("<h2>Error fetching topic list for download: " +:+ str_exn e
                      +:+ "</h2>" +:+ FormSrc.back_link term page)), s1)
        else (inl e, s1)
    | (inr (topics, _), s1) =>
        match raw_topic_map topics with
        | inl e => (inl e, s1)
        | inr raw => FormSrc.fetch_selected raw term page selected s1
        end
    end.
Proof.
  unfold FormSrc.download_selected_pdfs, try_except, bind, lift, ret.
  destruct (FormSrc.query_api (Some term) page s) as [[e | [topics more]] s1].
  - now destruct (isinstance_RuntimeError e).
  - destruct (raw_topic_map topics) as [e | raw] eqn:Hraw; [| reflexivity].
    now destruct (raw_topic_map_raises _ _ Hraw) as [m ->].
Qed.

Lemma form_main_batch_run raw selected s :
  length selected <> 1%nat -> raw_table_ok raw ->
  exists zf,
    fst (FormMain.fetch_selected raw selected s) = inr (zip_response zf)
    /\ Forall (fun e => is_document e = true) zf
    /\ map fst zf `sublist_of` map (fun c => zip_filename (c +:+ ".pdf")) selected.
Proof.
  intros Hlen Hraw.
  destruct (loop_adds_documents (FormMain.zip_step raw)
              (fun zf c s => form_main_zip_step_total raw zf c s Hraw) selected [] s)
    as (added & s2 & Hloop & Hdocs & Hsub).
  exists added. split; [| auto]. unfold FormMain.fetch_selected.
  destruct selected as [| c1 [| c2 selected]]; [| contradiction |];
    now rewrite (bind_ok _ _ _ _ _ Hloop).
Qed.

Lemma form_src_batch_run raw term page selected s :
  length selected <> 1%nat -> raw_table_ok raw ->
  exists zf,
    fst (FormSrc.fetch_selected raw term page selected s) = inr (zip_response zf)
    /\ Forall (fun e => is_document e = true) zf
    /\ map fst zf `sublist_of` map (fun c => zip_filename (c +:+ ".pdf")) selected.
Proof.
  intros Hlen Hraw.
  destruct (loop_adds_documents (FormSrc.zip_step raw)
              (fun zf c s => form_src_zip_step_total raw zf c s Hraw) selected [] s)
    as (added & s2 & Hloop & Hdocs & Hsub).
  exists added. split; [| auto]. unfold FormSrc.fetch_selected.
  destruct selected as [| c1 [| c2 selected]]; [| contradiction |];
    now rewrite (bind_ok _ _ _ _ _ Hloop).
Qed.


(** What the search request of [src/main.py] was answered with when
    [query_api] lets an exception other than [RuntimeError] through: a
    response outside 2xx whose body cannot be decoded as text. *)
Lemma form_src_query_api_raises term page s e s' :
  FormSrc.query_api term page s = (inl e, s') ->
  (exists m, e = RuntimeError m)
  \/ (exists resp m,
        fst (client_request (form_src_search_request term page) (world s)) = inr resp
        /\ is_success resp = false
        /\ resp_json resp = None
        /\ resp_json_exn resp = UnicodeDecode m
        /\ e = OtherException m).
Proof.
  unfold FormSrc.query_api, FormSrc.get. fold (form_src_search_request term page).
  unfold try_except at 1. unfold bind at 1. unfold bind at 1. unfold Client.send.
  destruct (client_request (form_src_search_request term page) (world s))
    as [[e0 | resp] w'] eqn:Hreq; cbn [fst snd].
  - destruct e0; simpl; intros [= <- _]; left; eauto.
  - unfold Client.raise_for_status, is_success.
    destruct ((200 <=? resp_status_code resp) && (resp_status_code resp <=? 299)) eqn:Hok.
    + unfold ret at 1. unfold Client.Response_json, bind, lift, ret, raise.
      destruct (resp_json resp) as [result |].
      * destruct result as [| | | | | | kv]; simpl;
          try (intros [= <- _]; left; eauto; fail).
        destruct (default (JInt 0) (dict_get kv "total")); simpl;
          try (intros [= <- _]; left; eauto; fail); discriminate.
      * destruct (resp_json_exn resp); simpl; intros [= <- _]; left; eauto.
    + unfold raise at 1. unfold bind, try_except, Client.Response_json, ret, raise.
      destruct (resp_json resp) as [content |] eqn:Hjson;
        [intros [= <- _]; left; eauto |].
      destruct (resp_json_exn resp) as [m | m] eqn:Hexn; simpl; intros [= <- _];
        [left; eauto |].
      right. exists resp, m. split_and!; done.
Qed.


End FormExtras.

Section FormSingleExtras.
Context `{PyLib} {World : Type} `{Upstream World}.
Implicit Types s : St World.

Lemma pdf_response_init_spec code content :
  pdf_response_init code content =
    if latin1_encodable code then inr (pdf_response code content)
    else inl (OtherException "UnicodeEncodeError: 'latin-1' codec can't encode character").
Proof.
  unfold pdf_response_init, StreamingResponse_init. now rewrite pdf_header_encodable.
Qed.

(** X13. One code selected, in [main.py]: a code that is not on the page
    is answered by an HTML page and nothing is sent; for a code on the page
    the document of its [topicId] is requested, a topic without one being
    asked for under the id None.  A failure of that fetch is raised, not
    answered, where a batch would skip the item; and so is the failure to
    encode the file name in the response header, for a code that cannot be
    encoded as latin-1, although the document was fetched. *)
Theorem form_main_single_selection raw code s :
  raw_table_ok raw ->
  match raw !! code with
  | None =>
      FormMain.fetch_selected raw [code] s
      = (inr (HTMLResponse ("<h2>Topic code " +:+ code +:+ " not found.</h2>")), s)
  | Some t =>
      exists uid,
        Client.py_dict_get t "topicId" JNull = inr uid
        /\ sent (snd (FormMain.fetch_selected raw [code] s))
           = sent s ++ [form_main_pdf_request (py_str uid)]
        /\ fst (FormMain.fetch_selected raw [code] s)
           = match fst (FormMain.get (PDF_API_TEMPLATE (py_str uid)) FormMain.headers s) with
             | inl e => inl e
             | inr r => pdf_response_init code (resp_content r)
             end
        /\ forall content,
             if latin1_encodable code
             then pdf_response_init code content = inr (pdf_response code content)
             else exists m, pdf_response_init code content = inl (OtherException m)
  end.
Proof.
  intros Hok. unfold FormMain.fetch_selected.
  destruct (raw !! code) as [t |] eqn:Hlook; [| reflexivity].
  destruct (raw_value_shape _ _ _ Hok Hlook) as (Htruthy & uid & Huid).
  exists uid. rewrite Htruthy, Huid. cbn [negb].
  rewrite (bind_ok (lift (inr uid)) _ s uid s eq_refl). cbv beta.
  split; [reflexivity |]. split_and!.
  - unfold bind, lift.
    unfold FormMain.get, bind, Client.send, Client.raise_for_status, form_main_pdf_request,
      ret, raise.
    destruct (client_request _ (world s)) as [[e | r] w']; [reflexivity |].
    now destruct (_ && _).
  - unfold bind, lift.
    unfold FormMain.get, bind, Client.send, Client.raise_for_status, form_main_pdf_request,
      ret, raise.
    destruct (client_request _ (world s)) as [[e | r] w']; [reflexivity |].
    now destruct (_ && _).
  - intros content. rewrite pdf_response_init_spec.
    destruct (latin1_encodable code); eauto.
Qed.

(** X14. One code selected, in [src/main.py]: a code that is not on the
    page, or whose topic has no usable [topicId], is answered by an HTML
    page and nothing is sent; otherwise exactly one document request is
    sent, with redirects followed.  A failure of that fetch is raised, not
    answered; and so is the failure to encode the file name in the
    response header, for a code that cannot be encoded as latin-1, although
    the document was fetched. *)
Theorem form_src_single_selection raw term page code s :
  raw_table_ok raw ->
  match raw !! code with
  | None =>
      exists html, FormSrc.fetch_selected raw term page [code] s = (inr (HTMLResponse html), s)
  | Some t =>
      exists uid,
        Client.py_dict_get t "topicId" JNull = inr uid
        /\ if py_truthy uid then
             sent (snd (FormSrc.fetch_selected raw term page [code] s))
             = sent s ++ [form_src_pdf_request (py_str uid)]
             /\ fst (FormSrc.fetch_selected raw term page [code] s)
                = match fst (FormSrc.get (PDF_API_TEMPLATE (py_str uid)) FormSrc.headers true s)
                  with
                  | inl e => inl e
                  | inr r => pdf_response_init code (resp_content r)
                  end
             /\ forall content,
                  if latin1_encodable code
                  then pdf_response_init code content = inr (pdf_response code content)
                  else exists m, pdf_response_init code content = inl (OtherException m)
           else
             exists html,
               FormSrc.fetch_selected raw term page [code] s = (inr (HTMLResponse html), s)
  end.
Proof.
  intros Hok. unfold FormSrc.fetch_selected.
  destruct (raw !! code) as [t |] eqn:Hlook; [| eexists; reflexivity].
  destruct (raw_value_shape _ _ _ Hok Hlook) as (Htruthy & uid & Huid).
  exists uid. rewrite Htruthy, Huid. cbn [negb].
  rewrite (bind_ok (lift (inr uid)) _ s uid s eq_refl). cbv beta.
  split; [reflexivity |].
  destruct (py_truthy uid); cbn [negb]; [| eexists; reflexivity].
  split_and!.
  - unfold bind, lift.
    unfold FormSrc.get, bind, Client.send, Client.raise_for_status, form_src_pdf_request,
      ret, raise.
    destruct (client_request _ (world s)) as [[e | r] w']; [reflexivity |].
    now destruct (_ && _).
  - unfold bind, lift.
    unfold FormSrc.get, bind, Client.send, Client.raise_for_status, form_src_pdf_request,
      ret, raise.
    destruct (client_request _ (world s)) as [[e | r] w']; [reflexivity |].
    now destruct (_ && _).
  - intros content. rewrite pdf_response_init_spec.
    destruct (latin1_encodable code); eauto.
Qed.

End FormSingleExtras.

(** ** Further properties of the pages *)

Section StateFacts.
Context {World : Type}.
Implicit Types s : St World.

Lemma keeps_ret {A} (a : A) : keeps_state (ret a : M World A).
Proof. now intros s. Qed.

Lemma keeps_raise {A} e : keeps_state (raise e : M World A).
Proof. now intros s. Qed.

Lemma keeps_lift {A} (r : exn + A) : keeps_state (lift r : M World A).
Proof. now intros s. Qed.

Lemma keeps_bind {A B} (m : M World A) (k : A -> M World B) :
  keeps_state m -> (forall a, keeps_state (k a)) -> keeps_state (bind m k).
Proof.
  intros Hm Hk s. unfold bind. specialize (Hm s).
  destruct (m s) as [[e | a] s1]; simpl in Hm; subst s1; [reflexivity | apply Hk].
Qed.

Lemma after_bind {A B} (m : M World A) (k : A -> M World B) s :
  (forall a, keeps_state (k a)) -> snd (bind m k s) = snd (m s).
Proof.
  intros Hk. unfold bind. destruct (m s) as [[e | a] s1]; [reflexivity | apply Hk].
Qed.

Lemma after_try {A} (m : M World A) h s :
  (forall e, keeps_state (h e)) -> snd (try_except m h s) = snd (m s).
Proof.
  intros Hh. unfold try_except. destruct (m s) as [[e | a] s1]; [apply Hh | reflexivity].
Qed.

Lemma keeps_try {A} (m : M World A) h :
  keeps_state m -> (forall e, keeps_state (h e)) -> keeps_state (try_except m h).
Proof.
  intros Hm Hh s. unfold try_except. specialize (Hm s).
  destruct (m s) as [[e | a] s1]; simpl in Hm; subst s1; [apply Hh | reflexivity].
Qed.

End StateFacts.

Create HintDb keeps.
#[local] Hint Resolve keeps_ret keeps_raise keeps_lift : keeps.

Section PageExtras.
Context `{PyLib} {World : Type} `{Upstream World}.
Implicit Types s : St World.

Lemma keeps_raise_for_status r : keeps_state (Client.raise_for_status (World := World) r).
Proof.
  unfold Client.raise_for_status. destruct (_ && _); auto with keeps.
Qed.

Lemma keeps_Response_json r : keeps_state (Client.Response_json (World := World) r).
Proof. unfold Client.Response_json. destruct (resp_json r); auto with keeps. Qed.

Lemma sent_send r s : sent (snd (Client.send r s)) = sent s ++ [r].
Proof. unfold Client.send. now destruct (client_request r (world s)). Qed.

Lemma form_main_query_api_sent term page page_size s :
  sent (snd (FormMain.query_api term page page_size s))
  = sent s ++ [form_main_search_request term page page_size].
Proof.
  unfold FormMain.query_api, FormMain.get.
  rewrite after_bind, after_bind; [apply sent_send | apply keeps_raise_for_status |].
  intros resp. repeat (apply keeps_bind; [auto using keeps_Response_json with keeps | intros ?]).
  - destruct (_ =? _); [| destruct (ceil_truediv _ _)]; auto with keeps.
  - apply keeps_ret.
Qed.

Lemma form_src_query_api_sent term page s :
  sent (snd (FormSrc.query_api term page s))
  = sent s ++ [form_src_search_request term page].
Proof.
  unfold FormSrc.query_api, FormSrc.get.
  rewrite after_try, after_bind, after_bind; [apply sent_send | apply keeps_raise_for_status | |].
  - intros resp. repeat (apply keeps_bind; [auto using keeps_Response_json with keeps | intros ?]).
    apply keeps_ret.
  - intros e. destruct e; auto with keeps.
    apply keeps_bind; [| intros ?; apply keeps_raise].
    apply keeps_try.
    + apply keeps_bind; [apply keeps_Response_json | intros ?; apply keeps_ret].
    + intros e'. destruct (isinstance_JSONDecodeError e'); auto with keeps.
Qed.

(** X15. The page of [main.py] never raises and always sends exactly
    one search request, which depends on the term, the page and the page
    size only: the six filters change neither the request nor the topics,
    the paging or the error shown.  When the search fails the page shows
    no topics, one page, nothing more, and the message of the failure. *)
Theorem main_index_ignores_filters term page page_size f1 f2 f3 f4 f5 f6 g1 g2 g3 g4 g5 g6 s :
  let r := MainPages.index term page page_size f1 f2 f3 f4 f5 f6 s in
  let r' := MainPages.index term page page_size g1 g2 g3 g4 g5 g6 s in
  (exists context, fst r = inr (TemplateResponse "index.html" (JObj context)))
  /\ sent (snd r) = sent s ++ [form_main_search_request term page page_size]
  /\ snd r' = snd r
  /\ (forall k, k ∈ ["topics"; "has_more"; "total_pages"; "error"] ->
                context_get (fst r') k = context_get (fst r) k)
  /\ (forall e, fst (FormMain.query_api term page page_size s) = inl e ->
                context_get (fst r) "topics" = Some (JArr [])
                /\ context_get (fst r) "total_pages" = Some (JInt 1)
                /\ context_get (fst r) "has_more" = Some (JBool false)
                /\ context_get (fst r) "error"
                   = Some (JStr ("Error querying API: " +:+ str_exn e))).
Proof.
  intros r r'. subst r r'. unfold MainPages.index, try_except, bind, ret.
  pose proof (form_main_query_api_sent term page page_size s) as Hsent.
  destruct (FormMain.query_api term page page_size s)
    as [[e | [[[topics total] more] pages]] s1]; cbn [fst snd] in *.
  - split_and!; eauto.
    + intros k Hk. repeat (apply elem_of_cons in Hk as [-> | Hk]; [reflexivity |]).
      now apply elem_of_nil in Hk.
    + now intros e' [= <-].
  - split_and!; eauto.
    + intros k Hk. repeat (apply elem_of_cons in Hk as [-> | Hk]; [reflexivity |]).
      now apply elem_of_nil in Hk.
    + discriminate.
Qed.

(** X16. The paging of [query_api] in [main.py] is consistent: when the
    upstream's total is an integer, the page size is positive and
    [ceil(total / page_size)] is the exact ceiling, a next page is announced
    exactly when the next page index is below the number of pages. *)
Theorem form_main_paging_consistent term page page_size s topics t more pages s' :
  0 < page_size ->
  ceil_truediv (JInt t) page_size = Some (- ((- t) / page_size)) ->
  FormMain.query_api term page page_size s = (inr (topics, JInt t, more, pages), s') ->
  more = (page + 1 <? pages) /\ (page_size * (pages - 1) < t <= page_size * pages).
Proof.
  intros Hpos Hceil. unfold FormMain.query_api, bind, lift, ret, raise.
  destruct (FormMain.get _ _ s) as [[e | resp] s1]; [discriminate |].
  destruct (Client.Response_json resp s1) as [[e | data] s2]; [discriminate |].
  destruct (Client.py_dict_get data "total" (JInt 0)) as [e | total]; [discriminate |].
  destruct (Client.py_dict_get data "data" (JArr [])) as [e | items]; [discriminate |].
  destruct (Client.py_int_lt _ total) as [e | b] eqn:Hlt; [discriminate |].
  destruct (Z.eqb_spec page_size 0) as [-> | Hne]; [lia |].
  destruct (ceil_truediv total page_size) as [n |] eqn:Hn; [| discriminate].
  intros [= -> -> -> -> ->]. rewrite Hceil in Hn. injection Hn as <-.
  injection Hlt as <-.
  pose proof (Z.div_mod (- t) page_size ltac:(lia)) as Hdiv.
  pose proof (Z.mod_pos_bound (- t) page_size Hpos) as Hmod.
  split; [| nia].
  destruct (Z.ltb_spec ((page + 1) * page_size) t), (Z.ltb_spec (page + 1) (- (- t / page_size)));
    try reflexivity; nia.
Qed.


End PageExtras.

Section SrcPageExtras.
Context `{PyLib} `{StrLib} {World : Type} `{Upstream World}.
Implicit Types s : St World.


End SrcPageExtras.

(** ** Further properties of the OpenAPI schema and of the application *)

Section DictFacts.

Lemma dict_get_set_eq kv k v : dict_get (dict_set kv k v) k = Some v.
Proof.
  induction kv as [| [k' v'] kv IH]; simpl.
  - now rewrite String.eqb_refl.
  - destruct (String.eqb k' k) eqn:Hk; simpl.
    + now rewrite String.eqb_refl.
    + now rewrite Hk.
Qed.

Lemma dict_get_set_ne kv k v k' :
  k <> k' -> dict_get (dict_set kv k v) k' = dict_get kv k'.
Proof.
  intros Hne. induction kv as [| [k0 v0] kv IH]; simpl.
  - destruct (String.eqb_spec k k'); [contradiction | reflexivity].
  - destruct (String.eqb_spec k0 k) as [-> | Hk0]; simpl.
    + destruct (String.eqb_spec k k'); [contradiction | reflexivity].
    + now rewrite IH.
Qed.

Lemma json_path_cons kv k rest :
  json_path (JObj kv) (k :: rest)
  = match dict_get kv k with Some v => json_path v rest | None => None end.
Proof. reflexivity. Qed.

Lemma dict_set_not_nil kv k v : exists item items, dict_set kv k v = item :: items.
Proof. destruct kv as [| [k' v'] kv]; simpl; [| destruct (String.eqb k' k)]; eauto. Qed.

Lemma dict_update_lookup_other kv other k :
  k ∉ map fst other -> dict_get (dict_update kv other) k = dict_get kv k.
Proof.
  unfold dict_update. revert kv. induction other as [| [k0 v0] other IH]; intros kv Hk.
  - reflexivity.
  - simpl in *. apply not_elem_of_cons in Hk as [Hne Hk].
    rewrite IH by exact Hk. now apply dict_get_set_ne.
Qed.

Lemma dict_update_lookup kv other k v :
  NoDup (map fst other) -> (k, v) ∈ other ->
  dict_get (dict_update kv other) k = Some v.
Proof.
  unfold dict_update. revert kv. induction other as [| [k0 v0] other IH]; intros kv Hnd Hin.
  - now apply elem_of_nil in Hin.
  - simpl in *. apply NoDup_cons in Hnd as [Hk0 Hnd].
    apply elem_of_cons in Hin as [[= -> ->] | Hin].
    + fold (dict_update (dict_set kv k0 v0) other).
      rewrite dict_update_lookup_other by exact Hk0. apply dict_get_set_eq.
    + now apply IH.
Qed.

End DictFacts.

Section OpenApiExtras.
Context {Routes : Type} `{OpenApi.FastApiLib Routes}.
Implicit Types app : @OpenApi.FastAPI Routes.

(** X19. A schema that was generated is cached: the application that
    comes out of a successful call holds the schema, and calling again on
    it returns the same schema and leaves the application as it is. *)
Theorem openapi_schema_is_cached app schema app' :
  OpenApi.generate_custom_openapi_schema app = inr (schema, app') ->
  OpenApi.openapi_schema app' = Some schema
  /\ OpenApi.generate_custom_openapi_schema app' = inr (schema, app').
Proof.
  unfold OpenApi.generate_custom_openapi_schema at 1.
  destruct (OpenApi.openapi_schema app) as [[| item items] |] eqn:Hcached.
  2: { intros [= <- <-]. split; [exact Hcached |].
       unfold OpenApi.generate_custom_openapi_schema. now rewrite Hcached. }
  all: repeat match goal with
       | |- context [match ?x with _ => _ end] => destruct x; try discriminate
       end;
    intros [= <- <-]; (split; [reflexivity |]);
    unfold OpenApi.generate_custom_openapi_schema; cbn [OpenApi.openapi_schema];
    match goal with
    | |- context [dict_set ?kv ?k ?v] =>
        destruct (dict_set_not_nil kv k v) as (? & ? & ->)
    end; reflexivity.
Qed.

Lemma generate_uncached app :
  cached app = false ->
  OpenApi.generate_custom_openapi_schema app =
    OpenApi.generate_custom_openapi_schema
      {| OpenApi.title := OpenApi.title app; OpenApi.version := OpenApi.version app;
         OpenApi.description := OpenApi.description app;
         OpenApi.routes := OpenApi.routes app; OpenApi.openapi_schema := None |}.
Proof.
  unfold cached, OpenApi.generate_custom_openapi_schema. cbn.
  now destruct (OpenApi.openapi_schema app) as [[| item items] |].
Qed.

(** X20. A schema that is generated holds the JSON schema of each of the
    five models under [components.schemas], in place of a generated schema
    of the same name; every other schema, every other entry of
    [components] and every other top-level entry is the generated one. *)
Theorem openapi_registers_models app schema app' :
  cached app = false ->
  OpenApi.generate_custom_openapi_schema app = inr (schema, app') ->
  let generated :=
    OpenApi.get_openapi (OpenApi.title app) (OpenApi.version app)
      (OpenApi.description app) (OpenApi.routes app) in
  (forall name, name ∈ model_names ->
     json_path (JObj schema) ["components"; "schemas"; name]
     = Some (OpenApi.model_json_schema name))
  /\ (forall k, k ∉ model_names ->
       json_path (JObj schema) ["components"; "schemas"; k]
       = json_path (JObj generated) ["components"; "schemas"; k])
  /\ (forall k, k <> "schemas" ->
       json_path (JObj schema) ["components"; k]
       = json_path (JObj generated) ["components"; k])
  /\ (forall k, k <> "components" -> dict_get schema k = dict_get generated k).
Proof.
  intros Hcached. rewrite (generate_uncached _ Hcached).
  unfold OpenApi.generate_custom_openapi_schema. cbn [OpenApi.openapi_schema OpenApi.title
    OpenApi.version OpenApi.description OpenApi.routes].
  set (generated := OpenApi.get_openapi _ _ _ _).
  set (g1 := match dict_get generated "components" with
             | None => dict_set generated "components" (JObj [])
             | Some _ => generated
             end).
  assert (Hg1 : forall k, k <> "components" -> dict_get g1 k = dict_get generated k).
  { intros k Hk. subst g1. destruct (dict_get generated "components"); [reflexivity |].
    now apply dict_get_set_ne. }
  assert (Hc1 : dict_get g1 "components"
                = Some (default (JObj []) (dict_get generated "components"))).
  { subst g1. destruct (dict_get generated "components") eqn:Hc; [exact Hc |].
    apply dict_get_set_eq. }
  rewrite Hc1.
  destruct (default (JObj []) (dict_get generated "components")) as [| | | | | | components]
    eqn:Hcomp; try discriminate.
  set (c1 := match dict_get components "schemas" with
             | None => dict_set components "schemas" (JObj [])
             | Some _ => components
             end).
  assert (Hc1k : forall k, k <> "schemas" -> dict_get c1 k = dict_get components k).
  { intros k Hk. subst c1. destruct (dict_get components "schemas"); [reflexivity |].
    now apply dict_get_set_ne. }
  assert (Hs1 : dict_get c1 "schemas"
                = Some (default (JObj []) (dict_get components "schemas"))).
  { subst c1. destruct (dict_get components "schemas") eqn:Hs; [exact Hs |].
    apply dict_get_set_eq. }
  rewrite Hs1.
  destruct (default (JObj []) (dict_get components "schemas")) as [| | | | | | schemas]
    eqn:Hsch; try discriminate.
  intros Hrun.
  assert (Hschema : schema = dict_set g1 "components"
            (JObj (dict_set c1 "schemas" (JObj (dict_update schemas OpenApi.all_schemas)))))
    by congruence.
  clear Hrun. subst schema.
  assert (Hgen : forall rest,
            json_path (JObj generated) ("components" :: rest)
            = match dict_get generated "components" with
              | Some _ => json_path (JObj components) rest
              | None => None
              end).
  { intros rest. rewrite json_path_cons. destruct (dict_get generated "components"); [| reflexivity].
    simpl in Hcomp. now subst. }
  split_and!.
  - intros name Hname.
    rewrite json_path_cons, dict_get_set_eq. cbv beta iota.
    rewrite json_path_cons, dict_get_set_eq. cbv beta iota.
    rewrite json_path_cons.
    rewrite (dict_update_lookup _ _ name (OpenApi.model_json_schema name)); [reflexivity | |].
    + now apply (bool_decide_unpack (NoDup _)).
    + unfold model_names in Hname. unfold OpenApi.all_schemas.
      repeat (apply elem_of_cons in Hname as [-> | Hname];
              [rewrite !elem_of_cons; tauto |]).
      now apply elem_of_nil in Hname.
  - intros k Hk. rewrite Hgen.
    rewrite json_path_cons, dict_get_set_eq. cbv beta iota.
    rewrite json_path_cons, dict_get_set_eq. cbv beta iota.
    rewrite !json_path_cons.
    rewrite dict_update_lookup_other by exact Hk.
    destruct (dict_get generated "components") as [c |] eqn:Hc.
    + destruct (dict_get components "schemas") as [sc |] eqn:Hs.
      * simpl in Hsch. now subst sc.
      * simpl in Hsch. now injection Hsch as <-.
    + simpl in Hcomp. injection Hcomp as <-. simpl in Hsch. now injection Hsch as <-.
  - intros k Hk. rewrite Hgen.
    rewrite json_path_cons, dict_get_set_eq. cbv beta iota.
    rewrite !json_path_cons.
    rewrite dict_get_set_ne by congruence. rewrite (Hc1k k Hk).
    destruct (dict_get generated "components") as [c |] eqn:Hc; [reflexivity |].
    simpl in Hcomp. now injection Hcomp as <-.
  - intros k Hk. rewrite dict_get_set_ne by congruence. now apply Hg1.
Qed.

(** X21. Generation fails only on a malformed generated schema: with no
    schema cached it succeeds exactly when [components], where present, is
    a dict and its [schemas], where present, is a dict too. *)
Theorem openapi_generation_succeeds_iff app :
  cached app = false ->
  let generated :=
    OpenApi.get_openapi (OpenApi.title app) (OpenApi.version app)
      (OpenApi.description app) (OpenApi.routes app) in
  (exists schema app', OpenApi.generate_custom_openapi_schema app = inr (schema, app'))
  <-> dict_or_absent (dict_get generated "components")
      /\ dict_or_absent (json_path (JObj generated) ["components"; "schemas"]).
Proof.
  intros Hcached generated. rewrite (generate_uncached _ Hcached).
  unfold OpenApi.generate_custom_openapi_schema. cbn [OpenApi.openapi_schema OpenApi.title
    OpenApi.version OpenApi.description OpenApi.routes].
  fold generated. cbn [json_path].
  destruct (dict_get generated "components") as [c |] eqn:Hc.
  - rewrite Hc. destruct c as [| | | | | | components]; cbn [dict_or_absent];
      try (split; [intros (? & ? & [=]) | tauto]).
    destruct (dict_get components "schemas") as [sc |] eqn:Hs.
    + rewrite Hs. destruct sc; cbn [dict_or_absent];
        try (split; [intros (? & ? & [=]) | tauto]).
      split; eauto.
    + rewrite !dict_get_set_eq. cbn. split; eauto.
  - rewrite !dict_get_set_eq. cbn. split; eauto.
Qed.

End OpenApiExtras.

Section AppExtras.
Context {Handle : Type}.

(** X22. Between startup and shutdown the client dependency is served:
    after [lifespan] stored the handle, whatever the store held before,
    [get_dod_sbir_client] returns a client around that handle with the
    gateway's base headers; before startup and after shutdown it raises
    [RuntimeError]. *)
Theorem client_served_during_lifespan (c : Handle) (store : gmap string Handle) :
  App.get_dod_sbir_client (App.lifespan_startup c store)
  = inr {| App.client := c; App.base_headers := Client.base_headers |}
  /\ (exists message,
        App.get_dod_sbir_client (App.lifespan_shutdown (App.lifespan_startup c store))
        = inl (RuntimeError message))
  /\ (exists message,
        App.get_dod_sbir_client (∅ : gmap string Handle) = inl (RuntimeError message)).
Proof.
  unfold App.get_dod_sbir_client, App.lifespan_startup, App.lifespan_shutdown.
  rewrite lookup_insert_eq, lookup_empty. eauto.
Qed.

End AppExtras.

(** ** Concrete runs of the further properties *)




(** X6 at work: the upstream cannot be reached. *)
Lemma search_endpoint_failures_witness :
  exists status detail,
    fst (Topics.search_topics_endpoint first_page (start one_down))
    = inl (HTTPException status detail).
Proof.
  destruct (Topics.search_topics_endpoint first_page (start one_down))
    as [[e | r] s'] eqn:Hrun.
  - destruct (search_endpoint_failures _ _ _ _ Hrun) as [(m & sc & _ & -> & _) | (m & ->)];
      simpl; eauto.
  - vm_compute in Hrun. discriminate Hrun.
Defined.

(** X7 at work: two topics out of two on the first page of ten. *)
Lemma search_endpoint_success_witness :
  Topics.search_topics_endpoint first_page (start healthy)
  = (inr {| Topics.sr_topics := two_topics; Topics.sr_total := 2; Topics.sr_page := 0;
            Topics.sr_page_size := 10; Topics.sr_has_more := false |},
     after_send (search_request_sent first_page) (start healthy)).
Proof.
  apply (search_endpoint_success first_page (start healthy)
           (at_url (Client.search_url first_page) (ok_json two_raw_topics))
           [("data", JArr [raw_topic "A" "1"; raw_topic "B" "2"]); ("total", JInt 2)]
           [raw_topic "A" "1"; raw_topic "B" "2"] two_topics 2);
    vm_compute; reflexivity.
Defined.

(** X8 at work: the second of two items has no title. *)
Lemma malformed_topic_fails_search_witness :
  exists d,
    Topics.search_topics_endpoint first_page (start malformed_page)
    = (inl (HTTPException 500 (error_detail d "INTERNAL_ERROR")),
       after_send (search_request_sent first_page) (start malformed_page)).
Proof.
  destruct (Schemas.Topic_model_validate (JObj [("topicCode", JStr "B")]))
    as [e | t] eqn:Hbad; [| vm_compute in Hbad; discriminate Hbad].
  apply (malformed_topic_fails_search first_page (start malformed_page)
           (at_url (Client.search_url first_page)
              (ok_json (JObj [("data", JArr [raw_topic "A" "1";
                                             JObj [("topicCode", JStr "B")]]);
                              ("total", JInt 2)])))
           [("data", JArr [raw_topic "A" "1"; JObj [("topicCode", JStr "B")]]);
            ("total", JInt 2)]
           [raw_topic "A" "1"; JObj [("topicCode", JStr "B")]]
           (JObj [("topicCode", JStr "B")]) e);
    try (vm_compute; reflexivity); [| exact Hbad].
  apply elem_of_cons. right. apply elem_of_cons. now left.
Defined.

(** X9 at work: an integer release number on a topic that validates. *)
Lemma release_number_is_stringified_witness :
  Schemas.Topic_model_validate
    (JObj [("releaseNumber", JInt 7);
           ("topicCode", JStr "A"); ("topicTitle", JStr "title");
           ("component", JStr "ARMY"); ("topicStatus", JStr "Open");
           ("solicitationTitle", JStr "solicitation"); ("topicId", JStr "1")])
  = inr (with_release_number (mk_topic "A" "1") (Some "7")).
Proof.
  apply (release_number_is_stringified
           [("topicCode", JStr "A"); ("topicTitle", JStr "title");
            ("component", JStr "ARMY"); ("topicStatus", JStr "Open");
            ("solicitationTitle", JStr "solicitation"); ("topicId", JStr "1")]
           (mk_topic "A" "1") (JInt 7)).
  vm_compute. reflexivity.
Defined.



(** X16 at work: 25 topics in pages of ten, seen from the first page. *)
Lemma form_main_paging_consistent_witness :
  fst (FormMain.query_api (Some "radar") 0 10 (start paged))
  = inr (JArr [raw_topic "A" "1"; raw_topic "B" "2"], JInt 25, true, 3)
  /\ true = (0 + 1 <? 3).
Proof.
  assert (Hrun : FormMain.query_api (Some "radar") 0 10 (start paged)
                 = (inr (JArr [raw_topic "A" "1"; raw_topic "B" "2"], JInt 25, true, 3),
                    after_send (form_main_search_request (Some "radar") 0 10) (start paged)))
    by (vm_compute; reflexivity).
  assert (Hceil : ceil_truediv (JInt 25) 10 = Some (- ((- 25) / 10)))
    by (vm_compute; reflexivity).
  split; [now rewrite Hrun |].
  apply (form_main_paging_consistent (Some "radar") 0 10 (start paged) _ 25 true 3 _
           ltac:(lia) Hceil Hrun).
Defined.

(** X13 at work: document 1 is served, document 2 is not. *)
Lemma form_main_single_selection_witness :
  fst (FormMain.fetch_selected two_raw_map ["A"] (start second_down))
  = inr (pdf_response "A" pdf_A)
  /\ exists e, fst (FormMain.fetch_selected two_raw_map ["B"] (start second_down)) = inl e.
Proof.
  assert (Hok : raw_table_ok two_raw_map).
  { apply (raw_topic_map_ok (JArr [raw_topic "A" "1"; raw_topic "B" "2"])).
    vm_compute. reflexivity. }
  pose proof (form_main_single_selection two_raw_map "A" (start second_down) Hok) as HA.
  pose proof (form_main_single_selection two_raw_map "B" (start second_down) Hok) as HB.
  assert (HlA : two_raw_map !! "A" = Some (raw_topic "A" "1")) by (vm_compute; reflexivity).
  assert (HlB : two_raw_map !! "B" = Some (raw_topic "B" "2")) by (vm_compute; reflexivity).
  rewrite HlA in HA. rewrite HlB in HB.
  destruct HA as (uidA & HuA & _ & -> & _). destruct HB as (uidB & HuB & _ & -> & _).
  vm_compute in HuA, HuB. injection HuA as <-. injection HuB as <-.
  split; [vm_compute; reflexivity | eexists; vm_compute; reflexivity].
Defined.

(** X14 at work: document 1 is served, document 2 is not. *)
Lemma form_src_single_selection_witness :
  fst (FormSrc.fetch_selected two_raw_map "radar" 0 ["A"] (start second_down))
  = inr (pdf_response "A" pdf_A)
  /\ exists e,
       fst (FormSrc.fetch_selected two_raw_map "radar" 0 ["B"] (start second_down)) = inl e.
Proof.
  assert (Hok : raw_table_ok two_raw_map).
  { apply (raw_topic_map_ok (JArr [raw_topic "A" "1"; raw_topic "B" "2"])).
    vm_compute. reflexivity. }
  pose proof (form_src_single_selection two_raw_map "radar" 0 "A" (start second_down) Hok)
    as HA.
  pose proof (form_src_single_selection two_raw_map "radar" 0 "B" (start second_down) Hok)
    as HB.
  assert (HlA : two_raw_map !! "A" = Some (raw_topic "A" "1")) by (vm_compute; reflexivity).
  assert (HlB : two_raw_map !! "B" = Some (raw_topic "B" "2")) by (vm_compute; reflexivity).
  rewrite HlA in HA. rewrite HlB in HB.
  destruct HA as (uidA & HuA & HA). destruct HB as (uidB & HuB & HB).
  vm_compute in HuA, HuB. injection HuA as <-. injection HuB as <-.
  cbn [py_truthy negb String.eqb Ascii.eqb Bool.eqb] in HA, HB.
  destruct HA as (_ & -> & _). destruct HB as (_ & -> & _).
  split; [vm_compute; reflexivity | eexists; vm_compute; reflexivity].
Defined.

(** X19 at work: the schema of a fresh application, asked for twice. *)
Lemma openapi_schema_is_cached_witness :
  exists schema app',
    OpenApi.generate_custom_openapi_schema fresh_app = inr (schema, app')
    /\ OpenApi.generate_custom_openapi_schema app' = inr (schema, app').
Proof.
  destruct (OpenApi.generate_custom_openapi_schema fresh_app) as [e | [schema app']] eqn:Hgen;
    [vm_compute in Hgen; discriminate Hgen |].
  exists schema, app'. split; [reflexivity |].
  apply (openapi_schema_is_cached fresh_app schema app' Hgen).
Defined.

(** X20 at work: the generated schema of [Topic] is replaced, the schema
    that FastAPI added by itself is kept. *)
Lemma openapi_registers_models_witness :
  exists schema app',
    OpenApi.generate_custom_openapi_schema fresh_app = inr (schema, app')
    /\ json_path (JObj schema) ["components"; "schemas"; "Topic"]
       = Some (JObj [("title", JStr "Topic")])
    /\ json_path (JObj schema) ["components"; "schemas"; "HTTPValidationError"]
       = Some (JObj [("type", JStr "object")]).
Proof.
  destruct (OpenApi.generate_custom_openapi_schema fresh_app) as [e | [schema app']] eqn:Hgen;
    [vm_compute in Hgen; discriminate Hgen |].
  destruct (openapi_registers_models fresh_app schema app' eq_refl Hgen)
    as (Hmodels & Hothers & _).
  exists schema, app'. split_and!; [reflexivity | |].
  - rewrite Hmodels; [reflexivity | apply elem_of_cons; now left].
  - rewrite Hothers; [reflexivity |].
    now apply (bool_decide_unpack (_ ∉ _)).
Defined.

(** X21 at work: the generated schema of a fresh application is well
    formed. *)
Lemma openapi_generation_succeeds_iff_witness :
  exists schema app', OpenApi.generate_custom_openapi_schema fresh_app = inr (schema, app').
Proof.
  apply (openapi_generation_succeeds_iff fresh_app eq_refl). split; exact I.
Defined.
